(** * WhatsApp Secretary: the tool-calling broker, verified

    A shallow embedding of the broker of the WhatsApp Secretary:
    - [MCPLLMService]     (src/services/mcp-llm-service.js):
                          [parseToolResponse], [formatResponse], and the
                          loop of [processEventMessage] that runs the tools;
    - [GPT4MCPBridge]     (src/services/gpt4-mcp-bridge.js):
                          [processMessage], [executeToolCall],
                          [parseDateTime], [addOneHour];
    - [CalendarMCPServer] (src/mcp/calendar-server.js):
                          [handleRequest], [handleDeleteEvent],
                          [handleUpdateEvent], [findEventByIdentifier],
                          [parseDateTime], [parseDateRange];
    - [CalendarService]   (src/services/calendar-service.js):
                          [getEvents], [deleteEvent], [updateEvent];
    - [CalendarEvents]    (src/services/calendar-service.js):
                          [createEvent], [buildEventData], [parseDateTime],
                          [buildEventDescription], [addOneHour];
    - [BridgeTools]       (src/services/gpt4-mcp-bridge.js): the five
                          handlers behind [executeToolCall];
    - [ServerTools]       (src/mcp/calendar-server.js):
                          [handleListEvents], [handleCreateEvent],
                          [handleSearchEvents], [extractDate], [extractTime];
    - [MCPLLMPipeline]    (src/services/mcp-llm-service.js):
                          [processEventMessage],
                          [generateResponseWithTools], [extractTitle];
    - [Config]            (src/config.js) and [DebugLogger]
                          (src/utils/debug.js): the settings read from the
                          environment and the numbered log.

    The JavaScript platform (values, truthiness, [JSON.parse], [Date]) is
    modelled in [JS] and [JSDate]; the language model, the calendar store and
    the moment.js parser are collaborators the code calls, and appear as
    section variables: every theorem holds whatever they answer. *)

From Stdlib Require Import String Ascii List ZArith Lia Bool.
Import ListNotations.
Open Scope string_scope.
Set Warnings "-register-all".

(* ================================================================== *)
(** * The JavaScript platform *)
(* ================================================================== *)

Module JS.

(** Values that [JSON.parse] can build.  [JNum m e] is the number
    [m * 10^e]; JavaScript's [undefined] is the [None] of [option json]. *)
Inductive json : Type :=
| JNull
| JBool (b : bool)
| JNum (m e : Z)
| JStr (s : string)
| JArr (l : list json)
| JObj (kvs : list (string * json)).

(** Thrown values; only [error.message] is ever read by the code. *)
Inductive exn : Type :=
| Error (msg : string)
| TypeError (msg : string)
| SyntaxError (msg : string)
| RangeError (msg : string).

Definition message (e : exn) : string :=
  match e with
  | Error m | TypeError m | SyntaxError m | RangeError m => m
  end.

(** The result of evaluating an expression that may throw. *)
Inductive outcome (A : Type) : Type :=
| Ok (a : A)
| Throw (e : exn).
Arguments Ok {A} a.
Arguments Throw {A} e.

(** ToBoolean. *)
Definition truthy (v : json) : bool :=
  match v with
  | JNull => false
  | JBool b => b
  | JNum m _ => negb (m =? 0)%Z
  | JStr s => negb (s =? "")
  | JArr _ | JObj _ => true
  end.

Definition truthy_opt (o : option json) : bool :=
  match o with
  | None => false
  | Some v => truthy v
  end.

(** An object built from JSON text keeps the last binding of a key. *)
Fixpoint assoc_last (k : string) (kvs : list (string * json)) : option json :=
  match kvs with
  | [] => None
  | (k', v) :: r =>
      match assoc_last k r with
      | Some w => Some w
      | None => if k =? k' then Some v else None
      end
  end.

(** [v.k] for one of the data property names the code reads ([name],
    [arguments], [intent], [success], ...): none of them is defined on the
    prototypes of strings, numbers, booleans or arrays. *)
Definition get (v : json) (k : string) : outcome (option json) :=
  match v with
  | JNull => Throw (TypeError ("Cannot read properties of null (reading '" ++ k ++ "')"))
  | JObj kvs => Ok (assoc_last k kvs)
  | _ => Ok None
  end.

(** The same on a value that may be [undefined]. *)
Definition get_opt (o : option json) (k : string) : outcome (option json) :=
  match o with
  | None => Throw (TypeError ("Cannot read properties of undefined (reading '" ++ k ++ "')"))
  | Some v => get v k
  end.

(** The member [k] of a value that is not [null]. *)
Definition field (v : json) (k : string) : option json :=
  match v with
  | JObj kvs => assoc_last k kvs
  | _ => None
  end.

Definition field_opt (o : option json) (k : string) : option json :=
  match o with
  | Some v => field v k
  | None => None
  end.

(** [a || b] on values. *)
Definition or_else (o : option json) (d : json) : json :=
  match o with
  | Some v => if truthy v then v else d
  | None => d
  end.

(** ** Strings *)

Fixpoint join (sep : string) (l : list string) : string :=
  match l with
  | [] => ""
  | [x] => x
  | x :: r => x ++ sep ++ join sep r
  end.

Definition newline : string := String "010"%char "".

Definition lower_char (c : ascii) : ascii :=
  let n := nat_of_ascii c in
  if (Nat.leb 65 n && Nat.leb n 90)%bool then ascii_of_nat (n + 32) else c.

(** [toLowerCase] on the ASCII letters. *)
Fixpoint toLowerCase (s : string) : string :=
  match s with
  | "" => ""
  | String c r => String (lower_char c) (toLowerCase r)
  end.

Fixpoint starts_with (p s : string) : bool :=
  match p, s with
  | "", _ => true
  | String a p', String b s' => (a =? b)%char && starts_with p' s'
  | _, _ => false
  end.

(** [s.includes(p)]. *)
Fixpoint includes (s p : string) : bool :=
  starts_with p s ||
  match s with
  | "" => false
  | String _ r => includes r p
  end.

Fixpoint ends_with (s p : string) : bool :=
  (s =? p) ||
  match s with
  | "" => false
  | String _ r => ends_with r p
  end.

Fixpoint has_char (c : ascii) (s : string) : bool :=
  match s with
  | "" => false
  | String x r => (x =? c)%char || has_char c r
  end.

(** Text with double quotes, written with apostrophes: [quoted "{'a':1}"] is
    the seven characters [{"a":1}]. *)
Fixpoint quoted (s : string) : string :=
  match s with
  | "" => ""
  | String c r => String (if (c =? "'")%char then "034"%char else c) (quoted r)
  end.

(** Decimal digits of a natural number, most significant first. *)
Fixpoint digits_fuel (fuel : nat) (n : Z) (acc : string) : string :=
  match fuel with
  | O => acc
  | S f =>
      let acc' := String (ascii_of_nat (Z.to_nat (48 + n mod 10))) acc in
      if (n <? 10)%Z then acc' else digits_fuel f (n / 10)%Z acc'
  end.

Definition decimal (n : Z) : string :=
  let a := Z.abs n in
  let d := digits_fuel (S (Z.to_nat (Z.log2 a))) a "" in
  if (n <? 0)%Z then String "-" d else d.

(** Number-to-string on the integers written without an exponent; the
    other numbers keep their exponent.  JavaScript prints the shortest
    decimal that reads back as the same double, which this model does not
    follow: the functions below take the rendering as a parameter. *)
Definition decimal_number (m e : Z) : string :=
  if (e =? 0)%Z then decimal m else (decimal m ++ "e" ++ decimal e).

Section ToString.

Variable Number_toString : Z -> Z -> string.

(** [String(v)], the coercion of a template literal. *)
Fixpoint ToString_json (v : json) : string :=
  match v with
  | JNull => "null"
  | JBool true => "true"
  | JBool false => "false"
  | JNum m e => Number_toString m e
  | JStr s => s
  | JArr l =>
      join "," (map (fun x => match x with
                              | JNull => ""
                              | _ => ToString_json x
                              end) l)
  | JObj _ => "[object Object]"
  end.

Definition ToString (o : option json) : string :=
  match o with
  | None => "undefined"
  | Some v => ToString_json v
  end.

End ToString.

(** [v[0]] on a value that is neither [null] nor [undefined]. *)
Definition index0 (v : json) : option json :=
  match v with
  | JArr l => nth_error l 0
  | JStr (String c _) => Some (JStr (String c ""))
  | JObj kvs => assoc_last "0" kvs
  | _ => None
  end.

(** [v === s] for a string literal [s]. *)
Definition is_string (v : json) (s : string) : bool :=
  match v with
  | JStr x => x =? s
  | _ => false
  end.

(** ** JSON.parse *)

Definition is_ws (c : ascii) : bool :=
  ((c =? " ") || (c =? "009") || (c =? "010") || (c =? "013"))%char.

Fixpoint skip_ws (s : string) : string :=
  match s with
  | String c r => if is_ws c then skip_ws r else s
  | "" => ""
  end.

Definition digit_val (c : ascii) : option Z :=
  let n := Z.of_nat (nat_of_ascii c) in
  if ((48 <=? n) && (n <=? 57))%Z then Some (n - 48)%Z else None.

Definition hex_val (c : ascii) : option Z :=
  let n := Z.of_nat (nat_of_ascii c) in
  if ((48 <=? n) && (n <=? 57))%Z then Some (n - 48)%Z
  else if ((65 <=? n) && (n <=? 70))%Z then Some (n - 55)%Z
  else if ((97 <=? n) && (n <=? 102))%Z then Some (n - 87)%Z
  else None.

(** Reads a (possibly empty) run of digits: value, number of digits, rest. *)
Fixpoint read_digits (s : string) (acc cnt : Z) : Z * Z * string :=
  match s with
  | String c r =>
      match digit_val c with
      | Some d => read_digits r (10 * acc + d)%Z (cnt + 1)%Z
      | None => (acc, cnt, s)
      end
  | "" => (acc, cnt, s)
  end.

Definition byte (n : Z) : ascii := ascii_of_nat (Z.to_nat n).

(** A [\uXXXX] code unit, stored as UTF-8 bytes. *)
Definition utf8 (cp : Z) : string :=
  if (cp <? 128)%Z then String (byte cp) ""
  else if (cp <? 2048)%Z then
    String (byte (192 + cp / 64)) (String (byte (128 + cp mod 64)) "")
  else
    String (byte (224 + cp / 4096))
      (String (byte (128 + (cp / 64) mod 64)) (String (byte (128 + cp mod 64)) "")).

(** The characters of a string literal, after the opening quote. *)
Fixpoint parse_chars (s : string) : option (string * string) :=
  match s with
  | "" => None
  | String c r =>
      if (c =? "034")%char then Some ("", r)
      else if (c =? "\")%char then
        match r with
        | String e r' =>
            let plain (x : ascii) :=
              match parse_chars r' with
              | Some (t, rest) => Some (String x t, rest)
              | None => None
              end in
            if (e =? "034")%char then plain "034"%char
            else if (e =? "\")%char then plain "\"%char
            else if (e =? "/")%char then plain "/"%char
            else if (e =? "b")%char then plain "008"%char
            else if (e =? "f")%char then plain "012"%char
            else if (e =? "n")%char then plain "010"%char
            else if (e =? "r")%char then plain "013"%char
            else if (e =? "t")%char then plain "009"%char
            else if (e =? "u")%char then
              match r' with
              | String h1 (String h2 (String h3 (String h4 r''))) =>
                  match hex_val h1, hex_val h2, hex_val h3, hex_val h4,
                        parse_chars r'' with
                  | Some a, Some b, Some c', Some d, Some (t, rest) =>
                      Some (utf8 (4096 * a + 256 * b + 16 * c' + d)%Z ++ t, rest)
                  | _, _, _, _, _ => None
                  end
              | _ => None
              end
            else None
        | "" => None
        end
      else if Nat.ltb (nat_of_ascii c) 32 then None
      else
        match parse_chars r with
        | Some (t, rest) => Some (String c t, rest)
        | None => None
        end
  end.

(** A number: [-? int frac? exp?]. *)
Definition parse_number (s : string) : option (json * string) :=
  let '(neg, s1) :=
    match s with
    | String "-"%char r => (true, r)
    | _ => (false, s)
    end in
  match s1 with
  | String c r =>
      match digit_val c with
      | None => None
      | Some d =>
          let '(ip, _, s2) := if (d =? 0)%Z then (0%Z, 1%Z, r) else read_digits r d 1 in
          let frac :=
            match s2 with
            | String "."%char r2 =>
                let '(m, cnt, s3) := read_digits r2 ip 0 in
                if (cnt =? 0)%Z then None else Some (m, cnt, s3)
            | _ => Some (ip, 0%Z, s2)
            end in
          match frac with
          | None => None
          | Some (m, cnt, s3) =>
              let sm := if neg then (- m)%Z else m in
              match s3 with
              | String x r3 =>
                  if ((x =? "e") || (x =? "E"))%char then
                    let '(eneg, r4) :=
                      match r3 with
                      | String "-"%char r4 => (true, r4)
                      | String "+"%char r4 => (false, r4)
                      | _ => (false, r3)
                      end in
                    let '(ex, ecnt, s5) := read_digits r4 0 0 in
                    if (ecnt =? 0)%Z then None
                    else Some (JNum sm ((if eneg then - ex else ex) - cnt)%Z, s5)
                  else Some (JNum sm (- cnt)%Z, s3)
              | "" => Some (JNum sm (- cnt)%Z, s3)
              end
          end
      end
  | "" => None
  end.

Definition strip_prefix (p s : string) : option string :=
  if starts_with p s
  then Some (substring (String.length p) (String.length s - String.length p) s)
  else None.

Fixpoint parse_value (fuel : nat) (s : string) {struct fuel}
  : option (json * string) :=
  match fuel with
  | O => None
  | S f =>
      match skip_ws s with
      | "" => None
      | String c r as s' =>
          if (c =? "{")%char then
            match skip_ws r with
            | String "}"%char r' => Some (JObj [], r')
            | r' => parse_members f r' []
            end
          else if (c =? "[")%char then
            match skip_ws r with
            | String "]"%char r' => Some (JArr [], r')
            | r' => parse_elements f r' []
            end
          else if (c =? "034")%char then
            match parse_chars r with
            | Some (t, rest) => Some (JStr t, rest)
            | None => None
            end
          else if (c =? "t")%char then
            option_map (fun rest => (JBool true, rest)) (strip_prefix "true" s')
          else if (c =? "f")%char then
            option_map (fun rest => (JBool false, rest)) (strip_prefix "false" s')
          else if (c =? "n")%char then
            option_map (fun rest => (JNull, rest)) (strip_prefix "null" s')
          else parse_number s'
      end
  end

with parse_members (fuel : nat) (s : string) (acc : list (string * json))
  {struct fuel} : option (json * string) :=
  match fuel with
  | O => None
  | S f =>
      match skip_ws s with
      | String "034"%char r =>
          match parse_chars r with
          | Some (k, r1) =>
              match skip_ws r1 with
              | String ":"%char r2 =>
                  match parse_value f r2 with
                  | Some (v, r3) =>
                      match skip_ws r3 with
                      | String ","%char r4 => parse_members f r4 (acc ++ [(k, v)])
                      | String "}"%char r4 => Some (JObj (acc ++ [(k, v)]), r4)
                      | _ => None
                      end
                  | None => None
                  end
              | _ => None
              end
          | None => None
          end
      | _ => None
      end
  end

with parse_elements (fuel : nat) (s : string) (acc : list json)
  {struct fuel} : option (json * string) :=
  match fuel with
  | O => None
  | S f =>
      match parse_value f s with
      | Some (v, r1) =>
          match skip_ws r1 with
          | String ","%char r2 => parse_elements f r2 (acc ++ [v])
          | String "]"%char r2 => Some (JArr (acc ++ [v]), r2)
          | _ => None
          end
      | None => None
      end
  end.

(** [JSON.parse]: [None] stands for the thrown [SyntaxError]. *)
Definition JSON_parse (s : string) : option json :=
  match parse_value (S (String.length s)) s with
  | Some (v, rest) => if skip_ws rest =? "" then Some v else None
  | None => None
  end.

(** ** JSON.stringify, without indentation *)

Definition dq : string := String "034"%char "".

Definition hex_digit (n : Z) : ascii :=
  if (n <? 10)%Z then byte (48 + n) else byte (87 + n).

Fixpoint escape (s : string) : string :=
  match s with
  | "" => ""
  | String c r =>
      let n := Z.of_nat (nat_of_ascii c) in
      (if (n =? 34)%Z then String "\" dq
       else if (n =? 92)%Z then "\\"
       else if (n =? 8)%Z then "\b"
       else if (n =? 12)%Z then "\f"
       else if (n =? 10)%Z then "\n"
       else if (n =? 13)%Z then "\r"
       else if (n =? 9)%Z then "\t"
       else if (n <? 32)%Z then
         "\u00" ++ String (hex_digit (n / 16)) (String (hex_digit (n mod 16)) "")
       else String c "") ++ escape r
  end.

Fixpoint JSON_stringify (v : json) : string :=
  match v with
  | JNull => "null"
  | JBool true => "true"
  | JBool false => "false"
  | JNum m e => decimal_number m e
  | JStr s => dq ++ escape s ++ dq
  | JArr l => "[" ++ join "," (map JSON_stringify l) ++ "]"
  | JObj kvs =>
      "{" ++ join "," (map (fun '(k, x) => dq ++ escape k ++ dq ++ ":" ++ JSON_stringify x) kvs)
      ++ "}"
  end.

End JS.

Import JS.

(* ================================================================== *)
(** * Dates: the [Date] object and moment.js *)
(* ================================================================== *)

Module JSDate.
Local Open Scope Z_scope.

(** A time value is a number of milliseconds since 1970-01-01T00:00:00Z. *)
Definition msPerDay : Z := 86400000.
Definition msPerHour : Z := 3600000.
Definition maxTime : Z := 8640000000000000.

Definition in_range (t : Z) : bool := (- maxTime <=? t) && (t <=? maxTime).

(** The proleptic Gregorian calendar: the date of a day number and back
    (day 0 is 1970-01-01; the year of the computation starts in March). *)
Definition civil_from_days (z : Z) : Z * Z * Z :=
  let z := z + 719468 in
  let era := z / 146097 in
  let doe := z mod 146097 in
  let yoe := (doe - doe / 1460 + doe / 36524 - doe / 146096) / 365 in
  let doy := doe - (365 * yoe + yoe / 4 - yoe / 100) in
  let mp := (5 * doy + 2) / 153 in
  let d := doy - (153 * mp + 2) / 5 + 1 in
  let m := if mp <? 10 then mp + 3 else mp - 9 in
  (yoe + era * 400 + (if m <=? 2 then 1 else 0), m, d).

Definition days_from_civil (y m d : Z) : Z :=
  let y := if m <=? 2 then y - 1 else y in
  let era := y / 400 in
  let yoe := y mod 400 in
  let doy := (153 * (if 2 <? m then m - 3 else m + 9) + 2) / 5 + d - 1 in
  let doe := yoe * 365 + yoe / 4 - yoe / 100 + doy in
  era * 146097 + doe - 719468.

Definition is_leap (y : Z) : bool :=
  (y mod 4 =? 0) && (negb (y mod 100 =? 0) || (y mod 400 =? 0)).

Definition days_in_month (y m : Z) : Z :=
  if m =? 2 then (if is_leap y then 29 else 28)
  else if (m =? 4) || (m =? 6) || (m =? 9) || (m =? 11) then 30
  else 31.

(** ** Fixed-width decimal fields *)

Definition digit (n : Z) : ascii := ascii_of_nat (Z.to_nat (48 + n)).

Fixpoint pad (k : nat) (n : Z) : string :=
  match k with
  | O => ""
  | S k' => String (digit ((n / 10 ^ Z.of_nat k') mod 10)) (pad k' n)
  end.

Fixpoint read_fixed (k : nat) (s : string) (acc : Z) : option (Z * string) :=
  match k with
  | O => Some (acc, s)
  | S k' =>
      match s with
      | String c r =>
          match digit_val c with
          | Some d => read_fixed k' r (10 * acc + d)
          | None => None
          end
      | "" => None
      end
  end.

(** ** Date.prototype.toISOString *)

Definition year_string (y : Z) : string :=
  if (0 <=? y) && (y <=? 9999) then pad 4 y
  else String (if y <? 0 then "-"%char else "+"%char) (pad 6 (Z.abs y)).

(** The UTC reading of a time value, [YYYY-MM-DDTHH:mm:ss.sssZ]. *)
Definition toISOString (t : Z) : string :=
  let tod := t mod msPerDay in
  let '(y, m, d) := civil_from_days (t / msPerDay) in
  year_string y ++ "-" ++ pad 2 m ++ "-" ++ pad 2 d ++ "T"
  ++ pad 2 (tod / 3600000) ++ ":" ++ pad 2 ((tod / 60000) mod 60) ++ ":"
  ++ pad 2 ((tod / 1000) mod 60) ++ "." ++ pad 3 (tod mod 1000) ++ "Z".

(** ** new Date(text) *)

Definition expect (c : ascii) (s : string) : option string :=
  match s with
  | String x r => if (x =? c)%char then Some r else None
  | "" => None
  end.

Definition parse_year (s : string) : option (Z * string) :=
  match s with
  | String c r =>
      if (c =? "+")%char then read_fixed 6 r 0
      else if (c =? "-")%char then
        match read_fixed 6 r 0 with
        | Some (y, r') => if y =? 0 then None else Some (- y, r')
        | None => None
        end
      else read_fixed 4 s 0
  | "" => None
  end.

(** The zone designator, [Z] or [+HH:mm] or [-HH:mm], up to the end of the
    text: the offset in milliseconds. *)
Definition parse_zone (s : string) : option Z :=
  match s with
  | String c r =>
      if (c =? "Z")%char then (if (r =? "")%string then Some 0 else None)
      else if ((c =? "+") || (c =? "-"))%char then
        match read_fixed 2 r 0 with
        | Some (hh, r1) =>
            match expect ":" r1 with
            | Some r2 =>
                match read_fixed 2 r2 0 with
                | Some (mm, r3) =>
                    if (r3 =? "")%string && (hh <=? 23) && (mm <=? 59)
                    then Some ((if (c =? "-")%char then -1 else 1)
                               * (hh * 60 + mm) * 60000)
                    else None
                | None => None
                end
            | None => None
            end
        | None => None
        end
      else None
  | "" => None
  end.

(** Seconds and milliseconds are optional: [:ss] and then [.sss]. *)
Definition parse_seconds (s : string) : option (Z * Z * string) :=
  match expect ":" s with
  | Some r =>
      match read_fixed 2 r 0 with
      | Some (ss, r1) =>
          match expect "." r1 with
          | Some r2 =>
              match read_fixed 3 r2 0 with
              | Some (ms, r3) => Some (ss, ms, r3)
              | None => None
              end
          | None => Some (ss, 0, r1)
          end
      | None => None
      end
  | None => Some (0, 0, s)
  end.

Definition bind {A B} (x : option A) (f : A -> option B) : option B :=
  match x with
  | Some a => f a
  | None => None
  end.

(** The time value of a date-time text in the format of the language
    standard, with a time and a zone designator; [None] is the invalid date.
    Texts in other formats, which an engine may read in its own way, are not
    covered. *)
Definition Date_parse (s : string) : option Z :=
  bind (parse_year s) (fun '(y, s) =>
  bind (expect "-" s) (fun s =>
  bind (read_fixed 2 s 0) (fun '(m, s) =>
  bind (expect "-" s) (fun s =>
  bind (read_fixed 2 s 0) (fun '(d, s) =>
  bind (expect "T" s) (fun s =>
  bind (read_fixed 2 s 0) (fun '(hh, s) =>
  bind (expect ":" s) (fun s =>
  bind (read_fixed 2 s 0) (fun '(mi, s) =>
  bind (parse_seconds s) (fun '(ss, ms, s) =>
  bind (parse_zone s) (fun zone =>
    if (1 <=? m) && (m <=? 12) && (1 <=? d) && (d <=? days_in_month y m)
       && (hh <=? 23) && (mi <=? 59) && (ss <=? 59)
    then
      let t := days_from_civil y m d * msPerDay
               + hh * 3600000 + mi * 60000 + ss * 1000 + ms - zone in
      if in_range t then Some t else None
    else None))))))))))).

(** ** getHours and setHours, in the local zone of the process *)

Section LocalZone.

(** The offset of the local zone, in milliseconds, taken constant. *)
Variable localOffset : Z.

Definition getHours (t : Z) : Z := ((t + localOffset) mod msPerDay) / msPerHour.

(** [date.setHours(h)]: the local day and the minutes, seconds and
    milliseconds stay. *)
Definition setHours (t h : Z) : Z :=
  let local := t + localOffset in
  (local / msPerDay) * msPerDay + h * msPerHour + (local mod msPerDay) mod msPerHour
  - localOffset.

End LocalZone.

(** [s.replace(c, by)] with a one-character pattern: the first occurrence. *)
Fixpoint replace (c : ascii) (by_ : string) (s : string) : string :=
  match s with
  | "" => ""
  | String x r => if (x =? c)%char then by_ ++ r else String x (replace c by_ r)
  end.

(** The text starts with a digit: its year is written with four digits,
    as ISO 8601 has it, not with a sign and six. *)
Definition four_digit_year (s : string) : bool :=
  match s with
  | String c _ =>
      match digit_val c with
      | Some _ => true
      | None => false
      end
  | "" => false
  end.

(** ** addOneHour

    The helper of [GPT4MCPBridge] and of [CalendarService], the same text in
    both (see [GPT4MCPBridge.addOneHour], [CalendarService.addOneHour]):
    [new Date(isoDateTime)], [date.setHours(date.getHours() + 1)],
    [date.toISOString().replace('Z', '+03:00')].  On an invalid date
    [toISOString] throws a [RangeError].  [Date_parse] stands for
    [new Date(text)] on the texts it covers. *)
Definition addOneHour (localOffset : Z) (isoDateTime : string) : outcome string :=
  match Date_parse isoDateTime with
  | None => Throw (RangeError "Invalid time value")
  | Some t =>
      let t' := setHours localOffset t (getHours localOffset t + 1) in
      if in_range t'
      then Ok (replace "Z" "+03:00" (toISOString t'))
      else Throw (RangeError "Invalid time value")
  end.

End JSDate.

(** moment-timezone, for a zone whose offset from UTC is constant over the
    days concerned (a whole number of minutes).  A moment is a time value, or
    invalid ([None]); [moment()] reads the clock. *)
Module Moment.
Local Open Scope Z_scope.
Import JSDate.

Section Zone.

(** The offset of the zone from UTC, in minutes (+03:00 is 180). *)
Variable utcOffset : Z.

Definition offset : Z := utcOffset * 60000.

Definition startOfDay (t : Z) : Z := t - (t + offset) mod msPerDay.
Definition endOfDay (t : Z) : Z := startOfDay t + msPerDay - 1.

(** The day of the week of the local date, Sunday being 0. *)
Definition weekday (t : Z) : Z := ((t + offset) / msPerDay + 4) mod 7.

Definition startOfWeek (t : Z) : Z := startOfDay t - weekday t * msPerDay.
Definition endOfWeek (t : Z) : Z := startOfWeek t + 7 * msPerDay - 1.

Definition startOfMonth (t : Z) : Z :=
  let '(_, _, d) := civil_from_days ((t + offset) / msPerDay) in
  startOfDay t - (d - 1) * msPerDay.

Definition endOfMonth (t : Z) : Z :=
  let '(y, m, _) := civil_from_days ((t + offset) / msPerDay) in
  startOfMonth t + days_in_month y m * msPerDay - 1.

Definition addDays (n t : Z) : Z := t + n * msPerDay.

(** [m.hour(h).minute(0).second(0)]: the milliseconds stay. *)
Definition atHour (h t : Z) : Z := startOfDay t + h * msPerHour + t mod 1000.

(** [parseDateRange], the same text in [GPT4MCPBridge] and in
    [CalendarMCPServer]: the window [{startTime, endTime}] of a range name,
    read at the time [now]. *)
Definition parseDateRange (now : Z) (rangeStr : string) : string * string :=
  let lower := toLowerCase rangeStr in
  let iso := JSDate.toISOString in
  if (lower =? "today")%string then
    (iso (startOfDay now), iso (endOfDay now))
  else if (lower =? "tomorrow")%string then
    (iso (startOfDay (addDays 1 now)), iso (endOfDay (addDays 1 now)))
  else if (lower =? "this week")%string then
    (iso (startOfWeek now), iso (endOfWeek now))
  else if (lower =? "next week")%string then
    (iso (startOfWeek (addDays 7 now)), iso (endOfWeek (addDays 7 now)))
  else if (lower =? "this month")%string then
    (iso (startOfMonth now), iso (endOfMonth now))
  else (iso now, iso (addDays 7 now)).

End Zone.

(** [m.toISOString()], which is [null] on an invalid moment. *)
Definition toISOString (m : option Z) : option string :=
  option_map JSDate.toISOString m.

End Moment.

(* ================================================================== *)
(** * The capability catalog *)
(* ================================================================== *)

Module Catalog.

(** A tool of [CalendarMCPServer.setupTools]: its name and the [required]
    member of its [inputSchema]. *)
Record ToolSpec : Type := { name : string; required : list string }.

Definition tools : list ToolSpec :=
  [ {| name := "list_calendar_events";   required := ["start_date"; "end_date"] |};
    {| name := "create_calendar_event";  required := ["title"; "start_time"] |};
    {| name := "update_calendar_event";  required := ["event_identifier"; "updates"] |};
    {| name := "delete_calendar_event";  required := ["event_identifier"] |};
    {| name := "search_calendar_events"; required := ["query"] |} ].

Definition schemaFor (n : string) : option ToolSpec :=
  find (fun t => name t =? n) tools.

Definition exists_ (n : string) : bool :=
  match schemaFor n with
  | Some _ => true
  | None => false
  end.

End Catalog.

(* ================================================================== *)
(** * CalendarService and CalendarMCPServer: the tool server *)
(* ================================================================== *)

Module CalendarService.

(** [addOneHour(isoDateTime)], which gives an event without an end its end
    time. *)
Definition addOneHour (localOffset : Z) (isoDateTime : string) : outcome string :=
  JSDate.addOneHour localOffset isoDateTime.

(** A call to the Google Calendar API: [events.get], [events.list],
    [events.delete], [events.update]. *)
Inductive api_call : Type :=
| EventsGet (eventId : option json)
| EventsList (timeMin timeMax : string)
| EventsDelete (eventId : option json)
| EventsUpdate (eventId : option json) (resource : json).

(** The state of the store with the calls made to it so far. *)
Record World (Store : Type) : Type := {
  store : Store;
  calls : list api_call
}.
Arguments store {Store} w.
Arguments calls {Store} w.

(** Code that reads and changes the world and may throw. *)
Definition M (Store A : Type) : Type := World Store -> outcome A * World Store.

Definition ret {Store A} (a : A) : M Store A := fun w => (Ok a, w).
Definition throw {Store A} (e : exn) : M Store A := fun w => (Throw e, w).
Definition lift {Store A} (o : outcome A) : M Store A := fun w => (o, w).

Definition bind {Store A B} (m : M Store A) (k : A -> M Store B) : M Store B :=
  fun w =>
    match m w with
    | (Ok a, w') => k a w'
    | (Throw e, w') => (Throw e, w')
    end.

(** [try { m } catch (error) { h error }]. *)
Definition try_catch {Store A} (m : M Store A) (h : exn -> M Store A) : M Store A :=
  fun w =>
    match m w with
    | (Ok a, w') => (Ok a, w')
    | (Throw e, w') => h e w'
    end.

Declare Scope js_scope.
Delimit Scope js_scope with js.
Notation "x <- m ;; k" := (bind m (fun x => k))
  (at level 61, m at next level, right associativity) : js_scope.

Section Service.

Variable Store : Type.

(** The Google Calendar API, as far as the tool server uses it: what a
    request answers in a state of the store (its [response.data], or the
    error thrown) and the state it leaves. *)
Variable events_get : Store -> option json -> outcome json.
Variable events_list : Store -> string -> string -> outcome (list json).
Variable events_delete : Store -> option json -> outcome unit * Store.
Variable events_update : Store -> option json -> json -> outcome json * Store.

Definition logged (c : api_call) (w : World Store) (st : Store) : World Store :=
  {| store := st; calls := (calls w ++ [c])%list |}.

(** [this.calendar.events.get({ calendarId, eventId })], then [.data]. *)
Definition calendar_events_get (eventId : option json) : M Store json :=
  fun w => (events_get (store w) eventId, logged (EventsGet eventId) w (store w)).

(** [getEvents]: [response.data.items || []]; an error is thrown again. *)
Definition getEvents (startTime endTime : string) : M Store (list json) :=
  fun w => (events_list (store w) startTime endTime,
            logged (EventsList startTime endTime) w (store w)).

(** [deleteEvent]: never throws. *)
Definition deleteEvent (eventId : option json) : M Store json :=
  fun w =>
    let '(r, st) := events_delete (store w) eventId in
    (Ok (match r with
         | Ok _ => JObj [("success", JBool true)]
         | Throw e => JObj [("success", JBool false); ("error", JStr (message e))]
         end),
     logged (EventsDelete eventId) w st).

(** [{ ...a, ...b }] on two objects. *)
Definition spread (a b : json) : json :=
  match a, b with
  | JObj x, JObj y => JObj (x ++ y)%list
  | JObj x, _ => JObj x
  | _, JObj y => JObj y
  | _, _ => JObj []
  end.

(** [updateEvent]: reads the event, merges the updates, writes it; never
    throws. *)
Definition updateEvent (eventId : option json) (updates : json) : M Store json :=
  fun w =>
    match events_get (store w) eventId with
    | Throw e =>
        (Ok (JObj [("success", JBool false); ("error", JStr (message e))]),
         logged (EventsGet eventId) w (store w))
    | Ok existing =>
        let resource := spread existing updates in
        let w1 := logged (EventsGet eventId) w (store w) in
        let '(r, st) := events_update (store w) eventId resource in
        (Ok (match r with
             | Ok data => JObj [("success", JBool true); ("event", data)]
             | Throw e => JObj [("success", JBool false); ("error", JStr (message e))]
             end),
         logged (EventsUpdate eventId resource) w1 st)
    end.

End Service.

End CalendarService.

Module CalendarMCPServer.
Import CalendarService.
Local Open Scope js_scope.

(** The members of an object literal; a member whose value is [undefined]
    is left out by [JSON.stringify]. *)
Definition object (members : list (string * option json)) : json :=
  JObj (flat_map (fun '(k, o) => match o with
                                 | Some v => [(k, v)]
                                 | None => []
                                 end) members).

(** [{ content: [{ type: "text", text }] }]. *)
Definition text_content (text : string) : json :=
  JObj [("content", JArr [JObj [("type", JStr "text"); ("text", JStr text)]])].

(** What the [catch] of [handleRequest] returns. *)
Definition error_content (e : exn) : json :=
  JObj [("content", JArr [JObj [("type", JStr "text");
                                ("text", JStr ("Error: " ++ message e))]]);
        ("isError", JBool true)].

(** A [tools/call] request: [request.params] may be missing, and so may
    its members. *)
Record call_params : Type := {
  name : option json;
  arguments : option json
}.

Record request : Type := {
  method : string;
  params : option call_params
}.

(** The request [MCPLLMService.executeTool] sends for a tool call. *)
Definition tool_call (tool : string) (args : option json) : request :=
  {| method := "tools/call";
     params := Some {| name := Some (JStr tool); arguments := args |} |}.

Section Server.

Variable Store : Type.
Variable events_get : Store -> option json -> outcome json.
Variable events_list : Store -> string -> string -> outcome (list json).
Variable events_delete : Store -> option json -> outcome unit * Store.
Variable events_update : Store -> option json -> json -> outcome json * Store.

(** The clock, the offset of [calendarService.timezone] in minutes, and
    [moment.tz(dateStr, timezone)]. *)
Variable now : Z.
Variable utcOffset : Z.
Variable moment_tz : string -> option Z.

(** [this.calendarService.timezone]. *)
Variable timezone : string.

Variable Number_toString : Z -> Z -> string.

(** [JSON.stringify(value, null, 2)]. *)
Variable JSON_stringify2 : json -> string.

(** The handlers of the three other tools and the answer to [tools/list]. *)
Variable handleListEvents handleCreateEvent handleSearchEvents
  : option json -> M Store json.
Variable tools : json.

Definition str (x : option json) : string := ToString Number_toString x.

(** [parseDateTime(dateStr, endOfDay = false)]. *)
Definition parseDateTime (dateStr : string) (endOfDay : bool) : option string :=
  let parsed : option Z :=
    if toLowerCase dateStr =? "today" then Some now
    else if toLowerCase dateStr =? "tomorrow" then Some (Moment.addDays 1 now)
    else if toLowerCase dateStr =? "yesterday" then Some (Moment.addDays (-1) now)
    else moment_tz dateStr in
  Moment.toISOString
    (if endOfDay then option_map (Moment.endOfDay utcOffset) parsed else parsed).

(** [parseDateRange(rangeStr)]. *)
Definition parseDateRange (rangeStr : string) : string * string :=
  Moment.parseDateRange utcOffset now rangeStr.

(** [parseDateTime] on a member of [updates], which need not be a string. *)
Definition parseDateTime_value (v : json) : outcome json :=
  match v with
  | JStr s =>
      Ok (match parseDateTime s false with
          | Some iso => JStr iso
          | None => JNull
          end)
  | _ => Throw (TypeError "dateStr.toLowerCase is not a function")
  end.

(** The callback of [events.find]:
    [event.summary?.toLowerCase().includes(identifier.toLowerCase())]. *)
Definition summary_matches (identifier : option json) (event : json)
  : outcome bool :=
  match get event "summary" with
  | Throw e => Throw e
  | Ok None | Ok (Some JNull) => Ok false
  | Ok (Some (JStr s)) =>
      match identifier with
      | Some (JStr i) => Ok (includes (toLowerCase s) (toLowerCase i))
      | _ => Throw (TypeError "identifier.toLowerCase is not a function")
      end
  | Ok (Some _) => Throw (TypeError "event.summary?.toLowerCase is not a function")
  end.

(** [events.find(callback)]. *)
Fixpoint find_event (identifier : option json) (events : list json)
  : outcome (option json) :=
  match events with
  | [] => Ok None
  | event :: rest =>
      match summary_matches identifier event with
      | Throw e => Throw e
      | Ok true => Ok (Some event)
      | Ok false => find_event identifier rest
      end
  end.

Definition findEventByIdentifier (identifier : option json)
  : M Store (option json) :=
  try_catch
    (event <- calendar_events_get Store events_get identifier ;; ret (Some event))
    (fun _ =>
       let '(startTime, endTime) := parseDateRange "this month" in
       events <- getEvents Store events_list startTime endTime ;;
       lift (find_event identifier events)).

Definition handleDeleteEvent (args : option json) : M Store json :=
  event_identifier <- lift (get_opt args "event_identifier") ;;
  confirmation <- lift (get_opt args "confirmation") ;;
  let confirmation := match confirmation with
                      | None => JBool true
                      | Some v => v
                      end in
  if negb (truthy confirmation)
  then throw (Error "Event deletion requires confirmation")
  else
    event <- findEventByIdentifier event_identifier ;;
    if negb (truthy_opt event)
    then throw (Error ("Event not found: " ++ str event_identifier))
    else
      result <- deleteEvent Store events_delete (field_opt event "id") ;;
      ret (text_content (JSON_stringify2 (object
        [("success", field result "success");
         ("message",
          Some (JStr (if truthy_opt (field result "success")
                      then "Event deleted: " ++ str (field_opt event "summary")
                      else "Failed: " ++ str (field result "error"))));
         ("deletedEvent", field_opt event "summary")]))).

(** [if (updates.k) eventUpdates.j = updates.k]. *)
Definition when_truthy (v : option json) : option json :=
  if truthy_opt v then v else None.

(** [{ dateTime: this.parseDateTime(v), timeZone }] when [v] is truthy. *)
Definition date_member (v : option json) : outcome (option json) :=
  match v with
  | Some x =>
      if truthy x then
        match parseDateTime_value x with
        | Ok dt => Ok (Some (JObj [("dateTime", dt); ("timeZone", JStr timezone)]))
        | Throw e => Throw e
        end
      else Ok None
  | None => Ok None
  end.

Definition handleUpdateEvent (args : option json) : M Store json :=
  event_identifier <- lift (get_opt args "event_identifier") ;;
  updates <- lift (get_opt args "updates") ;;
  event <- findEventByIdentifier event_identifier ;;
  if negb (truthy_opt event)
  then throw (Error ("Event not found: " ++ str event_identifier))
  else
    title <- lift (get_opt updates "title") ;;
    location <- lift (get_opt updates "location") ;;
    description <- lift (get_opt updates "description") ;;
    start_time <- lift (get_opt updates "start_time") ;;
    start <- lift (date_member start_time) ;;
    end_time <- lift (get_opt updates "end_time") ;;
    end_ <- lift (date_member end_time) ;;
    let eventUpdates :=
      object [("summary", when_truthy title); ("location", when_truthy location);
              ("description", when_truthy description);
              ("start", start); ("end", end_)] in
    result <- updateEvent Store events_get events_update (field_opt event "id")
                eventUpdates ;;
    ret (text_content (JSON_stringify2 (object
      [("success", field result "success");
       ("message",
        Some (JStr (if truthy_opt (field result "success")
                    then "Event updated: " ++ str (field_opt event "summary")
                    else "Failed: " ++ str (field result "error"))));
       ("originalEvent", field_opt event "summary");
       ("updates", updates)]))).

(** [case "..."] of the [switch (name)]. *)
Definition is_name (n : option json) (s : string) : bool :=
  match n with
  | Some (JStr x) => x =? s
  | _ => false
  end.

Definition handleRequest (req : request) : M Store json :=
  if method req =? "tools/list" then ret (JObj [("tools", tools)])
  else if method req =? "tools/call" then
    match params req with
    | None =>
        throw (TypeError "Cannot destructure property 'name' of 'request.params' as it is undefined.")
    | Some p =>
        try_catch
          (if is_name (name p) "list_calendar_events" then
             handleListEvents (arguments p)
           else if is_name (name p) "create_calendar_event" then
             handleCreateEvent (arguments p)
           else if is_name (name p) "update_calendar_event" then
             handleUpdateEvent (arguments p)
           else if is_name (name p) "delete_calendar_event" then
             handleDeleteEvent (arguments p)
           else if is_name (name p) "search_calendar_events" then
             handleSearchEvents (arguments p)
           else throw (Error ("Unknown tool: " ++ str (name p))))
          (fun e => ret (error_content e))
    end
  else throw (Error ("Unknown method: " ++ method req)).

End Server.

End CalendarMCPServer.

(* ================================================================== *)
(** * MCPLLMService: extracting and validating tool calls *)
(* ================================================================== *)

Module MCPLLMService.

(** What [parseToolResponse] returns.  The fallback object has no
    [reasoning] member. *)
Record response : Type := {
  intent : json;
  reasoning : option json;
  toolCalls : json;
  text : string
}.

(** The regular expression [/\{[\s\S]*\}/].  [greedy_close r] is the longest
    prefix of [r] that ends with a closing brace: what [[\s\S]*\}] matches,
    the star being greedy. *)
Fixpoint greedy_close (r : string) : option string :=
  match r with
  | "" => None
  | String c r' =>
      match greedy_close r' with
      | Some t => Some (String c t)
      | None => if (c =? "}")%char then Some (String c "") else None
      end
  end.

(** [llmResponse.match(/\{[\s\S]*\}/)]: start positions are tried from the
    left; the result is [jsonMatch[0]]. *)
Fixpoint regex_match (s : string) : option string :=
  match s with
  | "" => None
  | String c r =>
      if (c =? "{")%char then
        match greedy_close r with
        | Some t => Some (String c t)
        | None => regex_match r
        end
      else regex_match r
  end.

Definition validToolNames : list string :=
  ["list_calendar_events"; "create_calendar_event"; "update_calendar_event";
   "delete_calendar_event"; "search_calendar_events"].

(** [validToolNames.includes(x)]: only a string can be equal to a member. *)
Definition includes_name (x : option json) : bool :=
  match x with
  | Some (JStr s) => existsb (String.eqb s) validToolNames
  | _ => false
  end.

(** [arr.splice(i, 1)]. *)
Definition splice (i : nat) (arr : list json) : list json :=
  firstn i arr ++ skipn (S i) arr.

(** The validation loop
    [for (let i = 0; i < result.toolCalls.length; i++) { ... }] on an array.
    [continue] goes on with [i + 1]; after [splice(i, 1); i--] the increment
    of the loop brings [i] back to the same index.  [None]: the budget
    [fuel] is used up (see [validate_loop_budget]). *)
Fixpoint validate_loop (fuel i : nat) (arr : list json)
  : option (outcome (list json)) :=
  match fuel with
  | O => None
  | S f =>
      match nth_error arr i with
      | None => Some (Ok arr)
      | Some toolCall =>
          match get toolCall "name" with
          | Throw e => Some (Throw e)
          | Ok nm =>
              match get toolCall "arguments" with
              | Throw e => Some (Throw e)
              | Ok args =>
                  if negb (truthy_opt nm) || negb (truthy_opt args)
                  then validate_loop f (S i) arr
                  else if negb (includes_name nm)
                  then validate_loop f i (splice i arr)
                  else validate_loop f (S i) arr
              end
          end
      end
  end.

Section Parse.

(** [JSON.parse]; [None] is the thrown [SyntaxError]. *)
Variable JSON_parse : string -> option json.

(** [tool_calls] may be an object that has a [length] member of its own.  The
    loop then walks its members ["0"], ["1"], ... under JavaScript's numeric
    coercion of [length], which this model leaves out; an object has no
    [splice], so the walk either leaves [result] as it is ([None]) or throws
    ([Some e]).  The oracle says which. *)
Variable object_walk : list (string * json) -> option exn.

(** [if (result.toolCalls.length > 0) { for ... }] for every value that
    [parsed.tool_calls || []] can be. *)
Definition validate (tc : json) : option (outcome json) :=
  match tc with
  | JArr arr =>
      match validate_loop (S (List.length arr)) 0 arr with
      | Some (Ok arr') => Some (Ok (JArr arr'))
      | Some (Throw e) => Some (Throw e)
      | None => None
      end
  | JObj kvs =>
      match assoc_last "length" kvs with
      | None => Some (Ok tc)
      | Some _ =>
          match object_walk kvs with
          | None => Some (Ok tc)
          | Some e => Some (Throw e)
          end
      end
  | JStr _ => Some (Ok tc)   (* its elements are strings: no [name] *)
  | _ => Some (Ok tc)        (* [length] is undefined *)
  end.

Definition fallback (llmResponse : string) : response :=
  {| intent := JStr "other"; reasoning := None;
     toolCalls := JArr []; text := llmResponse |}.

(** The body of the [try] block. *)
Definition try_block (llmResponse : string) : option (outcome response) :=
  match regex_match llmResponse with
  | None => Some (Ok (fallback llmResponse))
  | Some jsonString =>
      match JSON_parse jsonString with
      | None => Some (Throw (SyntaxError "Unexpected token in JSON"))
      | Some parsed =>
          match get parsed "intent", get parsed "reasoning",
                get parsed "tool_calls" with
          | Ok i, Ok r, Ok tc =>
              match validate (or_else tc (JArr [])) with
              | Some (Ok tc') =>
                  Some (Ok {| intent := or_else i (JStr "unknown");
                              reasoning := Some (or_else r (JStr ""));
                              toolCalls := tc';
                              text := llmResponse |})
              | Some (Throw e) => Some (Throw e)
              | None => None
              end
          | Throw e, _, _ | _, Throw e, _ | _, _, Throw e => Some (Throw e)
          end
      end
  end.

(** [parseToolResponse]: the [catch] block returns the fallback object. *)
Definition parseToolResponse (llmResponse : string) : option response :=
  match try_block llmResponse with
  | Some (Ok r) => Some r
  | Some (Throw _) => Some (fallback llmResponse)
  | None => None
  end.

End Parse.

(** ** The validation of §4.3, in the words of the specification *)

Definition has_field (args : option json) (k : string) : bool :=
  match args with
  | Some (JObj kvs) =>
      match assoc_last k kvs with
      | Some _ => true
      | None => false
      end
  | _ => false
  end.

(** A candidate call is valid when its name [exists()] in the catalog and its
    arguments have every field the schema flags [required]. *)
Definition spec_valid (call : json) : bool :=
  match call with
  | JObj kvs =>
      match assoc_last "name" kvs with
      | Some (JStr n) =>
          match Catalog.schemaFor n with
          | Some t => forallb (has_field (assoc_last "arguments" kvs)) (Catalog.required t)
          | None => false
          end
      | _ => false
      end
  | _ => false
  end.

(** The extraction of §4.3, in the words of the specification: the first
    balanced [{...}] span.  [balanced_tail r d]: the text up to the brace that
    closes [d] open ones. *)
Fixpoint balanced_tail (r : string) (d : nat) : option string :=
  match r with
  | "" => None
  | String c r' =>
      if (c =? "{")%char then option_map (String c) (balanced_tail r' (S d))
      else if (c =? "}")%char then
        match d with
        | O => Some (String c "")
        | S d' => option_map (String c) (balanced_tail r' d')
        end
      else option_map (String c) (balanced_tail r' d)
  end.

Fixpoint first_balanced_span (s : string) : option string :=
  match s with
  | "" => None
  | String c r =>
      if (c =? "{")%char then
        match balanced_tail r 0 with
        | Some t => Some (String c t)
        | None => first_balanced_span r
        end
      else first_balanced_span r
  end.

(** ** formatResponse *)

Section Format.

Variable JSON_parse : string -> option json.
Variable Number_toString : Z -> Z -> string.

(** [new Date(x).toLocaleString()], which depends on the locale of the
    process. *)
Variable Date_toLocaleString : option json -> string.

(** [ToNumber(s) > 0] on a string. *)
Variable string_gt0 : string -> bool.

(** The coercion of a template literal, [`${x}`]. *)
Definition str (x : option json) : string := ToString Number_toString x.

(** [v > 0]. *)
Definition gt0 (v : json) : bool :=
  match v with
  | JNull => false
  | JBool b => b
  | JNum m _ => (0 <? m)%Z
  | JStr s => string_gt0 s
  | JArr _ => string_gt0 (str (Some v))
  | JObj _ => false
  end.

(** [x.length > 0] on a truthy value. *)
Definition length_gt0 (v : json) : bool :=
  match v with
  | JArr l => negb (Nat.eqb (List.length l) 0)
  | JStr s => negb (Nat.eqb (String.length s) 0)
  | JObj kvs =>
      match assoc_last "length" kvs with
      | Some n => gt0 n
      | None => false
      end
  | _ => false
  end.

(** The callback of [data.events.map]. *)
Definition event_line (e : json) : outcome string :=
  match get e "title", get e "start" with
  | Ok t, Ok st => Ok ("• " ++ str t ++ " - " ++ Date_toLocaleString st)
  | Throw x, _ | _, Throw x => Throw x
  end.

Fixpoint event_lines (l : list json) : outcome (list string) :=
  match l with
  | [] => Ok []
  | e :: r =>
      match event_line e with
      | Throw x => Throw x
      | Ok line =>
          match event_lines r with
          | Throw x => Throw x
          | Ok lines => Ok (line :: lines)
          end
      end
  end.

(** The [switch (intent)] under [if (data.success)]; [data] is not [null]
    there. *)
Definition success_line (intent data : json) : outcome string :=
  if is_string intent "create_event" then
    Ok ("✅ Event created: " ++ str (field data "message"))
  else if is_string intent "edit_event" then
    Ok ("✅ Event updated: " ++ str (field data "message"))
  else if is_string intent "delete_event" then
    Ok ("✅ Event deleted: " ++ str (field data "message"))
  else if is_string intent "query_events" then
    match field data "events" with
    | Some ev =>
        if truthy ev && length_gt0 ev then
          match ev with
          | JArr l =>
              match event_lines l with
              | Ok lines =>
                  Ok ("📅 Found " ++ str (field data "count") ++ " event(s):"
                      ++ newline ++ join newline lines)
              | Throw x => Throw x
              end
          | _ => Throw (TypeError "data.events.map is not a function")
          end
        else Ok "📅 No events found"
    | None => Ok "📅 No events found"
    end
  else Ok ("✅ " ++ str (field data "message")).

(** The body of the [try] block for one result whose [content[0]] is
    [item]. *)
Definition content_line (intent item : json) : outcome string :=
  match JSON_parse (str (field item "text")) with
  | None => Throw (SyntaxError "Unexpected token in JSON")
  | Some data =>
      match get data "success" with
      | Throw x => Throw x
      | Ok ok =>
          if truthy_opt ok then success_line intent data
          else Ok ("❌ " ++ str (field data "message"))
      end
  end.

(** One turn of [for (const result of toolResults)]: the message pushed, if
    any. *)
Definition result_line (intent result : json) : outcome (option string) :=
  match get result "error" with
  | Throw x => Throw x
  | Ok err =>
      if truthy_opt err then Ok (Some ("❌ Error: " ++ str err))
      else
        match field result "content" with
        | Some content =>
            if truthy content then
              match index0 content with
              | Some item =>
                  if truthy item then
                    match content_line intent item with
                    | Ok line => Ok (Some line)
                    | Throw _ => Ok (Some "✅ Operation completed")
                    end
                  else Ok None
              | None => Ok None
              end
            else Ok None
        | None => Ok None
        end
  end.

Fixpoint collect (intent : json) (toolResults : list json)
  : outcome (list string) :=
  match toolResults with
  | [] => Ok []
  | result :: rest =>
      match result_line intent result with
      | Throw x => Throw x
      | Ok line =>
          match collect intent rest with
          | Throw x => Throw x
          | Ok messages =>
              Ok (match line with
                  | Some m => m :: messages
                  | None => messages
                  end)
          end
      end
  end.

Definition formatResponse (intent : json) (toolResults : list json)
  : outcome string :=
  match toolResults with
  | [] => Ok "I couldn't process your request."
  | _ =>
      match collect intent toolResults with
      | Throw x => Throw x
      | Ok messages =>
          let joined := join newline messages in
          Ok (if joined =? "" then "Operation completed." else joined)
      end
  end.

End Format.

(** ** processEventMessage: executing the tool calls *)

Section Execute.

Variable Store : Type.

(** [this.mcpServer.server.request]. *)
Variable request : CalendarMCPServer.request -> CalendarService.M Store json.

(** [executeTool]: the request for one tool call; an error is logged and
    thrown again. *)
Definition executeTool (toolCall : json) : CalendarService.M Store json :=
  request {| CalendarMCPServer.method := "tools/call";
             CalendarMCPServer.params :=
               Some {| CalendarMCPServer.name := field toolCall "name";
                       CalendarMCPServer.arguments := field toolCall "arguments" |} |}.

(** The loop [for (let i = 0; i < response.toolCalls.length; i++)] of
    [processEventMessage] over an array of tool calls, which builds
    [toolResults]: each call is executed in a [try]; the [catch] pushes
    [{ error: error.message }].  The log line before the [try] reads
    [toolCall.name]. *)
Fixpoint executeTools (toolCalls : list json) : CalendarService.M Store (list json) :=
  match toolCalls with
  | [] => CalendarService.ret []
  | toolCall :: rest =>
      CalendarService.bind (CalendarService.lift (get toolCall "name")) (fun _ =>
      CalendarService.bind
        (CalendarService.try_catch (executeTool toolCall)
           (fun e => CalendarService.ret (JObj [("error", JStr (message e))])))
        (fun result =>
      CalendarService.bind (executeTools rest) (fun results =>
      CalendarService.ret (result :: results))))
  end.

End Execute.

(** ** What the loop computes, as a function of the candidates *)

(** The structure check passes: [toolCall.name] and [toolCall.arguments] are
    both truthy. *)
Definition well_formed (call : json) : bool :=
  truthy_opt (field call "name") && truthy_opt (field call "arguments").

Definition in_catalog (call : json) : bool :=
  includes_name (field call "name").

(** A candidate stays in the array when the structure check fails (the loop
    only logs and goes on) or when its name is a catalog name. *)
Definition kept (call : json) : bool :=
  negb (well_formed call) || in_catalog call.

Fixpoint survivors (calls : list json) : outcome (list json) :=
  match calls with
  | [] => Ok []
  | call :: rest =>
      match get call "name" with
      | Throw e => Throw e
      | Ok _ =>
          match survivors rest with
          | Ok rest' => Ok (if kept call then call :: rest' else rest')
          | Throw e => Throw e
          end
      end
  end.

End MCPLLMService.

(* ================================================================== *)
(** * GPT4MCPBridge: the conversation loop *)
(* ================================================================== *)

Module GPT4MCPBridge.

(** An entry of [assistantMessage.tool_calls]: [id], [function.name] and
    [function.arguments], the latter a string that should hold JSON. *)
Record tool_call : Type := {
  id : string;
  function_name : string;
  function_arguments : string
}.

(** [response.choices[0].message]; [content] may be [null] and
    [tool_calls] may be missing. *)
Record assistant_message : Type := {
  content : option string;
  tool_calls : option (list tool_call)
}.

(** A turn of the conversation, an element of [messages]. *)
Inductive turn : Type :=
| System (content : string)
| User (content : string)
| Assistant (m : assistant_message)
| Tool (tool_call_id : string) (content : string).

(** The object [processMessage] returns; a member that the returned object
    does not have is [None]. *)
Record run_result : Type := {
  success : bool;
  response : option string;
  error : option string;
  iterations : Z;
  conversationLength : option nat
}.

Section Bridge.

(** The calendar store and whatever else the tool handlers touch. *)
Variable World : Type.

(** [config.openai.maxIterations]. *)
Variable maxIterations : Z.

(** The model: what the [k]-th call of [openai.chat.completions.create]
    answers to a conversation, or the error it throws. *)
Variable model : nat -> list turn -> outcome assistant_message.

Variable JSON_parse : string -> option json.
Variable JSON_stringify : json -> string.

(** The message of the [SyntaxError] that [JSON.parse] throws on a text. *)
Variable syntax_error_message : string -> string.

(** The five handlers: each returns a result object or throws, and may
    change the world. *)
Variable handleListEvents handleCreateEvent handleDeleteEvent
         handleUpdateEvent handleSearchEvents
  : json -> World -> outcome json * World.

(** The system turn: fixed instructions and the current local date. *)
Variable system_prompt : string.

Definition parse (s : string) : outcome json :=
  match JSON_parse s with
  | Some v => Ok v
  | None => Throw (SyntaxError (syntax_error_message s))
  end.

Definition executeToolCall (toolCall : tool_call) (w : World)
  : outcome json * World :=
  match parse (function_arguments toolCall) with
  | Throw e => (Throw e, w)
  | Ok args =>
      let name := function_name toolCall in
      if name =? "list_calendar_events" then handleListEvents args w
      else if name =? "create_calendar_event" then handleCreateEvent args w
      else if name =? "delete_calendar_event" then handleDeleteEvent args w
      else if name =? "update_calendar_event" then handleUpdateEvent args w
      else if name =? "search_calendar_events" then handleSearchEvents args w
      else (Throw (Error ("Unknown tool: " ++ name)), w)
  end.

(** [{ success: false, error: error.message }]. *)
Definition errorResult (e : exn) : json :=
  JObj [("success", JBool false); ("error", JStr (message e))].

(** The body of [for (const toolCall of assistantMessage.tool_calls)].
    [messages] is the array as it stands; the result is the array after this
    call, or the exception that leaves the loop.  Both the [try] and the
    [catch] block end with [debug.logToolExecution(...,
    JSON.parse(toolCall.function.arguments), ...)], whose argument is
    evaluated there. *)
Definition dispatch_one (toolCall : tool_call) (messages : list turn)
    (w : World) : outcome (list turn) * World :=
  let '(r, w') := executeToolCall toolCall w in
  let in_try : list turn * option exn :=
    match r with
    | Throw e => (messages, Some e)
    | Ok result =>
        let pushed := (messages ++ [Tool (id toolCall) (JSON_stringify result)])%list in
        match parse (function_arguments toolCall) with
        | Ok _ => (pushed, None)
        | Throw e => (pushed, Some e)
        end
    end in
  match in_try with
  | (messages1, None) => (Ok messages1, w')
  | (messages1, Some e) =>
      let pushed :=
        (messages1 ++ [Tool (id toolCall) (JSON_stringify (errorResult e))])%list in
      match parse (function_arguments toolCall) with
      | Ok _ => (Ok pushed, w')
      | Throw e' => (Throw e', w')
      end
  end.

Fixpoint dispatch (calls : list tool_call) (messages : list turn)
    (w : World) : outcome (list turn) * World :=
  match calls with
  | [] => (Ok messages, w)
  | toolCall :: rest =>
      match dispatch_one toolCall messages w with
      | (Ok messages', w') => dispatch rest messages' w'
      | (Throw e, w') => (Throw e, w')
      end
  end.

Definition api_error (e : exn) (iteration : Z) : run_result :=
  {| success := false; response := None;
     error := Some ("GPT-4 API error: " ++ message e);
     iterations := iteration; conversationLength := None |}.

Definition max_iterations_reached : run_result :=
  {| success := false; response := None;
     error := Some ("Reached maximum iterations (" ++ decimal maxIterations
                    ++ "). The task may be too complex or the AI got stuck in a loop.");
     iterations := maxIterations; conversationLength := None |}.

Definition completed (m : assistant_message) (iteration : Z)
    (messages : list turn) : run_result :=
  {| success := true;
     response := Some (match content m with
                       | Some "" | None => "Task completed successfully."
                       | Some c => c
                       end);
     error := None; iterations := iteration;
     conversationLength := Some (List.length messages) |}.

(** [while (iteration < maxIterations) { iteration++; ... }].  [calls]
    counts the requests sent to the model; [None]: the budget [fuel] is used
    up before the loop ends. *)
Fixpoint loop (fuel : nat) (iteration : Z) (messages : list turn)
    (w : World) (calls : nat) : option (run_result * World * nat) :=
  match fuel with
  | O => None
  | S f =>
      if (iteration <? maxIterations)%Z then
        let iteration := (iteration + 1)%Z in
        match model calls messages with
        | Throw e => Some (api_error e iteration, w, S calls)
        | Ok assistantMessage =>
            let messages := (messages ++ [Assistant assistantMessage])%list in
            match tool_calls assistantMessage with
            | Some ((_ :: _) as toolCalls) =>
                match dispatch toolCalls messages w with
                | (Ok messages', w') => loop f iteration messages' w' (S calls)
                | (Throw e, w') => Some (api_error e iteration, w', S calls)
                end
            | _ => Some (completed assistantMessage iteration messages, w, S calls)
            end
        end
      else Some (max_iterations_reached, w, calls)
  end.

(** A model that answers every request with tool calls whose arguments
    parse. *)
Definition always_calls_tools : Prop :=
  forall k messages, exists m tc tcs,
    model k messages = Ok m /\ tool_calls m = Some (tc :: tcs) /\
    Forall (fun c => JSON_parse (function_arguments c) <> None) (tc :: tcs).

(** [processMessage(messageText)]: the result, the world it leaves and the
    number of requests sent to the model. *)
Definition processMessage (messageText : string) (w : World)
  : option (run_result * World * nat) :=
  loop (S (Z.to_nat maxIterations)) 0
       [System system_prompt; User messageText] w 0.

End Bridge.

(** ** addOneHour *)

(** [addOneHour(isoDateTime)]: [handleCreateEvent] takes it for the end of
    an event when the call gives no [end_time]. *)
Definition addOneHour (localOffset : Z) (isoDateTime : string) : outcome string :=
  JSDate.addOneHour localOffset isoDateTime.

(** ** parseDateTime *)

(** [\s] on the ASCII characters. *)
Definition is_space (c : ascii) : bool :=
  (is_ws c || (c =? "011") || (c =? "012"))%char.

Definition am_pm (s : string) : option string :=
  if starts_with "am" s then Some "am"
  else if starts_with "pm" s then Some "pm"
  else None.

(** [\s?(am|pm)] at the head of [s]. *)
Definition after_digits (s : string) : option string :=
  match s with
  | String c r =>
      if is_space c then
        match am_pm r with
        | Some p => Some p
        | None => am_pm s
        end
      else am_pm s
  | "" => None
  end.

(** [lowerStr.match(/(\d{1,2})\s?(am|pm)/)]: the leftmost match, two digits
    before one; the result is [parseInt(timeMatch[1])] and [timeMatch[2]]. *)
Fixpoint time_match (s : string) : option (Z * string) :=
  match s with
  | "" => None
  | String c r =>
      match digit_val c with
      | Some d1 =>
          let two :=
            match r with
            | String c2 r2 =>
                match digit_val c2, after_digits r2 with
                | Some d2, Some p => Some (10 * d1 + d2, p)%Z
                | _, _ => None
                end
            | "" => None
            end in
          match two with
          | Some x => Some x
          | None =>
              match after_digits r with
              | Some p => Some (d1, p)
              | None => time_match r
              end
          end
      | None => time_match r
      end
  end.

Definition hour24 (hour : Z) (period : string) : Z :=
  if (period =? "pm") && negb (hour =? 12)%Z then (hour + 12)%Z
  else if (period =? "am") && (hour =? 12)%Z then 0%Z
  else hour.

Section Dates.

(** The clock, the offset of Asia/Jerusalem in minutes, and
    [moment.tz(dateStr, timezone)] ([None]: the moment is not valid). *)
Variable now : Z.
Variable utcOffset : Z.
Variable moment_tz : string -> option Z.

Definition day_bound (endOfDay : bool) (t : Z) : Z :=
  if endOfDay then Moment.endOfDay utcOffset t else Moment.startOfDay utcOffset t.

Definition parseDateTime (dateStr : string) (endOfDay : bool) : option string :=
  let lowerStr := toLowerCase dateStr in
  let parsed : option Z :=
    if lowerStr =? "today" then Some (day_bound endOfDay now)
    else if lowerStr =? "tomorrow" then
      Some (day_bound endOfDay (Moment.addDays 1 now))
    else if lowerStr =? "yesterday" then
      Some (day_bound endOfDay (Moment.addDays (-1) now))
    else if includes lowerStr "tomorrow" then
      match time_match lowerStr with
      | Some (hour, period) =>
          Some (Moment.atHour utcOffset (hour24 hour period) (Moment.addDays 1 now))
      | None => Some (day_bound endOfDay (Moment.addDays 1 now))
      end
    else if includes lowerStr "today" then
      match time_match lowerStr with
      | Some (hour, period) => Some (Moment.atHour utcOffset (hour24 hour period) now)
      | None => Some now
      end
    else
      match moment_tz dateStr with
      | Some t => Some t
      | None => Some now   (* last resort: the current time *)
      end in
  Moment.toISOString parsed.

End Dates.

End GPT4MCPBridge.


(* ================================================================== *)
(** * Sample inputs *)
(* ================================================================== *)

Module Samples.
Import GPT4MCPBridge.

(** A model output that names a tool outside the catalog. *)
Definition sample_calls : string :=
  quoted "{'intent':'edit_event','tool_calls':[{'name':'search_calendar_events','arguments':{'query':'team'}},{'name':'send_email','arguments':{'to':'x'}},{'name':'delete_calendar_event','arguments':{'event_identifier':'team','confirmation':true}}]}".

(** A model that answers every request with the same tool call. *)
Definition stubborn_model (arguments : string)
  : nat -> list turn -> outcome assistant_message :=
  fun _ _ =>
    Ok {| content := None;
          tool_calls := Some [ {| id := "call_1";
                                  function_name := "search_calendar_events";
                                  function_arguments := arguments |} ] |}.

(** A calendar store that cannot be reached: every handler throws. *)
Definition unreachable (args : json) (w : unit) : outcome json * unit :=
  (Throw (Error "connect ECONNREFUSED"), w).

Definition syntax_error (s : string) : string := "Unexpected end of JSON input".

(** A calendar store that holds a list of events and answers as the API
    does: an unknown id is an error. *)
Definition has_id (eventId : option json) (event : json) : bool :=
  match eventId, field event "id" with
  | Some (JStr a), Some (JStr b) => a =? b
  | _, _ => false
  end.

Definition store_get (st : list json) (eventId : option json) : outcome json :=
  match find (has_id eventId) st with
  | Some event => Ok event
  | None => Throw (Error "Not Found")
  end.

Definition store_list (st : list json) (timeMin timeMax : string)
  : outcome (list json) := Ok st.

Definition store_delete (st : list json) (eventId : option json)
  : outcome unit * list json :=
  match find (has_id eventId) st with
  | Some _ => (Ok tt, filter (fun event => negb (has_id eventId event)) st)
  | None => (Throw (Error "Not Found"), st)
  end.

Definition store_update (st : list json) (eventId : option json) (resource : json)
  : outcome json * list json :=
  match find (has_id eventId) st with
  | Some _ => (Ok resource,
               map (fun event => if has_id eventId event then resource else event) st)
  | None => (Throw (Error "Not Found"), st)
  end.

Definition dinner : json :=
  JObj [("id", JStr "evt1"); ("summary", JStr "Dinner with Dana")].

Definition other_tool (args : option json) : CalendarService.M (list json) json :=
  CalendarService.ret (CalendarMCPServer.text_content "{}").

(** The tool server over that store, at 2025-08-19T12:00:00Z, in a zone at
    +03:00. *)
Definition serve (req : CalendarMCPServer.request)
  : CalendarService.M (list json) json :=
  CalendarMCPServer.handleRequest (list json) store_get store_list store_delete
    store_update 1755604800000 180 JSDate.Date_parse "Asia/Jerusalem"
    decimal_number JSON_stringify other_tool other_tool other_tool (JArr []) req.

End Samples.

(* ================================================================== *)
(** * More of the platform: String and Number *)
(* ================================================================== *)

(** Texts are sequences of ASCII characters: one [ascii] is one character of
    the JavaScript string, and [String.length] is its [length]. *)
Module JSText.

(** White space, for [trim], [parseInt] and [\s], on the ASCII characters. *)
Definition is_space (c : ascii) : bool :=
  (is_ws c || (c =? "011") || (c =? "012"))%char.

(** [s.split(c)[0]]: the text before the first [c]. *)
Fixpoint before (c : ascii) (s : string) : string :=
  match s with
  | "" => ""
  | String x r => if (x =? c)%char then "" else String x (before c r)
  end.

Fixpoint trimStart (s : string) : string :=
  match s with
  | String c r => if is_space c then trimStart r else s
  | "" => ""
  end.

Fixpoint trimEnd (s : string) : string :=
  match s with
  | "" => ""
  | String c r =>
      match trimEnd r with
      | "" => if is_space c then "" else String c ""
      | t => String c t
      end
  end.

Definition trim (s : string) : string := trimEnd (trimStart s).

(** [s.replace(/\s+/g, '')]. *)
Fixpoint strip_spaces (s : string) : string :=
  match s with
  | "" => ""
  | String c r => if is_space c then strip_spaces r else String c (strip_spaces r)
  end.

Fixpoint zeros (k : nat) : string :=
  match k with
  | O => ""
  | S k' => String "0" (zeros k')
  end.

(** [s.padStart(n, '0')]. *)
Definition padStart0 (n : nat) (s : string) : string :=
  zeros (n - String.length s) ++ s.

(** No character of the text is a decimal digit. *)
Fixpoint no_digit (s : string) : bool :=
  match s with
  | "" => true
  | String c r =>
      match digit_val c with
      | Some _ => false
      | None => no_digit r
      end
  end.

(** A (possibly empty) run of hexadecimal digits: value and number of
    digits. *)
Fixpoint read_hex (s : string) (acc cnt : Z) : Z * Z :=
  match s with
  | String c r =>
      match hex_val c with
      | Some d => read_hex r (16 * acc + d)%Z (cnt + 1)%Z
      | None => (acc, cnt)
      end
  | "" => (acc, cnt)
  end.

(** [parseInt(s)] with no radix: white space, a sign, [0x] for base 16, then
    the longest run of digits; [None] is [NaN].  The result is the integer the
    digits denote, which a JavaScript number holds exactly up to [2^53]. *)
Definition parseInt (s : string) : option Z :=
  let s := trimStart s in
  let '(neg, s) :=
    match s with
    | String "-"%char r => (true, r)
    | String "+"%char r => (false, r)
    | _ => (false, s)
    end in
  let '(v, cnt) :=
    match s with
    | String "0"%char (String x r) =>
        if ((x =? "x") || (x =? "X"))%char then read_hex r 0 0
        else let '(v, cnt, _) := read_digits s 0 0 in (v, cnt)
    | _ => let '(v, cnt, _) := read_digits s 0 0 in (v, cnt)
    end in
  if (cnt =? 0)%Z then None else Some (if neg then (- v)%Z else v).

(** [parseInt(x)] on a value that may be [undefined]: [String(undefined)]
    has no digit. *)
Definition parseInt_opt (o : option string) : option Z :=
  match o with
  | Some s => parseInt s
  | None => None
  end.

End JSText.

(* ================================================================== *)
(** * Config: the settings read from the environment (src/config.js) *)
(* ================================================================== *)

Module Config.

Record whatsapp_settings : Type := {
  targetGroupName : string;
  autoReply : bool;
  replyMessage : string
}.

Record calendar_settings : Type := {
  credentialsPath : string;
  calendarId : string;
  timezone : string;
  defaultEventDuration : Z
}.

Record llm_settings : Type := {
  baseUrl : string;
  model : string;
  timeout : Z;
  maxRetries : Z
}.

Record processing_settings : Type := {
  maxConcurrentCalendarOps : Z;
  duplicateEventWindowMinutes : Z;
  messageProcessingDelayMs : Z
}.

Record logging_settings : Type := {
  level : string;
  enableFileLogging : bool;
  logFilePath : string
}.

Record debug_settings : Type := {
  enabled : bool;
  logLLMPrompts : bool;
  logLLMResponses : bool;
  logToolCalls : bool;
  logCalendarAPI : bool;
  saveDebugToFile : bool
}.

Record settings : Type := {
  whatsapp : whatsapp_settings;
  calendar : calendar_settings;
  llm : llm_settings;
  processing : processing_settings;
  logging : logging_settings;
  debug : debug_settings
}.

Section Env.

(** [process.env]: a variable is a string or is not set. *)
Variable env : string -> option string.

(** [process.env.K || d]. *)
Definition text (k d : string) : string :=
  match env k with
  | Some v => if v =? "" then d else v
  | None => d
  end.

(** [parseInt(process.env.K) || d]: [NaN] and [0] are falsy. *)
Definition number (k : string) (d : Z) : Z :=
  match JSText.parseInt_opt (env k) with
  | Some n => if (n =? 0)%Z then d else n
  | None => d
  end.

(** [process.env.K === 'true' || d]. *)
Definition flag (k : string) (d : bool) : bool :=
  match env k with
  | Some v => v =? "true"
  | None => false
  end || d.

(** The object the module exports. *)
Definition config : settings :=
  {| whatsapp :=
       {| targetGroupName := text "TARGET_GROUP_NAME" "Family Events";
          autoReply := flag "AUTO_REPLY" false;
          replyMessage := text "REPLY_MESSAGE" "📅 Event added to calendar!" |};
     calendar :=
       {| credentialsPath := text "GOOGLE_CREDENTIALS_PATH" "./credentials.json";
          calendarId := text "CALENDAR_ID" "primary";
          timezone := text "TIMEZONE" "America/New_York";
          defaultEventDuration := number "DEFAULT_EVENT_DURATION" 60 |};
     llm :=
       {| baseUrl := text "OLLAMA_BASE_URL" "http://localhost:11434";
          model := text "OLLAMA_MODEL" "llama3.1:8b";
          timeout := number "LLM_TIMEOUT" 30000;
          maxRetries := number "LLM_MAX_RETRIES" 3 |};
     processing :=
       {| maxConcurrentCalendarOps := number "MAX_CONCURRENT_CALENDAR_OPS" 3;
          duplicateEventWindowMinutes := number "DUPLICATE_EVENT_WINDOW_MINUTES" 5;
          messageProcessingDelayMs := number "MESSAGE_PROCESSING_DELAY_MS" 1000 |};
     logging :=
       {| level := text "LOG_LEVEL" "info";
          enableFileLogging := flag "ENABLE_FILE_LOGGING" false;
          logFilePath := text "LOG_FILE_PATH" "./logs/app.log" |};
     debug :=
       {| enabled := flag "DEBUG_MODE" true;
          logLLMPrompts := flag "DEBUG_LLM_PROMPTS" true;
          logLLMResponses := flag "DEBUG_LLM_RESPONSES" true;
          logToolCalls := flag "DEBUG_TOOL_CALLS" true;
          logCalendarAPI := flag "DEBUG_CALENDAR_API" true;
          saveDebugToFile := flag "SAVE_DEBUG_TO_FILE" true |} |}.

End Env.

End Config.

(* ================================================================== *)
(** * DebugLogger: the numbered log (src/utils/debug.js) *)
(* ================================================================== *)

Module DebugLogger.

(** A line of the log file, as [saveToFile] builds it; [step] is
    [parseInt(step)], [None] being [NaN]. *)
Record entry : Type := {
  step : option Z;
  timestamp : string;
  category : string;
  title : string;
  data : json
}.

(** The logger: its counter and the lines appended to its file. *)
Record logger : Type := {
  stepCounter : Z;
  file : list entry
}.

(** The logger the constructor builds. *)
Definition fresh : logger := {| stepCounter := 0; file := [] |}.

(** [this.stepCounter.toString().padStart(3, '0')]. *)
Definition step_label (stepCounter : Z) : string :=
  JSText.padStart0 3 (decimal stepCounter).

(** [typeof data === 'object' ? data : { content: data }]; [data] may be
    [undefined], and [typeof null] is ['object']. *)
Definition boxed (data : option json) : json :=
  match data with
  | Some (JNull as v) | Some (JArr _ as v) | Some (JObj _ as v) => v
  | Some v => JObj [("content", v)]
  | None => JObj []
  end.

Section Log.

Variable config : Config.settings.

(** [saveToFile(category, title, data, timestamp, step)]. *)
Definition saveToFile (category title : string) (data : option json)
    (timestamp step : string) (l : logger) : logger :=
  {| stepCounter := stepCounter l;
     file := file l ++ [ {| step := JSText.parseInt step; timestamp := timestamp;
                            category := category; title := title;
                            data := boxed data |} ] |}.

(** [log(category, title, data)] at a time whose [toISOString()] is
    [timestamp]. *)
Definition log (category title : string) (data : option json)
    (timestamp : string) (l : logger) : logger :=
  if negb (Config.enabled (Config.debug config)) then l
  else
    let l1 := {| stepCounter := stepCounter l + 1; file := file l |} in
    let step := step_label (stepCounter l1) in
    if Config.saveDebugToFile (Config.debug config)
    then saveToFile category title data timestamp step l1
    else l1.

End Log.

(** The [input] member that [logJSONParsing] logs:
    [input.substring(0, 500) + (input.length > 500 ? '...' : '')]. *)
Definition preview (input : string) : string :=
  substring 0 500 input ++ (if Nat.ltb 500 (String.length input) then "..." else "").

End DebugLogger.

(* ================================================================== *)
(** * Event lists: what the handlers do with the events of the store *)
(* ================================================================== *)

Module EventList.

(** Sequencing of expressions that may throw. *)
Definition obind {A B : Type} (m : outcome A) (k : A -> outcome B) : outcome B :=
  match m with
  | Ok a => k a
  | Throw e => Throw e
  end.

Declare Scope out_scope.
Delimit Scope out_scope with out.
Notation "x <~ m ;; k" := (obind m (fun x => k))
  (at level 61, m at next level, right associativity) : out_scope.
Local Open Scope out_scope.

(** [a || b] on values that may be [undefined]. *)
Definition or_value (a b : option json) : option json :=
  if truthy_opt a then a else b.

(** [v?.k]. *)
Definition chained (v : option json) (k : string) : option json :=
  match v with
  | None | Some JNull => None
  | Some x => field x k
  end.

(** [events.filter(callback)]: the first exception leaves the loop. *)
Fixpoint filter_events (keep : json -> outcome bool) (events : list json)
  : outcome (list json) :=
  match events with
  | [] => Ok []
  | event :: rest =>
      b <~ keep event ;;
      kept <~ filter_events keep rest ;;
      Ok (if b then event :: kept else kept)
  end.

(** [events.map(callback)]. *)
Fixpoint map_events (f : json -> outcome json) (events : list json)
  : outcome (list json) :=
  match events with
  | [] => Ok []
  | event :: rest =>
      x <~ f event ;;
      xs <~ map_events f rest ;;
      Ok (x :: xs)
  end.

(** [v?.toLowerCase().includes(q.toLowerCase())] for a member [v] of an
    event: on [undefined] and [null] the chain stops, and its value is
    falsy; the argument is evaluated after [v.toLowerCase()]. *)
Definition lower_includes (v q : option json) : outcome bool :=
  match v with
  | None | Some JNull => Ok false
  | Some (JStr s) =>
      match q with
      | Some (JStr x) => Ok (includes (toLowerCase s) (toLowerCase x))
      | None =>
          Throw (TypeError "Cannot read properties of undefined (reading 'toLowerCase')")
      | Some JNull =>
          Throw (TypeError "Cannot read properties of null (reading 'toLowerCase')")
      | Some _ => Throw (TypeError "toLowerCase is not a function")
      end
  | Some _ => Throw (TypeError "toLowerCase is not a function")
  end.

(** The callback of the filters:
    [event.summary?.toLowerCase().includes(q.toLowerCase()) ||
     event.description?.toLowerCase().includes(q.toLowerCase())]. *)
Definition matches (q : option json) (event : json) : outcome bool :=
  summary <~ get event "summary" ;;
  a <~ lower_includes summary q ;;
  if a then Ok true
  else lower_includes (field event "description") q.

(** [event.k?.dateTime || event.k?.date]. *)
Definition when_ (event : json) (k : string) : option json :=
  or_value (chained (field event k) "dateTime") (chained (field event k) "date").

(** The callback of [filteredEvents.map] in the list handlers and in the
    search handler of the bridge. *)
Definition listed (event : json) : outcome json :=
  id <~ get event "id" ;;
  Ok (CalendarMCPServer.object
        [("id", id); ("title", field event "summary");
         ("start", when_ event "start"); ("end", when_ event "end");
         ("location", field event "location");
         ("description", field event "description")]).

(** The same in the search handler of the server, which leaves [end] out. *)
Definition found (event : json) : outcome json :=
  id <~ get event "id" ;;
  Ok (CalendarMCPServer.object
        [("id", id); ("title", field event "summary");
         ("start", when_ event "start");
         ("location", field event "location");
         ("description", field event "description")]).

(** The result of ToIntegerOrInfinity. *)
Inductive integer_or_infinity : Type :=
| Finite (z : Z)
| PlusInfinity
| MinusInfinity.

Section Slice.

(** ToIntegerOrInfinity on the values that are not integers written without
    a fraction or an exponent below zero (strings, arrays, objects,
    decimals). *)
Variable ToIntegerOrInfinity : json -> integer_or_infinity.

Definition to_integer (v : json) : integer_or_infinity :=
  match v with
  | JNull => Finite 0
  | JBool b => Finite (if b then 1 else 0)
  | JNum m e => if (0 <=? e)%Z then Finite (m * 10 ^ e)%Z else ToIntegerOrInfinity v
  | _ => ToIntegerOrInfinity v
  end.

(** [l.slice(0, end)]. *)
Definition slice0 (end_ : json) (l : list json) : list json :=
  let len := Z.of_nat (List.length l) in
  let final :=
    match to_integer end_ with
    | MinusInfinity => 0%Z
    | PlusInfinity => len
    | Finite rel => if (rel <? 0)%Z then Z.max (len + rel) 0 else Z.min rel len
    end in
  firstn (Z.to_nat final) l.

End Slice.

(** [{ success: false, error: error.message }]. *)
Definition failure (e : exn) : json :=
  JObj [("success", JBool false); ("error", JStr (message e))].

(** [n] as a number. *)
Definition count (l : list json) : json := JNum (Z.of_nat (List.length l)) 0.

End EventList.

(* ================================================================== *)
(** * CalendarService: creating an event (src/services/calendar-service.js) *)
(* ================================================================== *)

Module CalendarEvents.
Import EventList.
Local Open Scope out_scope.
Local Open Scope Z_scope.

(** [/(\d{1,2}):?(\d{2})?\s*(am|pm)?/]: every part after the first digit is
    optional, so the match starts at the first digit of the text and each
    part takes what it can. *)
Definition two_digits (s : string) : option (Z * string) :=
  match s with
  | String a (String b r) =>
      match digit_val a, digit_val b with
      | Some x, Some y => Some (10 * x + y, r)
      | _, _ => None
      end
  | _ => None
  end.

(** The match at the head of [s]: [parseInt(timeMatch[1])],
    [timeMatch[2]] read as a number, and [timeMatch[3]]. *)
Definition time_at (s : string) : option (Z * option Z * option string) :=
  match s with
  | String c r =>
      match digit_val c with
      | None => None
      | Some d1 =>
          let '(hours, r1) :=
            match r with
            | String c2 r2 =>
                match digit_val c2 with
                | Some d2 => (10 * d1 + d2, r2)
                | None => (d1, r)
                end
            | "" => (d1, r)
            end%string in
          let r2 := match r1 with
                    | String ":"%char x => x
                    | _ => r1
                    end in
          let '(minutes, r3) :=
            match two_digits r2 with
            | Some (m, x) => (Some m, x)
            | None => (None, r2)
            end in
          Some (hours, minutes, GPT4MCPBridge.am_pm (JSText.trimStart r3))
      end
  | ""%string => None
  end.

Fixpoint time_regex (s : string) : option (Z * option Z * option string) :=
  match s with
  | ""%string => None
  | String _ r =>
      match time_at s with
      | Some m => Some m
      | None => time_regex r
      end
  end.

(** [if (ampm === 'pm' && hours !== 12) hours += 12;
     else if (ampm === 'am' && hours === 12) hours = 0]. *)
Definition hours24 (hours : Z) (ampm : option string) : Z :=
  match ampm with
  | Some p => GPT4MCPBridge.hour24 hours p
  | None => hours
  end.

Section Service.

(** The calendar store: [events.insert] answers [response.data] or
    throws, and leaves a state. *)
Variable Store : Type.
Variable events_insert : Store -> json -> outcome json * Store.

(** The clock; the offset of [this.timezone] from UTC, in minutes; the
    offset of the local zone of the process, in milliseconds. *)
Variable now : Z.
Variable utcOffset : Z.
Variable localOffset : Z.

(** [this.timezone] and [this.defaultDuration]. *)
Variable timezone : string.
Variable defaultDuration : Z.

(** [moment.tz(text, [formats], this.timezone)], [None] when the moment is
    not valid. *)
Variable moment_tz_formats : string -> option Z.

(** [new Date(v)] for a value that is not a string ([None]: an invalid
    date). *)
Variable Date_other : json -> option Z.

Variable Number_toString : Z -> Z -> string.

(** [(v * 100).toFixed(1)] for a value [v]. *)
Variable percent : json -> string.

(** [a === b] when [b] is not a string. *)
Variable same_value : json -> json -> bool.

Definition str (x : option json) : string := ToString Number_toString x.

(** ** moment setters, in a zone of constant offset *)

Definition offset : Z := Moment.offset utcOffset.

(** [m.hour(h)]. *)
Definition set_hour (h t : Z) : Z :=
  t - ((t + offset) mod JSDate.msPerDay) / JSDate.msPerHour * JSDate.msPerHour
  + h * JSDate.msPerHour.

(** [m.minute(n)]. *)
Definition set_minute (n t : Z) : Z :=
  t - ((t + offset) mod JSDate.msPerHour) / 60000 * 60000 + n * 60000.

(** [m.second(n)]. *)
Definition set_second (n t : Z) : Z :=
  t - ((t + offset) mod 60000) / 1000 * 1000 + n * 1000.

(** [a.isBefore(b, 'day')]. *)
Definition isBefore_day (a b : Z) : bool := Moment.endOfDay utcOffset a <? b.

(** ** addOneHour on any value *)

(** [date.setHours(date.getHours() + 1); date.toISOString().replace(...)] on
    the time value of [new Date(...)]. *)
Definition plus_one_hour (d : option Z) : outcome string :=
  match d with
  | None => Throw (RangeError "Invalid time value")
  | Some t =>
      let t' := JSDate.setHours localOffset t (JSDate.getHours localOffset t + 1) in
      if JSDate.in_range t'
      then Ok (JSDate.replace "Z" "+03:00" (JSDate.toISOString t'))
      else Throw (RangeError "Invalid time value")
  end.

(** [this.addOneHour(v)]: [new Date(undefined)] is an invalid date. *)
Definition addOneHour_value (v : option json) : outcome string :=
  match v with
  | Some (JStr s) => CalendarService.addOneHour localOffset s
  | Some x => plus_one_hour (Date_other x)
  | None => plus_one_hour None
  end.

(** ** parseDateTime(eventInfo) *)

(** The moment the [date] member stands for. *)
Definition date_moment (date : option json) : outcome Z :=
  if truthy_opt date then
    match date with
    | Some (JStr d) =>
        let dateStr := toLowerCase d in
        if (dateStr =? "today")%string then Ok now
        else if (dateStr =? "tomorrow")%string then Ok (Moment.addDays 1 now)
        else if (dateStr =? "tonight")%string then Ok (set_minute 0 (set_hour 19 now))
        else
          match moment_tz_formats d with
          | Some parsedDate =>
              Ok (if isBefore_day parsedDate now
                  then Moment.addDays 7 parsedDate
                  else parsedDate)
          | None => Ok (now + JSDate.msPerHour)
          end
    | _ => Throw (TypeError "eventInfo.date.toLowerCase is not a function")
    end
  else Ok (now + JSDate.msPerHour).

(** The moment after the [time] member is applied. *)
Definition with_time (time : option json) (eventMoment : Z) : outcome Z :=
  if truthy_opt time then
    match time with
    | Some (JStr s) =>
        let timeStr := JSText.strip_spaces (toLowerCase s) in
        match time_regex timeStr with
        | Some (hours, minutes, ampm) =>
            Ok (set_second 0
                  (set_minute (match minutes with
                               | Some n => n
                               | None => 0
                               end)
                     (set_hour (hours24 hours ampm) eventMoment)))
        | None => Ok eventMoment
        end
    | _ => Throw (TypeError "eventInfo.time.toLowerCase is not a function")
    end
  else Ok (set_second 0 (set_minute 0 (set_hour 12 eventMoment))).

(** [parseDateTime(eventInfo)]: [{ startDateTime, endDateTime }]. *)
Definition parseDateTime (eventInfo : json) : outcome (json * json) :=
  startDateTime <~ get eventInfo "startDateTime" ;;
  if truthy_opt startDateTime then
    let start := or_else startDateTime JNull in
    let endDateTime := field eventInfo "endDateTime" in
    if truthy_opt endDateTime
    then Ok (start, or_else endDateTime JNull)
    else r <~ addOneHour_value startDateTime ;; Ok (start, JStr r)
  else
    eventMoment <~ date_moment (field eventInfo "date") ;;
    eventMoment <~ with_time (field eventInfo "time") eventMoment ;;
    Ok (JStr (JSDate.toISOString eventMoment),
        JStr (JSDate.toISOString (eventMoment + defaultDuration * 60000))).

(** ** buildEventDescription(eventInfo) *)

(** [(eventInfo.confidence * 100).toFixed(1)]: on [undefined] the product is
    [NaN]. *)
Definition confidence_text (c : option json) : string :=
  match c with
  | None => "NaN"
  | Some v => percent v
  end.

(** [a !== b] on two members of [eventInfo]. *)
Definition differ (a b : option json) : bool :=
  match a, b with
  | None, None => false
  | Some (JStr x), Some (JStr y) => negb (x =? y)%string
  | Some _, Some (JStr _) | Some (JStr _), Some _ => true
  | Some x, Some y => negb (same_value x y)
  | _, _ => true
  end.

Definition buildEventDescription (eventInfo : json) : string :=
  let description := field eventInfo "description" in
  ("📱 Created from WhatsApp message" ++ newline ++ newline
   ++ "Original message: " ++ dq ++ str (field eventInfo "originalMessage") ++ dq
   ++ newline
   ++ "Extracted by: " ++ str (field eventInfo "extractedBy") ++ newline
   ++ "Confidence: " ++ confidence_text (field eventInfo "confidence") ++ "%"
   ++ newline
   ++ (if truthy_opt description
          && differ description (field eventInfo "originalMessage")
       then newline ++ "Additional details: " ++ str description
       else ""))%string.

(** ** buildEventData(eventInfo) *)

Definition buildEventData (eventInfo : json) : outcome json :=
  times <~ parseDateTime eventInfo ;;
  let '(startDateTime, endDateTime) := times in
  Ok (CalendarMCPServer.object
        [("summary", field eventInfo "title");
         ("description", Some (JStr (buildEventDescription eventInfo)));
         ("start", Some (JObj [("dateTime", startDateTime);
                               ("timeZone", JStr timezone)]));
         ("end", Some (JObj [("dateTime", endDateTime);
                             ("timeZone", JStr timezone)]));
         ("location", CalendarMCPServer.when_truthy (field eventInfo "location"));
         ("source", Some (JObj [("title", JStr "WhatsApp Secretary");
                                ("url", JStr "https://github.com/your-repo/whatsapp-secretary")]))]).

(** ** createEvent(eventInfo) *)

(** [createEvent]: never throws.  The request [events.insert] changes the
    store; the list [calls] of the world keeps to the requests of the
    look-up, update and delete paths. *)
Definition createEvent (eventInfo : json) : CalendarService.M Store json :=
  fun w =>
    match buildEventData eventInfo with
    | Throw e => (Ok (failure e), w)
    | Ok eventData =>
        let '(r, st) := events_insert (CalendarService.store w) eventData in
        let w' := {| CalendarService.store := st;
                     CalendarService.calls := CalendarService.calls w |} in
        match r with
        | Throw e => (Ok (failure e), w')
        | Ok event =>
            match get event "htmlLink" with
            | Throw e => (Ok (failure e), w')
            | Ok htmlLink =>
                (Ok (CalendarMCPServer.object
                       [("success", Some (JBool true));
                        ("eventId", field event "id");
                        ("htmlLink", htmlLink);
                        ("event", Some event)]), w')
            end
        end
    end.

End Service.

End CalendarEvents.

(* ================================================================== *)
(** * GPT4MCPBridge: the five tool handlers (src/services/gpt4-mcp-bridge.js) *)
(* ================================================================== *)

Module BridgeTools.
Import CalendarService EventList.
Local Open Scope js_scope.

Section Handlers.

Variable Store : Type.

(** [this.calendarService], the object the constructor is given: its four
    methods, each of which may change the store and may throw, and its
    [timezone]. *)
Variable getEvents : string -> string -> M Store (list json).
Variable createEvent : json -> M Store json.
Variable deleteEvent : option json -> M Store json.
Variable updateEvent : option json -> json -> M Store json.
Variable timezone : string.

(** The clock; the offsets, in minutes, of Asia/Jerusalem (the zone of
    [parseDateTime]) and of [this.calendarService.timezone] (the zone of
    [parseDateRange]); [moment.tz(dateStr, 'Asia/Jerusalem')]. *)
Variable now : Z.
Variable jerusalemOffset : Z.
Variable serviceOffset : Z.
Variable moment_tz : string -> option Z.

(** The offset of the local zone of the process, in milliseconds, and
    [new Date(v)] on a value that is not a string. *)
Variable localOffset : Z.
Variable Date_other : json -> option Z.

Variable Number_toString : Z -> Z -> string.
Variable ToIntegerOrInfinity : json -> integer_or_infinity.

Definition str (x : option json) : string := ToString Number_toString x.

(** [const { ... } = args]: [args] comes from [JSON.parse]. *)
Definition destructure (args : json) : M Store unit :=
  match args with
  | JNull => throw (TypeError "Cannot destructure 'args' as it is null.")
  | _ => ret tt
  end.

(** The [catch] of every handler. *)
Definition caught (e : exn) : M Store json := ret (failure e).

(** The events as the call of [debug.log] before the filter reads them. *)
Definition raw_event (e : json) : outcome json :=
  obind (get e "id") (fun id =>
  Ok (CalendarMCPServer.object
        [("id", id); ("summary", field e "summary"); ("start", field e "start");
         ("end", field e "end"); ("created", field e "created");
         ("updated", field e "updated")])).

Definition handleListEvents (args : json) : M Store json :=
  _ <- destructure args ;;
  let start_date := field args "start_date" in
  let end_date := field args "end_date" in
  let search_query := field args "search_query" in
  try_catch
    (let startTime := (str start_date ++ "T00:00:00+03:00")%string in
     let endTime := (str end_date ++ "T23:59:59+03:00")%string in
     events <- getEvents startTime endTime ;;
     _ <- lift (map_events raw_event events) ;;
     filteredEvents <- lift (if truthy_opt search_query
                             then filter_events (matches search_query) events
                             else Ok events) ;;
     eventList <- lift (map_events listed filteredEvents) ;;
     ret (JObj [("success", JBool true); ("count", count eventList);
                ("events", JArr eventList)]))
    caught.

(** [this.addOneHour(start_time)]. *)
Definition addOneHour_value (v : option json) : outcome string :=
  match v with
  | Some (JStr s) => GPT4MCPBridge.addOneHour localOffset s
  | Some x => CalendarEvents.plus_one_hour localOffset (Date_other x)
  | None => CalendarEvents.plus_one_hour localOffset None
  end.

Definition handleCreateEvent (args : json) : M Store json :=
  _ <- destructure args ;;
  let title := field args "title" in
  let start_time := field args "start_time" in
  let end_time := field args "end_time" in
  let location := field args "location" in
  let description := field args "description" in
  try_catch
    (endDateTime <- lift (if truthy_opt end_time then Ok end_time
                          else obind (addOneHour_value start_time)
                                 (fun r => Ok (Some (JStr r)))) ;;
     let eventInfo :=
       CalendarMCPServer.object
         [("title", title);
          ("startDateTime", start_time);
          ("endDateTime", endDateTime);
          ("location", location);
          ("description",
           Some (or_else description
                   (JStr ("Created from WhatsApp: " ++ str title))));
          ("originalMessage",
           Some (JStr ("Create: " ++ str title ++ " at " ++ str start_time)));
          ("extractedBy", Some (JStr "gpt4-mcp"))] in
     result <- createEvent eventInfo ;;
     success <- lift (get result "success") ;;
     ret (CalendarMCPServer.object
            [("success", success);
             ("eventId", field result "eventId");
             ("message",
              Some (JStr (if truthy_opt success
                          then "Created: " ++ str title
                          else "Failed: " ++ str (field result "error"))));
             ("htmlLink", field result "htmlLink")]))
    caught.

Definition handleDeleteEvent (args : json) : M Store json :=
  _ <- destructure args ;;
  let event_id := field args "event_id" in
  let event_title := field args "event_title" in
  try_catch
    (result <- deleteEvent event_id ;;
     success <- lift (get result "success") ;;
     ret (CalendarMCPServer.object
            [("success", success);
             ("message",
              Some (JStr (if truthy_opt success
                          then "Deleted: " ++ str (or_value event_title event_id)
                          else "Failed: " ++ str (field result "error"))));
             ("eventId", event_id)]))
    caught.

(** [this.parseDateTime(v)] on a member of [updates]. *)
Definition parseDateTime_value (v : json) : outcome json :=
  match v with
  | JStr s =>
      Ok (match GPT4MCPBridge.parseDateTime now jerusalemOffset moment_tz s false with
          | Some iso => JStr iso
          | None => JNull
          end)
  | _ => Throw (TypeError "dateStr.toLowerCase is not a function")
  end.

(** [{ dateTime: this.parseDateTime(v), timeZone }] when [v] is truthy. *)
Definition date_member (v : option json) : outcome (option json) :=
  match v with
  | Some x =>
      if truthy x then
        obind (parseDateTime_value x) (fun dt =>
        Ok (Some (JObj [("dateTime", dt); ("timeZone", JStr timezone)])))
      else Ok None
  | None => Ok None
  end.

Definition handleUpdateEvent (args : json) : M Store json :=
  _ <- destructure args ;;
  let event_id := field args "event_id" in
  let updates := field args "updates" in
  try_catch
    (title <- lift (get_opt updates "title") ;;
     location <- lift (get_opt updates "location") ;;
     description <- lift (get_opt updates "description") ;;
     start_time <- lift (get_opt updates "start_time") ;;
     start <- lift (date_member start_time) ;;
     end_time <- lift (get_opt updates "end_time") ;;
     end_ <- lift (date_member end_time) ;;
     let calendarUpdates :=
       CalendarMCPServer.object
         [("summary", CalendarMCPServer.when_truthy title);
          ("location", CalendarMCPServer.when_truthy location);
          ("description", CalendarMCPServer.when_truthy description);
          ("start", start); ("end", end_)] in
     result <- updateEvent event_id calendarUpdates ;;
     success <- lift (get result "success") ;;
     ret (CalendarMCPServer.object
            [("success", success);
             ("message",
              Some (JStr (if truthy_opt success then "Updated event"
                          else "Failed: " ++ str (field result "error"))));
             ("eventId", event_id);
             ("updates", updates)]))
    caught.

(** [this.parseDateRange(v)]. *)
Definition parseDateRange_value (v : json) : outcome (string * string) :=
  match v with
  | JStr s => Ok (Moment.parseDateRange serviceOffset now s)
  | JNull => Throw (TypeError "Cannot read properties of null (reading 'toLowerCase')")
  | _ => Throw (TypeError "rangeStr.toLowerCase is not a function")
  end.

(** A default of the destructuring: it applies to [undefined] only. *)
Definition default (v : option json) (d : json) : json :=
  match v with
  | Some x => x
  | None => d
  end.

Definition handleSearchEvents (args : json) : M Store json :=
  _ <- destructure args ;;
  let query := field args "query" in
  let date_range := default (field args "date_range") (JStr "this month") in
  let max_results := default (field args "max_results") (JNum 10 0) in
  try_catch
    (window <- lift (parseDateRange_value date_range) ;;
     let '(startTime, endTime) := window in
     events <- getEvents startTime endTime ;;
     matching <- lift (filter_events (matches query) events) ;;
     let filteredEvents := slice0 ToIntegerOrInfinity max_results matching in
     searchResults <- lift (map_events listed filteredEvents) ;;
     ret (CalendarMCPServer.object
            [("success", Some (JBool true));
             ("query", query);
             ("count", Some (count searchResults));
             ("events", Some (JArr searchResults))]))
    caught.

End Handlers.

End BridgeTools.

(* ================================================================== *)
(** * CalendarMCPServer: the list, create and search handlers
      (src/mcp/calendar-server.js) *)
(* ================================================================== *)

Module ServerTools.
Import CalendarService EventList.
Local Open Scope js_scope.

(** [zeroFill(year, 4)] of moment.js: at least four digits, after the sign. *)
Definition year4 (y : Z) : string :=
  let a := Z.abs y in
  ((if (y <? 0)%Z then "-" else "")
   ++ (if (a <=? 9999)%Z then JSDate.pad 4 a else decimal a))%string.

Section Handlers.

Variable Store : Type.

(** [this.calendarService]: [getEvents] may be given [null] for a bound. *)
Variable getEvents : option string -> option string -> M Store (list json).
Variable createEvent : json -> M Store json.

(** The clock, the offset of [this.calendarService.timezone] in minutes and
    [moment.tz(dateStr, timezone)]. *)
Variable now : Z.
Variable utcOffset : Z.
Variable moment_tz : string -> option Z.

(** The offset of the local zone of the process, in milliseconds, and
    [moment(v)] on a value ([None]: the moment is not valid). *)
Variable localOffset : Z.
Variable moment_of : json -> option Z.

Variable Number_toString : Z -> Z -> string.
Variable JSON_stringify2 : json -> string.
Variable ToIntegerOrInfinity : json -> integer_or_infinity.

Definition str (x : option json) : string := ToString Number_toString x.

(** [this.parseDateTime(v, endOfDay)] on a member of [args]. *)
Definition parseDateTime_arg (v : option json) (endOfDay : bool)
  : outcome (option string) :=
  match v with
  | Some (JStr s) =>
      Ok (CalendarMCPServer.parseDateTime now utcOffset moment_tz s endOfDay)
  | Some JNull =>
      Throw (TypeError "Cannot read properties of null (reading 'toLowerCase')")
  | None =>
      Throw (TypeError "Cannot read properties of undefined (reading 'toLowerCase')")
  | Some _ => Throw (TypeError "dateStr.toLowerCase is not a function")
  end.

Definition handleListEvents (args : option json) : M Store json :=
  start_date <- lift (get_opt args "start_date") ;;
  end_date <- lift (get_opt args "end_date") ;;
  search_query <- lift (get_opt args "search_query") ;;
  startTime <- lift (parseDateTime_arg start_date false) ;;
  endTime <- lift (parseDateTime_arg end_date true) ;;
  events <- getEvents startTime endTime ;;
  filteredEvents <- lift (if truthy_opt search_query
                          then filter_events (matches search_query) events
                          else Ok events) ;;
  eventList <- lift (map_events listed filteredEvents) ;;
  ret (CalendarMCPServer.text_content
         (JSON_stringify2
            (JObj [("success", JBool true); ("count", count eventList);
                   ("events", JArr eventList)]))).

(** [moment(v)]: with [undefined] it is the current time. *)
Definition moment (v : option json) : option Z :=
  match v with
  | None => Some now
  | Some x => moment_of x
  end.

(** [extractDate(v)]: [moment(v).format('YYYY-MM-DD')], in the local zone of
    the process. *)
Definition extractDate (v : option json) : string :=
  match moment v with
  | None => "Invalid date"
  | Some t =>
      let '(y, m, d) := JSDate.civil_from_days ((t + localOffset) / JSDate.msPerDay) in
      (year4 y ++ "-" ++ JSDate.pad 2 m ++ "-" ++ JSDate.pad 2 d)%string
  end.

(** [extractTime(v)]: [moment(v).format('HH:mm A')]. *)
Definition extractTime (v : option json) : string :=
  match moment v with
  | None => "Invalid date"
  | Some t =>
      let tod := ((t + localOffset) mod JSDate.msPerDay)%Z in
      let hh := (tod / JSDate.msPerHour)%Z in
      (JSDate.pad 2 hh ++ ":" ++ JSDate.pad 2 ((tod / 60000) mod 60)%Z ++ " "
       ++ (if (hh <? 12)%Z then "AM" else "PM"))%string
  end.

Definition handleCreateEvent (args : option json) : M Store json :=
  title <- lift (get_opt args "title") ;;
  start_time <- lift (get_opt args "start_time") ;;
  end_time <- lift (get_opt args "end_time") ;;
  location <- lift (get_opt args "location") ;;
  description <- lift (get_opt args "description") ;;
  let eventInfo :=
    CalendarMCPServer.object
      [("title", title);
       ("date", Some (JStr (extractDate start_time)));
       ("time", Some (JStr (extractTime start_time)));
       ("location", location);
       ("description",
        Some (or_else description (JStr ("Created via WhatsApp: " ++ str title))));
       ("originalMessage",
        Some (JStr ("Create event: " ++ str title ++ " at " ++ str start_time)));
       ("extractedBy", Some (JStr "mcp"))] in
  result <- createEvent eventInfo ;;
  success <- lift (get result "success") ;;
  ret (CalendarMCPServer.text_content
         (JSON_stringify2
            (CalendarMCPServer.object
               [("success", success);
                ("eventId", field result "eventId");
                ("message",
                 Some (JStr (if truthy_opt success
                             then "Event created: " ++ str title
                             else "Failed: " ++ str (field result "error"))));
                ("htmlLink", field result "htmlLink")]))).

(** [this.parseDateRange(v)]. *)
Definition parseDateRange_value (v : json) : outcome (string * string) :=
  match v with
  | JStr s => Ok (CalendarMCPServer.parseDateRange now utcOffset s)
  | JNull => Throw (TypeError "Cannot read properties of null (reading 'toLowerCase')")
  | _ => Throw (TypeError "rangeStr.toLowerCase is not a function")
  end.

Definition handleSearchEvents (args : option json) : M Store json :=
  query <- lift (get_opt args "query") ;;
  date_range <- lift (get_opt args "date_range") ;;
  max_results <- lift (get_opt args "max_results") ;;
  let date_range := BridgeTools.default date_range (JStr "this month") in
  let max_results := BridgeTools.default max_results (JNum 10 0) in
  window <- lift (parseDateRange_value date_range) ;;
  let '(startTime, endTime) := window in
  events <- getEvents (Some startTime) (Some endTime) ;;
  matching <- lift (filter_events (matches query) events) ;;
  let filteredEvents := slice0 ToIntegerOrInfinity max_results matching in
  searchResults <- lift (map_events found filteredEvents) ;;
  ret (CalendarMCPServer.text_content
         (JSON_stringify2
            (CalendarMCPServer.object
               [("success", Some (JBool true));
                ("query", query);
                ("count", Some (count searchResults));
                ("events", Some (JArr searchResults))]))).

End Handlers.

End ServerTools.

(* ================================================================== *)
(** * MCPLLMService: the requests to the model and the whole pipeline
      (src/services/mcp-llm-service.js) *)
(* ================================================================== *)

Module MCPLLMPipeline.
Import CalendarService.

(** [extractTitle(message)]; [LLMService.extractSimpleTitle] has the same
    text. *)
Definition extractTitle (message : string) : string :=
  let firstSentence :=
    JSText.before "?" (JSText.before "!" (JSText.before "." message)) in
  if Nat.ltb 50 (String.length firstSentence)
  then substring 0 47 firstSentence ++ "..."
  else JSText.trim firstSentence.

(** What a run of the retry loop has done: the requests sent and the
    pauses, in milliseconds, taken between them. *)
Record attempts : Type := {
  requests : nat;
  slept : list Z
}.

(** The pauses [1000 * attempt] after the failed attempts number [first],
    ..., [n - 1]. *)
Definition pauses (first n : nat) : list Z :=
  map (fun i => (1000 * Z.of_nat i)%Z) (seq first (n - first)).

Section Generate.

Variable JSON_parse : string -> option json.
Variable object_walk : list (string * json) -> option exn.

(** [this.maxRetries]. *)
Variable maxRetries : Z.

(** What the [k]-th request [axios.post] of the run answers: the member
    [response.data.response], or the error thrown by the request or by
    reading its answer. *)
Variable post : nat -> outcome (option json).

(** [parseToolResponse] on any value.  On a value that is not a string
    [llmResponse.match] throws inside the [try], and in the [catch]
    [debug.logJSONParsing] evaluates [input.substring(0, 500)], which throws
    again: this second error leaves the function. *)
Definition parseToolResponse_value (text : option json)
  : option (outcome MCPLLMService.response) :=
  match text with
  | Some (JStr s) =>
      option_map Ok (MCPLLMService.parseToolResponse JSON_parse object_walk s)
  | Some JNull =>
      Some (Throw (TypeError "Cannot read properties of null (reading 'substring')"))
  | None =>
      Some (Throw (TypeError "Cannot read properties of undefined (reading 'substring')"))
  | Some _ => Some (Throw (TypeError "input.substring is not a function"))
  end.

(** The body of the [try] block at the [k]-th request: the value returned,
    or the error caught. *)
Definition request_once (k : nat) : option (outcome MCPLLMService.response) :=
  match post k with
  | Throw e => Some (Throw e)
  | Ok text => parseToolResponse_value text
  end.

(** [for (let attempt = 1; attempt <= this.maxRetries; attempt++)]: the
    result is the value returned ([None]: the loop ends and the function
    returns [undefined]) or the error thrown.  The outer [None]: the budget
    [fuel] is used up. *)
Fixpoint attempts_loop (fuel : nat) (attempt : Z) (done : attempts)
  : option (outcome (option MCPLLMService.response) * attempts) :=
  match fuel with
  | O => None
  | S f =>
      if (attempt <=? maxRetries)%Z then
        let sent := {| requests := S (requests done); slept := slept done |} in
        match request_once (requests done) with
        | None => None
        | Some (Ok response) => Some (Ok (Some response), sent)
        | Some (Throw error) =>
            if (attempt =? maxRetries)%Z
            then Some (Throw (Error ("All LLM attempts failed: " ++ message error)),
                       sent)
            else attempts_loop f (attempt + 1)%Z
                   {| requests := requests sent;
                      slept := (slept sent ++ [1000 * attempt]%Z)%list |}
        end
      else Some (Ok None, done)
  end.

Definition generateResponseWithTools
  : option (outcome (option MCPLLMService.response) * attempts) :=
  attempts_loop (S (Z.to_nat maxRetries)) 1 {| requests := 0; slept := [] |}.

End Generate.

(** What [processEventMessage] returns; a member the object does not have
    is [None]. *)
Record processed_message : Type := {
  processed : bool;
  intent : json;
  toolCalls : option json;
  toolResults : option (list json);
  message : string;
  rawResponse : option string;
  reason : option string
}.

Section Process.

Variable Store : Type.
Variable JSON_parse : string -> option json.
Variable object_walk : list (string * json) -> option exn.
Variable maxRetries : Z.
Variable post : nat -> outcome (option json).
Variable Number_toString : Z -> Z -> string.
Variable Date_toLocaleString : option json -> string.
Variable string_gt0 : string -> bool.

(** The argument of [debug.log('tools-available', ...)]: [tools.length],
    [tools.map(t => t.name)]. *)
Definition tools_logged (tools : option json) : outcome unit :=
  match tools with
  | None => Throw (TypeError "Cannot read properties of undefined (reading 'length')")
  | Some JNull => Throw (TypeError "Cannot read properties of null (reading 'length')")
  | Some (JArr l) =>
      EventList.obind (EventList.map_events
                         (fun t => EventList.obind (get t "name") (fun _ => Ok t)) l)
        (fun _ => Ok tt)
  | Some _ => Throw (TypeError "tools.map is not a function")
  end.

Definition tools_list : CalendarMCPServer.request :=
  {| CalendarMCPServer.method := "tools/list"; CalendarMCPServer.params := None |}.

(** [processEventMessage(messageText, senderName)], with [this.mcpServer]
    given by its [server.request], or not set. *)
Definition processEventMessage
    (mcpServer : option (CalendarMCPServer.request -> M Store json))
    (w : World Store)
  : option (outcome processed_message * World Store * attempts) :=
  let none := {| requests := 0; slept := [] |} in
  match mcpServer with
  | None => Some (Throw (Error "MCP Server not connected"), w, none)
  | Some request =>
      match bind (request tools_list)
              (fun toolsResponse =>
                 lift (EventList.obind (get toolsResponse "tools") tools_logged)) w with
      | (Throw e, w1) => Some (Throw e, w1, none)
      | (Ok _, w1) =>
          match generateResponseWithTools JSON_parse object_walk maxRetries post with
          | None => None
          | Some (Throw e, a) => Some (Throw e, w1, a)
          | Some (Ok None, a) =>
              Some (Throw (TypeError "Cannot read properties of undefined (reading 'text')"),
                    w1, a)
          | Some (Ok (Some response), a) =>
              match MCPLLMService.toolCalls response with
              | JArr [] =>
                  Some (Ok {| processed := false;
                              intent := or_else (Some (MCPLLMService.intent response))
                                          (JStr "unknown");
                              toolCalls := None; toolResults := None;
                              message := MCPLLMService.text response;
                              rawResponse := None;
                              reason := Some "No tool calls generated" |}, w1, a)
              | JArr calls =>
                  match MCPLLMService.executeTools Store request calls w1 with
                  | (Throw e, w2) => Some (Throw e, w2, a)
                  | (Ok results, w2) =>
                      match MCPLLMService.formatResponse JSON_parse Number_toString
                              Date_toLocaleString string_gt0
                              (MCPLLMService.intent response) results with
                      | Throw e => Some (Throw e, w2, a)
                      | Ok text =>
                          Some (Ok {| processed := true;
                                      intent := MCPLLMService.intent response;
                                      toolCalls := Some (JArr calls);
                                      toolResults := Some results;
                                      message := text;
                                      rawResponse := Some (MCPLLMService.text response);
                                      reason := None |}, w2, a)
                      end
                  end
              | _ => Some (Throw (TypeError "toolCalls.map is not a function"), w1, a)
              end
          end
      end
  end.

End Process.

End MCPLLMPipeline.

(* ================================================================== *)
(** * Theorems *)
(* ================================================================== *)

Module ParseFacts.
Import MCPLLMService.
Import Samples.
Local Open Scope list_scope.

Lemma nth_error_middle (pre : list json) c r :
  nth_error (pre ++ c :: r) (List.length pre) = Some c.
Proof. induction pre; simpl; auto. Qed.

Lemma splice_middle (pre : list json) c r :
  splice (List.length pre) (pre ++ c :: r) = pre ++ r.
Proof.
  unfold splice. induction pre as [|x pre IH]; simpl; auto.
  simpl in IH. now rewrite IH.
Qed.

Lemma get_field (c : json) k : c <> JNull -> get c k = Ok (field c k).
Proof. destruct c; simpl; congruence. Qed.

Lemma get_args_after_name (c : json) o :
  get c "name" = Ok o ->
  o = field c "name" /\ get c "arguments" = Ok (field c "arguments").
Proof. destruct c; simpl; intros H; inversion H; auto. Qed.

(** The loop at index [|pre|] of [pre ++ suf] leaves [pre] alone and keeps
    the survivors of [suf]; a budget above [|suf|] is enough. *)
Lemma validate_loop_spec (suf : list json) :
  forall pre fuel, (List.length suf < fuel)%nat ->
    validate_loop fuel (List.length pre) (pre ++ suf) =
    Some (match survivors suf with
          | Ok s => Ok (pre ++ s)
          | Throw e => Throw e
          end).
Proof.
  induction suf as [|c r IH]; intros pre fuel Hf.
  - destruct fuel as [|f]; [inversion Hf|]. simpl.
    rewrite app_nil_r.
    replace (nth_error pre (List.length pre)) with (@None json)
      by (symmetry; apply nth_error_None; lia).
    reflexivity.
  - destruct fuel as [|f]; [inversion Hf|]. simpl in Hf.
    cbn [validate_loop survivors]. rewrite nth_error_middle.
    destruct (get c "name") as [nm|e] eqn:Hn; [|reflexivity].
    destruct (get_args_after_name _ _ Hn) as [-> Ha]. rewrite Ha.
    assert (Hnext : validate_loop f (S (List.length pre)) (pre ++ c :: r) =
                    Some (match survivors r with
                          | Ok s => Ok (pre ++ c :: s)
                          | Throw e => Throw e
                          end)).
    { replace (S (List.length pre)) with (List.length (pre ++ [c]))
        by (rewrite length_app; simpl; lia).
      replace (pre ++ c :: r) with ((pre ++ [c]) ++ r)
        by (now rewrite <- app_assoc).
      rewrite IH by lia.
      destruct (survivors r); [rewrite <- app_assoc|]; reflexivity. }
    assert (Hdrop : validate_loop f (List.length pre) (splice (List.length pre) (pre ++ c :: r)) =
                    Some (match survivors r with
                          | Ok s => Ok (pre ++ s)
                          | Throw e => Throw e
                          end)).
    { rewrite splice_middle. apply IH. lia. }
    unfold kept, well_formed, in_catalog.
    destruct (truthy_opt (field c "name")); simpl.
    + destruct (truthy_opt (field c "arguments")); simpl.
      * destruct (includes_name (field c "name")); simpl.
        -- rewrite Hnext. now destruct (survivors r).
        -- rewrite Hdrop. now destruct (survivors r).
      * rewrite Hnext. now destruct (survivors r).
    + rewrite Hnext. now destruct (survivors r).
Qed.

(** The budget [validate] gives the loop is never used up. *)
Lemma validate_loop_budget (arr : list json) :
  validate_loop (S (List.length arr)) 0 arr = Some (survivors arr).
Proof.
  generalize (validate_loop_spec arr [] (S (List.length arr))).
  simpl List.length. simpl app. intros ->; [|lia].
  now destruct (survivors arr).
Qed.

Lemma survivors_filter (calls : list json) :
  forallb (fun c => negb (match c with JNull => true | _ => false end)) calls = true ->
  survivors calls = Ok (filter kept calls).
Proof.
  induction calls as [|c r IH]; cbn [forallb survivors filter]; intros H;
    [reflexivity|].
  apply andb_prop in H. destruct H as [Hc Hr].
  rewrite (IH Hr). destruct c; try discriminate; reflexivity.
Qed.

Lemma survivors_well_formed (calls : list json) :
  forallb well_formed calls = true ->
  survivors calls = Ok (filter in_catalog calls).
Proof.
  induction calls as [|c r IH]; cbn [forallb survivors filter]; intros H;
    [reflexivity|].
  apply andb_prop in H. destruct H as [Hc Hr].
  rewrite (IH Hr). unfold kept. rewrite Hc. cbn [negb orb].
  destruct c; try discriminate; reflexivity.
Qed.

(** *** The regular expression *)

Lemma greedy_close_none (r : string) :
  greedy_close r = None <-> has_char "}" r = false.
Proof.
  induction r as [|c r IH]; simpl; [tauto|].
  destruct (greedy_close r) eqn:E.
  - split; [discriminate|]. intros H. apply orb_false_elim in H.
    destruct H as [_ H]. apply IH in H. discriminate.
  - destruct (c =? "}")%char; simpl; split; try discriminate; auto.
    intros _. now apply IH.
Qed.

Lemma greedy_close_some (r : string) :
  forall t, greedy_close r = Some t ->
    exists mid post, t = (mid ++ "}")%string /\ r = (t ++ post)%string /\
                     has_char "}" post = false.
Proof.
  induction r as [|c r IH]; simpl; intros t H; [discriminate|].
  destruct (greedy_close r) as [t0|] eqn:E.
  - inversion H; subst t. destruct (IH t0 eq_refl) as (mid & post & -> & Hr & Hp).
    exists (String c mid), post. simpl. rewrite <- Hr. auto.
  - destruct (c =? "}")%char eqn:Ec; [|discriminate].
    apply Ascii.eqb_eq in Ec. subst c. inversion H; subst t.
    exists "", r. simpl. repeat split. now apply greedy_close_none.
Qed.

Lemma regex_match_no_close (s : string) :
  has_char "}" s = false -> regex_match s = None.
Proof.
  induction s as [|c s IH]; simpl; intros H; [reflexivity|].
  apply orb_false_elim in H. destruct H as [_ H].
  rewrite (proj2 (greedy_close_none s) H), (IH H).
  now destruct (c =? "{")%char.
Qed.

(** A match runs from the first opening brace to the last closing brace. *)
Lemma regex_match_some (s : string) :
  forall m, regex_match s = Some m ->
    exists pre mid post,
      s = (pre ++ m ++ post)%string /\ m = (String "{" mid ++ "}")%string /\
      has_char "{" pre = false /\ has_char "}" post = false.
Proof.
  induction s as [|c s IH]; simpl; intros m H; [discriminate|].
  destruct (c =? "{")%char eqn:Ec.
  - apply Ascii.eqb_eq in Ec. subst c.
    destruct (greedy_close s) as [t|] eqn:E.
    + inversion H; subst m.
      destruct (greedy_close_some s t E) as (mid & post & -> & Hs & Hp).
      exists "", mid, post. simpl. rewrite <- Hs. auto.
    + apply greedy_close_none in E. rewrite (regex_match_no_close s E) in H.
      discriminate.
  - destruct (IH m H) as (pre & mid & post & -> & Hm & Hpre & Hpost).
    exists (String c pre), mid, post. simpl. rewrite Ec. auto.
Qed.

(** There is no match exactly when no closing brace follows an opening one. *)
Lemma regex_match_none (s : string) :
  regex_match s = None ->
  forall pre post, s = (pre ++ String "{" post)%string -> has_char "}" post = false.
Proof.
  induction s as [|c s IH]; simpl; intros H pre post Heq.
  - destruct pre; discriminate.
  - assert (Hs : regex_match s = None /\
                 ((c =? "{")%char = true -> greedy_close s = None)).
    { destruct (c =? "{")%char.
      - destruct (greedy_close s); [discriminate|]. split; auto.
      - split; [assumption|discriminate]. }
    destruct Hs as [Hs Hg]. destruct pre as [|a pre]; simpl in Heq.
    + inversion Heq; subst. apply greedy_close_none. now apply Hg.
    + inversion Heq; subst. eapply IH; eauto.
Qed.

(** *** The catalog and the list of names in the validator *)

Lemma includes_name_catalog (n : string) :
  includes_name (Some (JStr n)) = Catalog.exists_ n.
Proof.
  unfold includes_name, Catalog.exists_, Catalog.schemaFor, validToolNames,
    Catalog.tools. cbn [existsb find Catalog.name].
  repeat match goal with
         | |- context [String.eqb ?x n] => rewrite (String.eqb_sym x n)
         end.
  repeat match goal with
         | |- context [String.eqb n ?x] =>
             destruct (String.eqb n x); cbn [orb]
         end; reflexivity.
Qed.

(** *** The validator *)

Section Any.

Variable JSON_parse : string -> option json.
Variable object_walk : list (string * json) -> option exn.

Lemma validate_returns (tc : json) :
  exists o, validate object_walk tc = Some o.
Proof.
  destruct tc; unfold validate; eauto.
  - rewrite validate_loop_budget. destruct (survivors l); eauto.
  - destruct (assoc_last "length" kvs); eauto.
    destruct (object_walk kvs); eauto.
Qed.

Lemma parseToolResponse_returns (llmResponse : string) :
  exists r, parseToolResponse JSON_parse object_walk llmResponse = Some r.
Proof.
  unfold parseToolResponse, try_block.
  destruct (regex_match llmResponse); eauto.
  destruct (JSON_parse s) as [parsed|]; eauto.
  destruct (get parsed "intent"); eauto.
  destruct (get parsed "reasoning"); eauto.
  destruct (get parsed "tool_calls") as [tc|]; eauto.
  destruct (validate_returns (or_else tc (JArr []))) as [[v|e] ->]; eauto.
Qed.

(** C4, as the code has it.  [parseToolResponse] returns for every text.  It
    extracts the span from the first opening brace to the last closing brace
    of the text (the greedy match of the regular expression, not the first
    balanced span); when there is no such span, or when [JSON.parse] rejects
    the extracted payload, the result has the intent "other", no tool calls
    and the whole text. *)
Theorem parseToolResponse_total_greedy (llmResponse : string) :
  (exists r, parseToolResponse JSON_parse object_walk llmResponse = Some r) /\
  (regex_match llmResponse = None ->
   parseToolResponse JSON_parse object_walk llmResponse
   = Some (fallback llmResponse)) /\
  (forall jsonString, regex_match llmResponse = Some jsonString ->
     (exists pre mid post,
        llmResponse = (pre ++ jsonString ++ post)%string /\
        jsonString = (String "{" mid ++ "}")%string /\
        has_char "{" pre = false /\ has_char "}" post = false) /\
     (JSON_parse jsonString = None ->
      parseToolResponse JSON_parse object_walk llmResponse
      = Some (fallback llmResponse))).
Proof.
  split; [apply parseToolResponse_returns|]. split.
  - intros H. unfold parseToolResponse, try_block. now rewrite H.
  - intros m H. split; [now apply regex_match_some|].
    intros Hp. unfold parseToolResponse, try_block. now rewrite H, Hp.
Qed.

(** C2, as the code has it.  When the payload parses and its [tool_calls] is
    an array of candidates that each have a truthy [name] and truthy
    [arguments], the validator drops every candidate whose name is not one of
    the five catalog names and keeps exactly the others, in their order.
    Fields flagged [required] are not looked at. *)
Theorem parseToolResponse_keeps_catalog_names
    (llmResponse jsonString : string) (parsed : json) (calls : list json) :
  regex_match llmResponse = Some jsonString ->
  JSON_parse jsonString = Some parsed ->
  get parsed "tool_calls" = Ok (Some (JArr calls)) ->
  forallb well_formed calls = true ->
  exists r,
    parseToolResponse JSON_parse object_walk llmResponse = Some r /\
    toolCalls r = JArr (filter in_catalog calls).
Proof.
  intros Hm Hp Ht Hw. unfold parseToolResponse, try_block.
  rewrite Hm, Hp.
  assert (Hnn : parsed <> JNull) by (intros ->; discriminate).
  rewrite !(get_field parsed) by assumption.
  rewrite (get_field parsed) in Ht by assumption. inversion Ht as [Ht'].
  rewrite Ht'. cbn [or_else truthy validate].
  rewrite validate_loop_budget, (survivors_well_formed calls Hw).
  eexists. split; reflexivity.
Qed.

End Any.

(** In a list of well-formed candidates, the calls that stay are those whose
    name [exists()] in the catalog. *)
Lemma in_catalog_exists (call : json) (n : string) :
  field call "name" = Some (JStr n) -> in_catalog call = Catalog.exists_ n.
Proof. unfold in_catalog. intros ->. apply includes_name_catalog. Qed.

Lemma parseToolResponse_keeps_catalog_names_witness :
  exists r,
    parseToolResponse JSON_parse (fun _ => None) ("Plan: " ++ sample_calls)%string
    = Some r /\
    toolCalls r =
    JArr (filter in_catalog
            [JObj [("name", JStr "search_calendar_events");
                   ("arguments", JObj [("query", JStr "team")])];
             JObj [("name", JStr "send_email");
                   ("arguments", JObj [("to", JStr "x")])];
             JObj [("name", JStr "delete_calendar_event");
                   ("arguments", JObj [("event_identifier", JStr "team");
                                       ("confirmation", JBool true)])]]).
Proof.
  eapply (parseToolResponse_keeps_catalog_names JSON_parse (fun _ => None)
            ("Plan: " ++ sample_calls)%string sample_calls);
    vm_compute; reflexivity.
Defined.

Lemma parseToolResponse_total_greedy_witness :
  parseToolResponse JSON_parse (fun _ => None) "hello how are you"
  = Some (fallback "hello how are you").
Proof.
  apply (proj1 (proj2 (parseToolResponse_total_greedy JSON_parse (fun _ => None)
                         "hello how are you"))).
  reflexivity.
Defined.

(** C2 as stated fails: a call to a catalog tool that lacks the fields its
    schema flags [required] is not valid in the words of §4.3, yet it is
    kept. *)
Lemma parseToolResponse_keeps_call_missing_required :
  let call := JObj [("name", JStr "create_calendar_event"); ("arguments", JObj [])] in
  spec_valid call = false /\
  exists r,
    parseToolResponse JSON_parse (fun _ => None)
      (quoted "{'intent':'create_event','tool_calls':[{'name':'create_calendar_event','arguments':{}}]}")
    = Some r /\
    toolCalls r = JArr [call].
Proof.
  split; [reflexivity|]. eexists. split; vm_compute; reflexivity.
Qed.

(** The structure check only logs: a call to an unknown tool that has no
    [arguments] stays in the array, next to one that is removed. *)
Example parseToolResponse_keeps_unstructured_call :
  exists r,
    parseToolResponse JSON_parse (fun _ => None)
      (quoted "{'tool_calls':[{'name':'send_email'},{'name':'send_email','arguments':{}}]}")
    = Some r /\
    toolCalls r = JArr [JObj [("name", JStr "send_email")]].
Proof. eexists. split; vm_compute; reflexivity. Qed.

(** C4 as stated fails: the first balanced span of this text is a
    well-formed payload with the intent "query_events", but the extracted
    span runs to the last closing brace, [JSON.parse] rejects it, and the
    answer is the fallback. *)
Lemma parseToolResponse_not_first_balanced_span :
  let llmResponse := quoted "{'intent':'query_events','tool_calls':[]} :-}" in
  first_balanced_span llmResponse = Some (quoted "{'intent':'query_events','tool_calls':[]}") /\
  JSON_parse (quoted "{'intent':'query_events','tool_calls':[]}")
  = Some (JObj [("intent", JStr "query_events"); ("tool_calls", JArr [])]) /\
  regex_match llmResponse = Some llmResponse /\
  regex_match llmResponse <> first_balanced_span llmResponse /\
  parseToolResponse JSON_parse (fun _ => None) llmResponse
  = Some (fallback llmResponse).
Proof.
  vm_compute. repeat split. discriminate.
Qed.

End ParseFacts.


Module FormatFacts.
Import MCPLLMService.
Import Samples.
Local Open Scope list_scope.

Lemma join_nonempty (sep m : string) (ms : list string) :
  m <> "" -> join sep (m :: ms) <> "".
Proof.
  intros Hm. destruct m as [|c m]; [congruence|].
  destruct ms; simpl; discriminate.
Qed.

Section Any.

Variable JSON_parse : string -> option json.
Variable Number_toString : Z -> Z -> string.
Variable Date_toLocaleString : option json -> string.
Variable string_gt0 : string -> bool.

Let line := result_line JSON_parse Number_toString Date_toLocaleString string_gt0.
Let fmt := formatResponse JSON_parse Number_toString Date_toLocaleString string_gt0.

Lemma success_line_nonempty (intent data : json) (m : string) :
  success_line Number_toString Date_toLocaleString string_gt0 intent data = Ok m ->
  m <> "".
Proof.
  unfold success_line.
  repeat match goal with
         | |- context [if ?b then _ else _] => destruct b
         | |- context [match ?x with _ => _ end] => destruct x
         end;
    intros H; inversion H; discriminate.
Qed.

Lemma content_line_nonempty (intent item : json) (m : string) :
  content_line JSON_parse Number_toString Date_toLocaleString string_gt0 intent item
  = Ok m -> m <> "".
Proof.
  unfold content_line.
  destruct (JSON_parse _) as [data|]; [|discriminate].
  destruct (get data "success") as [ok|]; [|discriminate].
  destruct (truthy_opt ok).
  - apply success_line_nonempty.
  - intros H; inversion H; discriminate.
Qed.

(** Every message pushed starts with a mark, so none is empty. *)
Lemma result_line_nonempty (intent result : json) (m : string) :
  line intent result = Ok (Some m) -> m <> "".
Proof.
  unfold line, result_line.
  destruct (get result "error") as [err|]; [|discriminate].
  destruct (truthy_opt err); [intros H; inversion H; discriminate|].
  destruct (field result "content") as [content|]; [|discriminate].
  destruct (truthy content); [|discriminate].
  destruct (index0 content) as [item|]; [|discriminate].
  destruct (truthy item); [|discriminate].
  destruct (content_line _ _ _ _ intent item) as [l|] eqn:E;
    intros H; inversion H; subst.
  - eapply content_line_nonempty; eauto.
  - discriminate.
Qed.

Lemma collect_nonempty (intent : json) (results : list json) :
  forall ms, collect JSON_parse Number_toString Date_toLocaleString string_gt0
               intent results = Ok ms ->
             Forall (fun m => m <> "") ms.
Proof.
  induction results as [|r rest IH]; simpl; intros ms H.
  - inversion H. constructor.
  - destruct (result_line _ _ _ _ intent r) as [o|] eqn:E; [|discriminate].
    destruct (collect _ _ _ _ intent rest) as [ms'|]; [|discriminate].
    inversion H; subst. destruct o as [m|]; auto.
    constructor; auto. eapply result_line_nonempty; eauto.
Qed.

(** [formatResponse] never returns the empty string. *)
Lemma formatResponse_never_empty (intent : json) (results : list json) (s : string) :
  fmt intent results = Ok s -> s <> "".
Proof.
  unfold fmt, formatResponse. destruct results as [|r rest].
  - intros H; inversion H; discriminate.
  - destruct (collect _ _ _ _ intent (r :: rest)) as [ms|] eqn:E; [|discriminate].
    intros H; inversion H; subst.
    destruct (join newline ms =? "") eqn:Ej; [discriminate|].
    now apply String.eqb_neq in Ej.
Qed.

Lemma formatResponse_empty_list (intent : json) :
  fmt intent [] = Ok "I couldn't process your request.".
Proof. reflexivity. Qed.

Lemma result_line_returns (intent result : json) :
  result <> JNull -> exists o, line intent result = Ok o.
Proof.
  intros Hn. unfold line, result_line. rewrite (ParseFacts.get_field _ _ Hn).
  destruct (truthy_opt _); eauto.
  destruct (field result "content") as [content|]; eauto.
  destruct (truthy content); eauto.
  destruct (index0 content) as [item|]; eauto.
  destruct (truthy item); eauto.
  destruct (content_line _ _ _ _ intent item); eauto.
Qed.

(** On results that are objects, [formatResponse] returns. *)
Lemma formatResponse_returns (intent : json) (results : list json) :
  Forall (fun r => r <> JNull) results ->
  exists s, fmt intent results = Ok s.
Proof.
  intros H. unfold fmt, formatResponse.
  assert (Hc : exists ms, collect JSON_parse Number_toString Date_toLocaleString
                            string_gt0 intent results = Ok ms).
  { induction H as [|r rest Hr _ IH]; simpl; eauto.
    destruct (result_line_returns intent r Hr) as [o Ho].
    unfold line in Ho. rewrite Ho. destruct IH as [ms ->]. eauto. }
  destruct Hc as [ms ->]. destruct results; eauto.
Qed.

(** The messages come in the order of the results. *)
Lemma collect_app (intent : json) (a b : list json) (ma mb : list string) :
  collect JSON_parse Number_toString Date_toLocaleString string_gt0 intent a = Ok ma ->
  collect JSON_parse Number_toString Date_toLocaleString string_gt0 intent b = Ok mb ->
  collect JSON_parse Number_toString Date_toLocaleString string_gt0 intent (a ++ b)
  = Ok (ma ++ mb).
Proof.
  revert ma. induction a as [|r a IH]; simpl; intros ma Ha Hb.
  - inversion Ha. assumption.
  - destruct (result_line _ _ _ _ intent r) as [o|]; [|discriminate].
    destruct (collect _ _ _ _ intent a) as [ms|] eqn:E; [|discriminate].
    inversion Ha; subst. rewrite (IH ms eq_refl Hb). now destruct o.
Qed.

(** A result that carries an [error] member gives an error line. *)
Lemma result_line_error (intent : json) (kvs : list (string * json)) (e : json) :
  assoc_last "error" kvs = Some e -> truthy e = true ->
  line intent (JObj kvs)
  = Ok (Some ("❌ Error: " ++ ToString Number_toString (Some e))%string).
Proof.
  intros He Ht. unfold line, result_line. simpl get. rewrite He.
  simpl truthy_opt. now rewrite Ht.
Qed.

End Any.

(** C8 at the failing input: a failed tool call, in the form the tool
    server reports it, is rendered as a completed operation. *)
Theorem formatResponse_failed_call_reads_completed :
  formatResponse JSON_parse decimal_number (fun _ => "") (fun _ => false)
    (JStr "delete_event")
    [CalendarMCPServer.error_content (Error "Event deletion requires confirmation")]
  = Ok "✅ Operation completed".
Proof. vm_compute. reflexivity. Qed.

End FormatFacts.

Module BridgeFacts.
Import GPT4MCPBridge.
Local Open Scope list_scope.

Section Any.

Variable World : Type.
Variable maxIterations : Z.
Variable model : nat -> list turn -> outcome assistant_message.
Variable JSON_parse : string -> option json.
Variable JSON_stringify : json -> string.
Variable syntax_error_message : string -> string.
Variable handleListEvents handleCreateEvent handleDeleteEvent
         handleUpdateEvent handleSearchEvents
  : json -> World -> outcome json * World.
Variable system_prompt : string.

Local Notation "'execute'" :=
  (executeToolCall World JSON_parse syntax_error_message handleListEvents
     handleCreateEvent handleDeleteEvent handleUpdateEvent handleSearchEvents).
Local Notation "'dispatch1'" :=
  (dispatch_one World JSON_parse JSON_stringify syntax_error_message
     handleListEvents handleCreateEvent handleDeleteEvent handleUpdateEvent
     handleSearchEvents).
Local Notation "'dispatch_all'" :=
  (dispatch World JSON_parse JSON_stringify syntax_error_message
     handleListEvents handleCreateEvent handleDeleteEvent handleUpdateEvent
     handleSearchEvents).
Local Notation "'run_loop'" :=
  (loop World maxIterations model JSON_parse JSON_stringify
     syntax_error_message handleListEvents handleCreateEvent handleDeleteEvent
     handleUpdateEvent handleSearchEvents).

(** With arguments that parse, one tool call always adds exactly one tool
    turn: the result of the handler, or the error it threw as a
    [success:false] object. *)
Lemma dispatch_one_absorbs (toolCall : tool_call) (messages : list turn)
    (w : World) (args : json) :
  JSON_parse (function_arguments toolCall) = Some args ->
  dispatch1 toolCall messages w =
  (Ok (messages ++
       [Tool (id toolCall)
          (JSON_stringify (match fst (execute toolCall w) with
                           | Ok result => result
                           | Throw e => errorResult e
                           end))]),
   snd (execute toolCall w)).
Proof.
  intros Hp. unfold dispatch_one.
  destruct (execute toolCall w) as [[result|e] w']; simpl;
    unfold parse; rewrite Hp; reflexivity.
Qed.

(** With arguments that do not parse, the call adds its error turn and then
    throws out of the loop over the tool calls. *)
Lemma dispatch_one_malformed (toolCall : tool_call) (messages : list turn)
    (w : World) :
  JSON_parse (function_arguments toolCall) = None ->
  dispatch1 toolCall messages w =
  (Throw (SyntaxError (syntax_error_message (function_arguments toolCall))), w).
Proof.
  intros Hp. unfold dispatch_one, executeToolCall, parse. rewrite Hp. reflexivity.
Qed.

Lemma dispatch_parsed (toolCalls : list tool_call) :
  Forall (fun c => JSON_parse (function_arguments c) <> None) toolCalls ->
  forall messages w, exists messages' w',
    dispatch_all toolCalls messages w = (Ok messages', w').
Proof.
  induction 1 as [|c rest Hc _ IH]; intros messages w; simpl; eauto.
  destruct (JSON_parse (function_arguments c)) as [args|] eqn:E; [|congruence].
  rewrite (dispatch_one_absorbs c messages w args E). apply IH.
Qed.

(** The loop returns within its budget, after at most
    [maxIterations - iteration] further requests, with one of the three
    result objects. *)
Lemma loop_returns (fuel : nat) :
  forall iteration messages w calls,
    (Z.to_nat (maxIterations - iteration) < fuel)%nat ->
    exists res w' n,
      run_loop fuel iteration messages w calls = Some (res, w', n) /\
      (n <= calls + Z.to_nat (maxIterations - iteration))%nat /\
      ((exists m it ms, res = completed m it ms /\ (iteration < it <= maxIterations)%Z) \/
       (exists e it, res = api_error e it /\ (iteration < it <= maxIterations)%Z) \/
       (res = max_iterations_reached maxIterations /\
        n = (calls + Z.to_nat (maxIterations - iteration))%nat)).
Proof.
  induction fuel as [|f IH]; intros iteration messages w calls Hf; [lia|].
  cbn [loop]. destruct (iteration <? maxIterations)%Z eqn:Hlt.
  - apply Z.ltb_lt in Hlt.
    destruct (model calls messages) as [am|e].
    + destruct (tool_calls am) as [[|tc tcs]|].
      * do 3 eexists. split; [reflexivity|]. split; [lia|].
        left. do 3 eexists. split; [reflexivity|lia].
      * destruct (dispatch_all (tc :: tcs) (messages ++ [Assistant am]) w)
          as [[messages'|e] w'].
        -- destruct (IH (iteration + 1)%Z messages' w' (S calls)) as
             (res & w'' & n & Hrun & Hn & Hres); [lia|].
           exists res, w'', n. split; [exact Hrun|]. split; [lia|].
           destruct Hres as [(m & it & ms & -> & Hit)|[(e & it & -> & Hit)|[-> Hn']]].
           ++ left. do 3 eexists. split; [reflexivity|lia].
           ++ right; left. do 2 eexists. split; [reflexivity|lia].
           ++ right; right. split; [reflexivity|lia].
        -- do 3 eexists. split; [reflexivity|]. split; [lia|].
           right; left. do 2 eexists. split; [reflexivity|lia].
      * do 3 eexists. split; [reflexivity|]. split; [lia|].
        left. do 3 eexists. split; [reflexivity|lia].
    + do 3 eexists. split; [reflexivity|]. split; [lia|].
      right; left. do 2 eexists. split; [reflexivity|lia].
  - apply Z.ltb_ge in Hlt. do 3 eexists. split; [reflexivity|].
    replace (Z.to_nat (maxIterations - iteration)) with 0%nat by lia.
    split; [lia|]. right; right. split; [reflexivity|lia].
Qed.

Lemma loop_against_adversary (fuel : nat) :
  always_calls_tools model JSON_parse ->
  forall iteration messages w calls,
    (Z.to_nat (maxIterations - iteration) < fuel)%nat ->
    exists w',
      run_loop fuel iteration messages w calls =
      Some (max_iterations_reached maxIterations, w',
            (calls + Z.to_nat (maxIterations - iteration))%nat).
Proof.
  intros Hadv. induction fuel as [|f IH]; intros iteration messages w calls Hf; [lia|].
  cbn [loop]. destruct (iteration <? maxIterations)%Z eqn:Hlt.
  - apply Z.ltb_lt in Hlt.
    destruct (Hadv calls messages) as (m & tc & tcs & -> & -> & Hp).
    destruct (dispatch_parsed _ Hp (messages ++ [Assistant m]) w) as (ms' & w' & ->).
    destruct (IH (iteration + 1)%Z ms' w' (S calls)) as [w'' ->]; [lia|].
    exists w''. do 2 f_equal. lia.
  - apply Z.ltb_ge in Hlt. exists w. do 2 f_equal. lia.
Qed.

(** C1.  With an iteration ceiling [maxIterations >= 0], [processMessage]
    returns for every message, every model and every behaviour of the
    tools, after at most [maxIterations + 1] requests to the model (in fact
    at most [maxIterations]).  It returns one of its three result objects
    and throws nothing; when the ceiling is reached, as against a model that
    answers every request with tool calls, the object is the failed one:
    [success: false], the "Reached maximum iterations" error and
    [iterations = maxIterations]. *)
Theorem processMessage_bounded (messageText : string) (w : World) :
  (0 <= maxIterations)%Z ->
  exists res w' n,
    processMessage World maxIterations model JSON_parse JSON_stringify
      syntax_error_message handleListEvents handleCreateEvent
      handleDeleteEvent handleUpdateEvent handleSearchEvents system_prompt
      messageText w = Some (res, w', n) /\
    (Z.of_nat n <= maxIterations + 1)%Z /\
    (Z.of_nat n <= maxIterations)%Z /\
    ((exists m it ms, res = completed m it ms /\ (0 < it <= maxIterations)%Z) \/
     (exists e it, res = api_error e it /\ (0 < it <= maxIterations)%Z) \/
     (res = max_iterations_reached maxIterations /\ Z.of_nat n = maxIterations)) /\
    success (max_iterations_reached maxIterations) = false /\
    iterations (max_iterations_reached maxIterations) = maxIterations /\
    (always_calls_tools model JSON_parse ->
     res = max_iterations_reached maxIterations /\ Z.of_nat n = maxIterations).
Proof.
  intros Hmax. unfold processMessage.
  destruct (loop_returns (S (Z.to_nat maxIterations)) 0
              [System system_prompt; User messageText] w 0)
    as (res & w' & n & Hrun & Hn & Hres);
    [rewrite Z.sub_0_r; lia|].
  rewrite Z.sub_0_r in *. exists res, w', n.
  split; [exact Hrun|]. split; [lia|]. split; [lia|].
  split.
  { destruct Hres as [H|[H|[-> Hn']]]; auto.
    right; right. split; [reflexivity|lia]. }
  split; [reflexivity|]. split; [reflexivity|].
  intros Hadv.
  destruct (loop_against_adversary (S (Z.to_nat maxIterations)) Hadv 0
              [System system_prompt; User messageText] w 0) as [w'' Hrun'];
    [rewrite Z.sub_0_r; lia|].
  rewrite Hrun in Hrun'. inversion Hrun'; subst.
  rewrite Z.sub_0_r. split; [reflexivity|lia].
Qed.

(** When the first answer of the model carries a tool call whose arguments
    are not JSON, the run ends there with the "GPT-4 API error" object. *)
Lemma processMessage_malformed_arguments (messageText : string) (w : World)
    (m : assistant_message) (tc : tool_call) (tcs : list tool_call) :
  (0 < maxIterations)%Z ->
  model 0%nat [System system_prompt; User messageText] = Ok m ->
  tool_calls m = Some (tc :: tcs) ->
  JSON_parse (function_arguments tc) = None ->
  processMessage World maxIterations model JSON_parse JSON_stringify
    syntax_error_message handleListEvents handleCreateEvent
    handleDeleteEvent handleUpdateEvent handleSearchEvents system_prompt
    messageText w
  = Some (api_error (SyntaxError (syntax_error_message (function_arguments tc))) 1,
          w, 1%nat).
Proof.
  intros Hmax Hm Ht Hp. unfold processMessage. cbn [loop].
  destruct (0 <? maxIterations)%Z eqn:E; [|apply Z.ltb_ge in E; lia].
  rewrite Hm, Ht. cbn [dispatch].
  rewrite (dispatch_one_malformed tc _ w Hp). reflexivity.
Qed.

End Any.

End BridgeFacts.

Module BridgeExamples.
Import GPT4MCPBridge.
Import Samples.
Local Open Scope list_scope.

Lemma processMessage_bounded_witness :
  exists res w' n,
    processMessage unit 3 (stubborn_model (quoted "{'query':'x'}")) JSON_parse
      JSON_stringify syntax_error unreachable unreachable unreachable
      unreachable unreachable "You are an intelligent calendar assistant"
      "clear my schedule" tt = Some (res, w', n) /\
    (Z.of_nat n <= 3 + 1)%Z /\ success res = false /\ iterations res = 3%Z.
Proof.
  destruct (BridgeFacts.processMessage_bounded unit 3
              (stubborn_model (quoted "{'query':'x'}")) JSON_parse
              JSON_stringify syntax_error unreachable unreachable unreachable
              unreachable unreachable "You are an intelligent calendar assistant"
              "clear my schedule" tt)
    as (res & w' & n & Hrun & Hn & _ & _ & _ & _ & Hadv); [lia|].
  exists res, w', n. split; [exact Hrun|]. split; [exact Hn|].
  destruct Hadv as [-> _]; [|split; reflexivity].
  intros k ms. do 3 eexists. split; [reflexivity|]. split; [reflexivity|].
  constructor; [vm_compute; discriminate|constructor].
Defined.

(** C3 at the failing input: the model emits one tool call whose arguments
    are the text [{], which is not JSON.  The ceiling is 5, the handlers
    would answer, yet the run ends at the first iteration with the
    "GPT-4 API error" object. *)
Theorem processMessage_malformed_arguments_end_run :
  processMessage unit 5 (stubborn_model "{") JSON_parse JSON_stringify
    syntax_error
    (fun _ w => (Ok (JObj [("success", JBool true)]), w))
    (fun _ w => (Ok (JObj [("success", JBool true)]), w))
    (fun _ w => (Ok (JObj [("success", JBool true)]), w))
    (fun _ w => (Ok (JObj [("success", JBool true)]), w))
    (fun _ w => (Ok (JObj [("success", JBool true)]), w))
    "You are an intelligent calendar assistant" "what do I have today" tt
  = Some ({| success := false; response := None;
             error := Some "GPT-4 API error: Unexpected end of JSON input";
             iterations := 1; conversationLength := None |}, tt, 1%nat).
Proof. vm_compute. reflexivity. Qed.

(** With the same model and the arguments [{"query":"x"}], a store that
    throws on every call does not end the run: each error becomes a tool
    turn and the loop goes on to the ceiling. *)
Example dispatch_one_store_error :
  dispatch_one unit JSON_parse JSON_stringify syntax_error unreachable
    unreachable unreachable unreachable unreachable
    {| id := "call_1"; function_name := "search_calendar_events";
       function_arguments := quoted "{'query':'x'}" |} [] tt
  = (Ok [Tool "call_1" (quoted "{'success':false,'error':'connect ECONNREFUSED'}")], tt).
Proof. vm_compute. reflexivity. Qed.

End BridgeExamples.

Module DateFacts.
Import JSDate.
Local Open Scope Z_scope.

(** Linear arithmetic with the quotients and remainders by constants. *)
Ltac zdiv := Z.to_euclidean_division_equations; lia.

(** ** The calendar *)

(** The year of a day of the 400-year era, and the day of that year. *)
Lemma yoe_range doe : 0 <= doe < 146097 ->
  let Y := (doe - doe / 1460 + doe / 36524 - doe / 146096) / 365 in
  0 <= Y < 400 /\ 0 <= doe - (365 * Y + Y / 4 - Y / 100) <= 365.
Proof. intros H. cbv zeta. zdiv. Qed.

(** The date of a day number maps back to that day number. *)
Lemma civil_from_days_inverse z :
  let '(y, m, d) := civil_from_days z in days_from_civil y m d = z.
Proof.
  unfold civil_from_days, days_from_civil.
  set (z' := z + 719468). set (era := z' / 146097). set (doe := z' mod 146097).
  assert (Hdoe : 0 <= doe < 146097) by (subst doe; apply Z.mod_pos_bound; lia).
  assert (Hz : z' = 146097 * era + doe) by (subst era doe; apply Z.div_mod; lia).
  destruct (yoe_range doe Hdoe) as [HY Hdoy].
  set (Y := (doe - doe / 1460 + doe / 36524 - doe / 146096) / 365) in *.
  set (doy := doe - (365 * Y + Y / 4 - Y / 100)) in *.
  set (mp := (5 * doy + 2) / 153).
  assert (Hmp : 0 <= mp <= 11) by (subst mp; zdiv).
  set (m := if mp <? 10 then mp + 3 else mp - 9).
  assert (Hm : (m <=? 2) = negb (mp <? 10) /\ (if 2 <? m then m - 3 else m + 9) = mp).
  { subst m. destruct (mp <? 10) eqn:E.
    - apply Z.ltb_lt in E. split.
      + simpl. apply Z.leb_gt. lia.
      + replace (2 <? mp + 3) with true by (symmetry; apply Z.ltb_lt; lia). lia.
    - apply Z.ltb_ge in E. split.
      + simpl. apply Z.leb_le. lia.
      + replace (2 <? mp - 9) with false by (symmetry; apply Z.ltb_ge; lia). lia. }
  destruct Hm as [Hm1 Hm2]. rewrite Hm1, Hm2.
  assert (Hy : (if negb (mp <? 10)
                then Y + era * 400 + (if negb (mp <? 10) then 1 else 0) - 1
                else Y + era * 400 + (if negb (mp <? 10) then 1 else 0))
               = Y + era * 400) by (destruct (mp <? 10); simpl; lia).
  rewrite Hy.
  replace ((Y + era * 400) / 400) with era by zdiv.
  replace ((Y + era * 400) mod 400) with Y by zdiv.
  subst doy. lia.
Qed.

(** Only a leap year has a 366th day. *)
Lemma leap_day doe : 0 <= doe < 146097 ->
  let Y := (doe - doe / 1460 + doe / 36524 - doe / 146096) / 365 in
  doe - (365 * Y + Y / 4 - Y / 100) = 365 ->
  (Y + 1) mod 4 = 0 /\ ((Y + 1) mod 100 <> 0 \/ (Y + 1) mod 400 = 0).
Proof. intros H. cbv zeta. zdiv. Qed.

(** The date of a day number is a date of the calendar. *)
Lemma civil_from_days_valid z :
  let '(y, m, d) := civil_from_days z in
  1 <= m <= 12 /\ 1 <= d <= days_in_month y m.
Proof.
  unfold civil_from_days.
  set (z' := z + 719468). set (era := z' / 146097). set (doe := z' mod 146097).
  assert (Hdoe : 0 <= doe < 146097) by (subst doe; apply Z.mod_pos_bound; lia).
  destruct (yoe_range doe Hdoe) as [HY Hdoy].
  pose proof (leap_day doe Hdoe) as Hleap. cbv zeta in Hleap.
  set (Y := (doe - doe / 1460 + doe / 36524 - doe / 146096) / 365) in *.
  set (doy := doe - (365 * Y + Y / 4 - Y / 100)) in *.
  set (mp := (5 * doy + 2) / 153).
  assert (Hmp : 0 <= mp <= 11) by (subst mp; zdiv).
  assert (Hcases : mp = 0 \/ mp = 1 \/ mp = 2 \/ mp = 3 \/ mp = 4 \/ mp = 5 \/
                   mp = 6 \/ mp = 7 \/ mp = 8 \/ mp = 9 \/ mp = 10 \/ mp = 11) by lia.
  assert (Hdef : 153 * mp <= 5 * doy + 2 < 153 * mp + 153) by (subst mp; zdiv).
  clearbody mp doy.
  set (m := if mp <? 10 then mp + 3 else mp - 9).
  set (y := Y + era * 400 + (if m <=? 2 then 1 else 0)).
  set (d := doy - (153 * mp + 2) / 5 + 1).
  assert (Hfeb : m = 2 -> mp = 11 /\ y = Y + era * 400 + 1).
  { intros Hm2. assert (mp = 11) by (subst m; destruct (mp <? 10) eqn:E; lia).
    split; [assumption|]. subst y. rewrite Hm2. reflexivity. }
  assert (Hm : 1 <= m <= 12) by (subst m; destruct (mp <? 10) eqn:E;
    [apply Z.ltb_lt in E|apply Z.ltb_ge in E]; lia).
  split; [exact Hm|].
  assert (Hd1 : 1 <= d) by (subst d; zdiv).
  split; [exact Hd1|].
  unfold days_in_month. destruct (m =? 2) eqn:E2.
  - apply Z.eqb_eq in E2. destruct (Hfeb E2) as [-> ->]. unfold is_leap.
    replace ((Y + era * 400 + 1) mod 4) with ((Y + 1) mod 4) by zdiv.
    replace ((Y + era * 400 + 1) mod 100) with ((Y + 1) mod 100) by zdiv.
    replace ((Y + era * 400 + 1) mod 400) with ((Y + 1) mod 400) by zdiv.
    assert (d <= 28 \/ doy = 365 /\ d = 29) as [Hn|[He Hd29]] by (subst d; zdiv).
    + destruct (_ && _); lia.
    + destruct (Hleap He) as [H4 H100]. rewrite H4. simpl andb.
      destruct H100 as [H100|H400].
      * apply Z.eqb_neq in H100. rewrite H100. simpl. lia.
      * rewrite H400. simpl. rewrite orb_true_r. lia.
  - apply Z.eqb_neq in E2.
    assert (Hlen : d <= 31 /\ (m = 4 \/ m = 6 \/ m = 9 \/ m = 11 -> d <= 30)).
    { subst d m. clear Hfeb Hm E2 y.
      repeat (destruct Hcases as [->|Hcases]); try subst mp;
        (split; [zdiv|intros; try zdiv]); exfalso; simpl in *; lia. }
    destruct Hlen as [H31 H30].
    destruct ((m =? 4) || (m =? 6) || (m =? 9) || (m =? 11)) eqn:E; [|lia].
    apply H30. repeat (apply orb_prop in E; destruct E as [E|E]);
      apply Z.eqb_eq in E; lia.
Qed.

(** The year of a time value fits the six digits of the long form. *)
Lemma year_bound t :
  - maxTime <= t <= maxTime ->
  let '(y, m, d) := civil_from_days (t / msPerDay) in -999999 <= y <= 999999.
Proof.
  intros H. unfold civil_from_days, maxTime, msPerDay in *.
  set (z' := t / 86400000 + 719468). set (era := z' / 146097). set (doe := z' mod 146097).
  assert (Hdoe : 0 <= doe < 146097) by (subst doe; apply Z.mod_pos_bound; lia).
  destruct (yoe_range doe Hdoe) as [HY Hdoy].
  set (Y := (doe - doe / 1460 + doe / 36524 - doe / 146096) / 365) in *.
  assert (-700 <= era <= 700) by (subst era z'; zdiv).
  destruct (_ <=? 2); lia.
Qed.

Example toISOString_samples :
  toISOString 0 = "1970-01-01T00:00:00.000Z" /\
  toISOString 1755604800123 = "2025-08-19T12:00:00.123Z" /\
  toISOString 951782400000 = "2000-02-29T00:00:00.000Z" /\
  toISOString (-1) = "1969-12-31T23:59:59.999Z".
Proof. vm_compute. repeat split. Qed.

Example Date_parse_samples :
  Date_parse "2025-08-20T14:00:00+03:00" = Some 1755687600000 /\
  Date_parse "2024-02-29T14:00Z" = Some 1709215200000 /\
  Date_parse "2025-02-29T14:00:00+03:00" = None /\
  Date_parse "next friday" = None.
Proof. vm_compute. repeat split. Qed.

(** ** Printing and reading decimal fields *)

Lemma digit_cases (x : Z) : 0 <= x <= 9 ->
  x = 0 \/ x = 1 \/ x = 2 \/ x = 3 \/ x = 4 \/ x = 5 \/ x = 6 \/ x = 7 \/ x = 8 \/ x = 9.
Proof. lia. Qed.

Ltac each_digit x H :=
  let C := fresh "C" in
  pose proof (digit_cases x H) as C;
  repeat (destruct C as [C|C]); rewrite C.

Lemma mod10_digit (a : Z) : 0 <= a mod 10 <= 9.
Proof. pose proof (Z.mod_pos_bound a 10). lia. Qed.

Lemma digit_val_digit (x : Z) : 0 <= x <= 9 -> digit_val (digit x) = Some x.
Proof. intros H. each_digit x H; reflexivity. Qed.

Lemma digit_not (c : ascii) (x : Z) :
  0 <= x <= 9 -> digit_val c = None -> (digit x =? c)%char = false.
Proof.
  intros H Hc. destruct (digit x =? c)%char eqn:E; [|reflexivity].
  apply Ascii.eqb_eq in E. subst c. rewrite (digit_val_digit x H) in Hc. discriminate.
Qed.

Lemma read_fixed_pad (k : nat) :
  forall n rest acc,
    read_fixed k (pad k n ++ rest) acc
    = Some (acc * 10 ^ Z.of_nat k + n mod 10 ^ Z.of_nat k, rest).
Proof.
  induction k as [|k IH]; intros n rest acc.
  - simpl. rewrite Z.mod_1_r. f_equal. f_equal. lia.
  - cbn [pad read_fixed append].
    rewrite digit_val_digit by apply mod10_digit.
    rewrite IH. f_equal. f_equal.
    rewrite Nat2Z.inj_succ, Z.pow_succ_r by lia.
    assert (Hp : 0 < 10 ^ Z.of_nat k) by (apply Z.pow_pos_nonneg; lia).
    rewrite (Z.mul_comm 10 (10 ^ Z.of_nat k)).
    rewrite (Z.rem_mul_r n (10 ^ Z.of_nat k) 10) by lia.
    ring.
Qed.

Lemma read_pad (k : nat) (n : Z) (rest : string) :
  0 <= n < 10 ^ Z.of_nat k ->
  read_fixed k (pad k n ++ rest) 0 = Some (n, rest).
Proof.
  intros H. rewrite read_fixed_pad. rewrite Z.mod_small by lia. reflexivity.
Qed.

Lemma replace_pad (c : ascii) (by_ : string) (k : nat) :
  digit_val c = None ->
  forall n rest, replace c by_ (pad k n ++ rest) = pad k n ++ replace c by_ rest.
Proof.
  intros Hc. induction k as [|k IH]; intros n rest; [reflexivity|].
  cbn [pad append replace].
  rewrite digit_not by (auto using mod10_digit).
  now rewrite IH.
Qed.

Lemma parse_year_string (y : Z) (rest : string) :
  -999999 <= y <= 999999 -> parse_year (year_string y ++ rest) = Some (y, rest).
Proof.
  intros H. unfold year_string.
  destruct ((0 <=? y) && (y <=? 9999)) eqn:E.
  - apply andb_prop in E. destruct E as [E1 E2].
    apply Z.leb_le in E1. apply Z.leb_le in E2.
    assert (Hr : read_fixed 4 (pad 4 y ++ rest) 0 = Some (y, rest))
      by (apply read_pad; simpl; lia).
    unfold parse_year. revert Hr. cbn [pad append].
    rewrite !digit_not by (auto using mod10_digit). auto.
  - cbn [append]. unfold parse_year. destruct (y <? 0) eqn:Eneg.
    + apply Z.ltb_lt in Eneg. cbn [Ascii.eqb Bool.eqb].
      rewrite read_pad by (simpl; lia).
      replace (Z.abs y =? 0) with false by (symmetry; apply Z.eqb_neq; lia).
      f_equal. f_equal. lia.
    + apply Z.ltb_ge in Eneg. cbn [Ascii.eqb Bool.eqb].
      apply andb_false_iff in E.
      rewrite read_pad by (simpl; destruct E as [E|E];
                           [apply Z.leb_gt in E|apply Z.leb_gt in E]; lia).
      f_equal. f_equal. lia.
Qed.

Lemma replace_year_string (c : ascii) (by_ rest : string) (y : Z) :
  digit_val c = None -> (c =? "-")%char = false -> (c =? "+")%char = false ->
  replace c by_ (year_string y ++ rest) = year_string y ++ replace c by_ rest.
Proof.
  intros Hc Hm Hp. unfold year_string.
  destruct ((0 <=? y) && (y <=? 9999)); [now apply replace_pad|].
  cbn [append replace].
  replace (Ascii.eqb (if y <? 0 then "-"%char else "+"%char) c) with false.
  - now rewrite replace_pad.
  - destruct (y <? 0); rewrite Ascii.eqb_sym; auto.
Qed.

(** The fields of a date-time text, read back. *)
Lemma Date_parse_fields (y m d hh mi ss ms zone : Z) (zs : string) :
  -999999 <= y <= 999999 -> 1 <= m <= 12 -> 1 <= d <= days_in_month y m ->
  0 <= hh <= 23 -> 0 <= mi <= 59 -> 0 <= ss <= 59 -> 0 <= ms <= 999 ->
  parse_zone zs = Some zone ->
  Date_parse (year_string y ++ "-" ++ pad 2 m ++ "-" ++ pad 2 d ++ "T"
              ++ pad 2 hh ++ ":" ++ pad 2 mi ++ ":" ++ pad 2 ss ++ "."
              ++ pad 3 ms ++ zs)
  = (let t := days_from_civil y m d * msPerDay
              + hh * 3600000 + mi * 60000 + ss * 1000 + ms - zone in
     if in_range t then Some t else None).
Proof.
  intros Hy Hm Hd Hhh Hmi Hss Hms Hz.
  assert (Hdim : days_in_month y m <= 31).
  { unfold days_in_month. repeat destruct (_ =? _); simpl; try lia.
    destruct (is_leap y); lia. }
  unfold Date_parse. rewrite parse_year_string by assumption.
  cbn [bind append expect Ascii.eqb Bool.eqb].
  rewrite read_pad by (simpl; lia). cbn [bind append expect Ascii.eqb Bool.eqb].
  rewrite read_pad by (simpl; lia). cbn [bind append expect Ascii.eqb Bool.eqb].
  rewrite read_pad by (simpl; lia). cbn [bind append expect Ascii.eqb Bool.eqb].
  rewrite read_pad by (simpl; lia). cbn [bind append expect Ascii.eqb Bool.eqb].
  unfold parse_seconds. cbn [bind append expect Ascii.eqb Bool.eqb].
  rewrite read_pad by (simpl; lia). cbn [bind append expect Ascii.eqb Bool.eqb].
  rewrite read_pad by (simpl; lia). cbn [bind].
  rewrite Hz. cbn [bind].
  replace ((1 <=? m) && (m <=? 12) && (1 <=? d) && (d <=? days_in_month y m)
           && (hh <=? 23) && (mi <=? 59) && (ss <=? 59)) with true; [reflexivity|].
  symmetry. repeat (apply andb_true_intro; split); apply Z.leb_le; lia.
Qed.

Lemma setHours_next_hour (localOffset t : Z) :
  setHours localOffset t (getHours localOffset t + 1) = t + 3600000.
Proof. unfold setHours, getHours, msPerDay, msPerHour. zdiv. Qed.

Lemma time_fields (t : Z) :
  let tod := t mod msPerDay in
  0 <= tod / 3600000 <= 23 /\ 0 <= (tod / 60000) mod 60 <= 59 /\
  0 <= (tod / 1000) mod 60 <= 59 /\ 0 <= tod mod 1000 <= 999 /\
  (t / msPerDay) * msPerDay + tod / 3600000 * 3600000
  + (tod / 60000) mod 60 * 60000 + (tod / 1000) mod 60 * 1000 + tod mod 1000 = t.
Proof. unfold msPerDay. cbv zeta. zdiv. Qed.

(** The text [toISOString] prints for [t], its [Z] replaced by a zone
    designator, reads back as [t] minus the offset of that zone. *)
Lemma Date_parse_relabelled (t zone : Z) (zs : string) :
  in_range t = true -> parse_zone (zs ++ "") = Some zone ->
  Date_parse (replace "Z" zs (toISOString t))
  = (if in_range (t - zone) then Some (t - zone) else None).
Proof.
  intros Hr Hz. unfold toISOString.
  pose proof (civil_from_days_inverse (t / msPerDay)) as Hinv.
  pose proof (civil_from_days_valid (t / msPerDay)) as Hval.
  assert (Hrange : - maxTime <= t <= maxTime).
  { unfold in_range in Hr. apply andb_prop in Hr. destruct Hr as [H1 H2].
    apply Z.leb_le in H1. apply Z.leb_le in H2. lia. }
  pose proof (year_bound t Hrange) as Hy.
  destruct (civil_from_days (t / msPerDay)) as [[y m] d].
  destruct (time_fields t) as (Hh & Hmi & Hs & Hms & Hsum).
  rewrite replace_year_string by reflexivity. cbn [append replace Ascii.eqb Bool.eqb].
  rewrite (replace_pad "Z" zs 2) by reflexivity. cbn [append replace Ascii.eqb Bool.eqb].
  rewrite (replace_pad "Z" zs 2) by reflexivity. cbn [append replace Ascii.eqb Bool.eqb].
  rewrite (replace_pad "Z" zs 2) by reflexivity. cbn [append replace Ascii.eqb Bool.eqb].
  rewrite (replace_pad "Z" zs 2) by reflexivity. cbn [append replace Ascii.eqb Bool.eqb].
  rewrite (replace_pad "Z" zs 2) by reflexivity. cbn [append replace Ascii.eqb Bool.eqb].
  rewrite (replace_pad "Z" zs 3) by reflexivity. cbn [append replace Ascii.eqb Bool.eqb].
  pose proof (Date_parse_fields y m d _ _ _ _ zone (zs ++ "") Hy (proj1 Hval)
                (proj2 Hval) Hh Hmi Hs Hms Hz) as Hp.
  cbn [append] in Hp. rewrite Hp. cbv zeta. rewrite Hinv.
  replace (_ - zone) with (t - zone) by lia. reflexivity.
Qed.

(** [addOneHour] on a text that denotes [t], as long as [t] plus one hour
    and [t] minus two hours are time values. *)
Lemma addOneHour_in_range (localOffset : Z) (isoDateTime : string) (t : Z) :
  Date_parse isoDateTime = Some t ->
  in_range (t + 3600000) = true ->
  in_range (t - 7200000) = true ->
  exists r,
    addOneHour localOffset isoDateTime = Ok r /\
    Date_parse r = Some (t - 7200000) /\
    Date_parse r <> Some (t + 3600000).
Proof.
  intros Hp Hr1 Hr2. unfold addOneHour. rewrite Hp.
  cbv zeta. rewrite setHours_next_hour, Hr1.
  eexists. split; [reflexivity|].
  rewrite (Date_parse_relabelled (t + 3600000) 10800000 "+03:00" Hr1 eq_refl).
  replace (t + 3600000 - 10800000) with (t - 7200000) by lia.
  rewrite Hr2. split; [reflexivity|]. intros H. inversion H. lia.
Qed.

Lemma digit_val_range (c : ascii) (d : Z) : digit_val c = Some d -> 0 <= d <= 9.
Proof.
  unfold digit_val. destruct (_ && _) eqn:E; [|discriminate].
  apply andb_prop in E. destruct E as [E1 E2].
  apply Z.leb_le in E1. apply Z.leb_le in E2. intros H. inversion H. lia.
Qed.

Lemma read_fixed_bound (k : nat) :
  forall s acc v r, read_fixed k s acc = Some (v, r) ->
    acc * 10 ^ Z.of_nat k <= v < (acc + 1) * 10 ^ Z.of_nat k.
Proof.
  induction k as [|k IH]; intros s acc v r H.
  - simpl in *. inversion H. lia.
  - cbn [read_fixed] in H. destruct s as [|c s]; [discriminate|].
    destruct (digit_val c) as [d|] eqn:Ed; [|discriminate].
    apply digit_val_range in Ed. apply IH in H.
    rewrite Nat2Z.inj_succ, Z.pow_succ_r by lia.
    assert (0 < 10 ^ Z.of_nat k) by (apply Z.pow_pos_nonneg; lia). nia.
Qed.

Lemma parse_zone_bound (s : string) (zone : Z) :
  parse_zone s = Some zone -> -86340000 <= zone <= 86340000.
Proof.
  unfold parse_zone. destruct s as [|c r]; [discriminate|].
  destruct (c =? "Z")%char.
  - destruct (r =? "")%string; intros H; inversion H; lia.
  - destruct ((c =? "+") || (c =? "-"))%char; [|discriminate].
    destruct (read_fixed 2 r 0) as [[hh r1]|] eqn:E1; [|discriminate].
    destruct (expect ":" r1) as [r2|]; [|discriminate].
    destruct (read_fixed 2 r2 0) as [[mm r3]|] eqn:E2; [|discriminate].
    apply read_fixed_bound in E1. apply read_fixed_bound in E2. simpl in E1, E2.
    destruct ((r3 =? "")%string && (hh <=? 23) && (mm <=? 59)) eqn:E; [|discriminate].
    apply andb_prop in E. destruct E as [E Em]. apply andb_prop in E.
    destruct E as [_ Eh]. apply Z.leb_le in Eh. apply Z.leb_le in Em.
    intros H. inversion H. destruct (c =? "-")%char; lia.
Qed.

Lemma days_from_civil_bound (y m d : Z) :
  0 <= y <= 9999 -> 1 <= m <= 12 -> 1 <= d <= 31 ->
  -719528 <= days_from_civil y m d <= 2932896.
Proof.
  intros Hy Hm Hd. unfold days_from_civil.
  destruct (m <=? 2) eqn:E1; destruct (2 <? m) eqn:E2;
    try apply Z.leb_le in E1; try apply Z.leb_gt in E1;
    try apply Z.ltb_lt in E2; try apply Z.ltb_ge in E2; try lia; zdiv.
Qed.

(** A text with a four-digit year denotes a time well inside the range of
    time values. *)
Lemma Date_parse_four_digit_year (c : ascii) (r : string) (t : Z) :
  digit_val c <> None -> Date_parse (String c r) = Some t ->
  -62167400000000 <= t <= 253402400000000.
Proof.
  intros Hc. unfold Date_parse, parse_year.
  replace (c =? "+")%char with false
    by (symmetry; apply Ascii.eqb_neq; intros ->; apply Hc; reflexivity).
  replace (c =? "-")%char with false
    by (symmetry; apply Ascii.eqb_neq; intros ->; apply Hc; reflexivity).
  destruct (read_fixed 4 (String c r) 0) as [[y s1]|] eqn:Ey; [|discriminate].
  apply read_fixed_bound in Ey. simpl in Ey. cbn [bind].
  destruct (expect "-" s1) as [s2|]; [|discriminate]. cbn [bind].
  destruct (read_fixed 2 s2 0) as [[m s3]|] eqn:Em; [|discriminate]. cbn [bind].
  destruct (expect "-" s3) as [s4|]; [|discriminate]. cbn [bind].
  destruct (read_fixed 2 s4 0) as [[d s5]|] eqn:Ed; [|discriminate]. cbn [bind].
  destruct (expect "T" s5) as [s6|]; [|discriminate]. cbn [bind].
  destruct (read_fixed 2 s6 0) as [[hh s7]|] eqn:Eh; [|discriminate]. cbn [bind].
  destruct (expect ":" s7) as [s8|]; [|discriminate]. cbn [bind].
  destruct (read_fixed 2 s8 0) as [[mi s9]|] eqn:Emi; [|discriminate]. cbn [bind].
  destruct (parse_seconds s9) as [[[ss ms] s10]|] eqn:Es; [|discriminate]. cbn [bind].
  destruct (parse_zone s10) as [zone|] eqn:Ez; [|discriminate]. cbn [bind].
  apply parse_zone_bound in Ez.
  apply read_fixed_bound in Ed, Eh, Emi. simpl in Ed, Eh, Emi.
  assert (Hsec : 0 <= ss /\ 0 <= ms < 1000).
  { unfold parse_seconds in Es. destruct (expect ":" s9) as [q|].
    - destruct (read_fixed 2 q 0) as [[a q1]|] eqn:Ea; [|discriminate].
      apply read_fixed_bound in Ea. simpl in Ea.
      destruct (expect "." q1) as [q2|].
      + destruct (read_fixed 3 q2 0) as [[b q3]|] eqn:Eb; [|discriminate].
        apply read_fixed_bound in Eb. simpl in Eb. inversion Es; subst. lia.
      + inversion Es; subst. lia.
    - inversion Es; subst. lia. }
  destruct (_ && _) eqn:E; [|discriminate].
  repeat (apply andb_prop in E; destruct E as [E ?]).
  repeat match goal with
         | H : (_ <=? _) = true |- _ => apply Z.leb_le in H
         end.
  assert (Hdim : days_in_month y m <= 31).
  { unfold days_in_month. repeat destruct (_ =? _); simpl; try lia.
    destruct (is_leap y); lia. }
  pose proof (days_from_civil_bound y m d) as Hdays.
  destruct (in_range _); [|discriminate].
  intros H'. inversion H'. unfold msPerDay. lia.
Qed.



(** The same call, evaluated: an event that starts at 14:00 (+03:00) gets
    the end time 12:00 (+03:00). *)
Example addOneHour_sample :
  GPT4MCPBridge.addOneHour 7200000 "2025-08-20T14:00:00+03:00"
  = Ok "2025-08-20T12:00:00.000+03:00".
Proof. vm_compute. reflexivity. Qed.

End DateFacts.

Module ResolverFacts.
Import JSDate.
Local Open Scope Z_scope.

Lemma startOfDay_same_second (utcOffset now1 now2 : Z) :
  now1 / 1000 = now2 / 1000 ->
  Moment.startOfDay utcOffset now1 = Moment.startOfDay utcOffset now2.
Proof.
  unfold Moment.startOfDay, Moment.offset, msPerDay. intros H.
  DateFacts.zdiv.
Qed.

Lemma day_bound_same_second (utcOffset now1 now2 n : Z) (endOfDay : bool) :
  now1 / 1000 = now2 / 1000 ->
  GPT4MCPBridge.day_bound utcOffset endOfDay (Moment.addDays n now1)
  = GPT4MCPBridge.day_bound utcOffset endOfDay (Moment.addDays n now2).
Proof.
  intros H. unfold GPT4MCPBridge.day_bound, Moment.endOfDay.
  rewrite (startOfDay_same_second utcOffset (Moment.addDays n now1)
             (Moment.addDays n now2)).
  - reflexivity.
  - unfold Moment.addDays, msPerDay. DateFacts.zdiv.
Qed.

Lemma ends_with_refl (p : string) : ends_with p p = true.
Proof. destruct p; simpl; [reflexivity|]. now rewrite Ascii.eqb_refl, String.eqb_refl. Qed.

Lemma ends_with_append (a r p : string) :
  ends_with r p = true -> ends_with (a ++ r) p = true.
Proof.
  intros H. induction a as [|c a IH]; [exact H|].
  cbn [append ends_with]. rewrite IH. apply orb_true_r.
Qed.

(** [toISOString] prints the UTC reading: the text ends with [Z]. *)
Lemma toISOString_ends_with_Z (t : Z) : ends_with (toISOString t) "Z" = true.
Proof.
  unfold toISOString. destruct (civil_from_days (t / msPerDay)) as [[y m] d].
  repeat apply ends_with_append. reflexivity.
Qed.

Lemma day_bound_now_same_second (utcOffset now1 now2 : Z) (endOfDay : bool) :
  now1 / 1000 = now2 / 1000 ->
  GPT4MCPBridge.day_bound utcOffset endOfDay now1
  = GPT4MCPBridge.day_bound utcOffset endOfDay now2.
Proof.
  intros H. unfold GPT4MCPBridge.day_bound, Moment.endOfDay.
  now rewrite (startOfDay_same_second utcOffset now1 now2 H).
Qed.

Section Resolver.

Variable utcOffset : Z.
Variable moment_tz : string -> option Z.


(** [GPT4MCPBridge.parseDateTime] always returns a text. *)
Lemma bridge_parseDateTime_returns (now : Z) (dateStr : string) (endOfDay : bool) :
  exists r, GPT4MCPBridge.parseDateTime now utcOffset moment_tz dateStr endOfDay = Some r.
Proof.
  unfold GPT4MCPBridge.parseDateTime.
  repeat match goal with
         | |- context [if ?b then _ else _] => destruct b
         | |- context [match ?x with _ => _ end] => destruct x
         end; simpl; eauto.
Qed.

(** When no keyword matches and moment.js cannot read the text,
    [GPT4MCPBridge.parseDateTime] answers with the current time. *)
Lemma bridge_parseDateTime_fallback (now : Z) (dateStr : string) (endOfDay : bool) :
  (toLowerCase dateStr =? "today")%string = false ->
  (toLowerCase dateStr =? "tomorrow")%string = false ->
  (toLowerCase dateStr =? "yesterday")%string = false ->
  includes (toLowerCase dateStr) "tomorrow" = false ->
  includes (toLowerCase dateStr) "today" = false ->
  moment_tz dateStr = None ->
  GPT4MCPBridge.parseDateTime now utcOffset moment_tz dateStr endOfDay
  = Some (toISOString now).
Proof.
  intros H1 H2 H3 H4 H5 H6. unfold GPT4MCPBridge.parseDateTime.
  now rewrite H1, H2, H3, H4, H5, H6.
Qed.

(** On the same texts [CalendarMCPServer.parseDateTime] has no fallback: it
    returns [null]. *)
Lemma server_parseDateTime_null (now : Z) (dateStr : string) (endOfDay : bool) :
  (toLowerCase dateStr =? "today")%string = false ->
  (toLowerCase dateStr =? "tomorrow")%string = false ->
  (toLowerCase dateStr =? "yesterday")%string = false ->
  moment_tz dateStr = None ->
  CalendarMCPServer.parseDateTime now utcOffset moment_tz dateStr endOfDay = None.
Proof.
  intros H1 H2 H3 H4. unfold CalendarMCPServer.parseDateTime.
  rewrite H1, H2, H3, H4. now destruct endOfDay.
Qed.

End Resolver.



(** C5 at the failing input: [next friday] has no keyword the resolver
    knows and moment.js cannot read it.  [GPT4MCPBridge.parseDateTime] falls
    back to the current time; [CalendarMCPServer.parseDateTime] returns
    [null]. *)
Theorem server_parseDateTime_no_fallback :
  CalendarMCPServer.parseDateTime 1755604800000 180 Date_parse "next friday" false
  = None /\
  GPT4MCPBridge.parseDateTime 1755604800000 180 Date_parse "next friday" false
  = Some "2025-08-19T12:00:00.000Z".
Proof. vm_compute. split; reflexivity. Qed.

End ResolverFacts.

Module ServerFacts.
Import CalendarService CalendarMCPServer.
Local Open Scope list_scope.

Section Any.

Variable Store : Type.
Variable events_get : Store -> option json -> outcome json.
Variable events_list : Store -> string -> string -> outcome (list json).
Variable events_delete : Store -> option json -> outcome unit * Store.
Variable events_update : Store -> option json -> json -> outcome json * Store.
Variable now : Z.
Variable utcOffset : Z.
Variable moment_tz : string -> option Z.
Variable timezone : string.
Variable Number_toString : Z -> Z -> string.
Variable JSON_stringify2 : json -> string.
Variable handleListEvents handleCreateEvent handleSearchEvents
  : option json -> M Store json.
Variable tools : json.

Local Notation "'serve'" :=
  (handleRequest Store events_get events_list events_delete events_update now
     utcOffset moment_tz timezone Number_toString JSON_stringify2
     handleListEvents handleCreateEvent handleSearchEvents tools).
Local Notation "'find_by_identifier'" :=
  (findEventByIdentifier Store events_get events_list now utcOffset).

(** A [tools/call] request is always answered: whatever a handler throws is
    turned into an error result. *)
Lemma handleRequest_answers (p : call_params) (w : World Store) :
  exists result w',
    serve {| method := "tools/call"; params := Some p |} w = (Ok result, w').
Proof.
  unfold handleRequest. cbn [method params].
  change ("tools/call" =? "tools/list")%string with false.
  change ("tools/call" =? "tools/call")%string with true. cbv iota.
  unfold try_catch, ret.
  match goal with
  | |- context [match ?m w with _ => _ end] => destruct (m w) as [[r|e] w']
  end; eauto.
Qed.

(** The tool calls of one message are all executed and each leaves a
    result: [processEventMessage] does not stop on a failed call. *)
Lemma executeTools_returns (toolCalls : list json) :
  Forall (fun toolCall => toolCall <> JNull) toolCalls ->
  forall w, exists results w',
    MCPLLMService.executeTools Store serve toolCalls w = (Ok results, w') /\
    List.length results = List.length toolCalls.
Proof.
  induction 1 as [|toolCall rest Hn _ IH]; intros w; cbn [MCPLLMService.executeTools].
  - unfold ret. eauto.
  - unfold bind at 1, lift. rewrite (ParseFacts.get_field _ _ Hn).
    unfold bind at 1, try_catch, MCPLLMService.executeTool.
    destruct (handleRequest_answers
                {| name := field toolCall "name";
                   arguments := field toolCall "arguments" |} w)
      as (result & w1 & ->).
    unfold bind, ret. destruct (IH w1) as (results & w2 & -> & Hlen).
    do 2 eexists. split; [reflexivity|]. simpl. now rewrite Hlen.
Qed.

Lemma find_event_none (identifier : option json) (events : list json) :
  Forall (fun event => summary_matches identifier event = Ok false) events ->
  find_event identifier events = Ok None.
Proof.
  induction 1 as [|event rest He _ IH]; simpl; [reflexivity|].
  now rewrite He.
Qed.

(** The search by title: one [events.get], which fails, then one
    [events.list] over the current month. *)
Lemma findEventByIdentifier_not_found (identifier : option json) (e : exn)
    (events : list json) (w : World Store) :
  events_get (store w) identifier = Throw e ->
  events_list (store w)
    (JSDate.toISOString (Moment.startOfMonth utcOffset now))
    (JSDate.toISOString (Moment.endOfMonth utcOffset now)) = Ok events ->
  Forall (fun event => summary_matches identifier event = Ok false) events ->
  find_by_identifier identifier w =
  (Ok None,
   {| store := store w;
      calls := calls w ++
               [EventsGet identifier;
                EventsList (JSDate.toISOString (Moment.startOfMonth utcOffset now))
                           (JSDate.toISOString (Moment.endOfMonth utcOffset now))] |}).
Proof.
  intros Hget Hlist Hnone.
  unfold findEventByIdentifier, try_catch, bind, calendar_events_get.
  rewrite Hget. unfold parseDateRange.
  change (Moment.parseDateRange utcOffset now "this month")
    with (JSDate.toISOString (Moment.startOfMonth utcOffset now),
          JSDate.toISOString (Moment.endOfMonth utcOffset now)).
  unfold getEvents, bind, logged, lift. cbn [store calls].
  rewrite Hlist, (find_event_none _ _ Hnone), <- app_assoc. reflexivity.
Qed.

Lemma serve_delete (args : option json) (w : World Store) :
  serve (tool_call "delete_calendar_event" args) w =
  try_catch
    (handleDeleteEvent Store events_get events_list events_delete now utcOffset
       Number_toString JSON_stringify2 args)
    (fun e => ret (error_content e)) w.
Proof. reflexivity. Qed.

Lemma serve_update (args : option json) (w : World Store) :
  serve (tool_call "update_calendar_event" args) w =
  try_catch
    (handleUpdateEvent Store events_get events_list events_update now utcOffset
       moment_tz timezone Number_toString JSON_stringify2 args)
    (fun e => ret (error_content e)) w.
Proof. reflexivity. Qed.



End Any.

Import Samples.


(** From the output of the model to the reply, over the sample store: the
    call is extracted, executed and answered with the error result, which
    [formatResponse] then words as a completed operation. *)
Example delete_unknown_event_end_to_end :
  let llmResponse :=
    quoted "{'intent':'delete_event','tool_calls':[{'name':'delete_calendar_event','arguments':{'event_identifier':'lunch'}}]}" in
  exists r,
    MCPLLMService.parseToolResponse JSON_parse (fun _ => None) llmResponse = Some r /\
    MCPLLMService.toolCalls r
    = JArr [JObj [("name", JStr "delete_calendar_event");
                  ("arguments", JObj [("event_identifier", JStr "lunch")])]] /\
    fst (MCPLLMService.executeTools (list json) serve
           [JObj [("name", JStr "delete_calendar_event");
                  ("arguments", JObj [("event_identifier", JStr "lunch")])]]
           {| store := [dinner]; calls := [] |})
    = Ok [error_content (Error "Event not found: lunch")] /\
    MCPLLMService.formatResponse JSON_parse decimal_number (fun _ => "") (fun _ => false)
      (MCPLLMService.intent r) [error_content (Error "Event not found: lunch")]
    = Ok "✅ Operation completed".
Proof. eexists. repeat split; vm_compute; reflexivity. Qed.

(** Without [confirmation] the same call deletes the event. *)
Example delete_confirmed_by_default :
  serve (tool_call "delete_calendar_event"
           (Some (JObj [("event_identifier", JStr "evt1")])))
    {| store := [dinner]; calls := [] |}
  = (Ok (text_content
           (quoted "{'success':true,'message':'Event deleted: Dinner with Dana','deletedEvent':'Dinner with Dana'}")),
     {| store := [];
        calls := [EventsGet (Some (JStr "evt1")); EventsDelete (Some (JStr "evt1"))] |}).
Proof. vm_compute. reflexivity. Qed.


End ServerFacts.

(* ================================================================== *)
(** * Further properties of the code *)
(* ================================================================== *)

Module TitleFacts.
Import JSText MCPLLMPipeline.

Lemma length_before (c : ascii) (s : string) :
  String.length (before c s) <= String.length s.
Proof.
  induction s as [|x r IH]; simpl; [lia|].
  destruct (x =? c)%char; simpl; lia.
Qed.

Lemma has_char_before (c d : ascii) (s : string) :
  has_char c s = false -> has_char c (before d s) = false.
Proof.
  induction s as [|x r IH]; simpl; [reflexivity|].
  intros H. apply orb_false_iff in H as [Hx Hr].
  destruct (x =? d)%char; simpl; [reflexivity|].
  rewrite Hx. simpl. auto.
Qed.

Lemma before_stops (c : ascii) (s : string) : has_char c (before c s) = false.
Proof.
  induction s as [|x r IH]; simpl; [reflexivity|].
  destruct (x =? c)%char eqn:E; simpl; [reflexivity|].
  rewrite E. simpl. exact IH.
Qed.

Lemma length_trimStart (s : string) :
  String.length (trimStart s) <= String.length s.
Proof.
  induction s as [|x r IH]; simpl; [lia|].
  destruct (is_space x); simpl; lia.
Qed.

Lemma length_trimEnd (s : string) :
  String.length (trimEnd s) <= String.length s.
Proof.
  induction s as [|x r IH]; simpl; [lia|].
  destruct (trimEnd r); [destruct (is_space x)|]; simpl in *; lia.
Qed.

Lemma has_char_trimStart (c : ascii) (s : string) :
  has_char c s = false -> has_char c (trimStart s) = false.
Proof.
  induction s as [|x r IH]; simpl; [reflexivity|].
  intros H. destruct (is_space x).
  - apply orb_false_iff in H as [_ Hr]. auto.
  - exact H.
Qed.

Lemma has_char_trimEnd (c : ascii) (s : string) :
  has_char c s = false -> has_char c (trimEnd s) = false.
Proof.
  induction s as [|x r IH]; simpl; [reflexivity|].
  intros H. apply orb_false_iff in H as [Hx Hr].
  specialize (IH Hr).
  destruct (trimEnd r).
  - destruct (is_space x); simpl; [reflexivity|]. now rewrite Hx.
  - cbn [has_char]. rewrite Hx. exact IH.
Qed.

Lemma length_prefix (n : nat) :
  forall s, String.length (substring 0 n s) <= n.
Proof.
  induction n as [|n IH]; intros [|x r]; simpl; try lia.
  specialize (IH r). lia.
Qed.

Lemma has_char_prefix (c : ascii) (n : nat) :
  forall s, has_char c s = false -> has_char c (substring 0 n s) = false.
Proof.
  induction n as [|n IH]; intros [|x r]; simpl; try reflexivity.
  intros H. apply orb_false_iff in H as [Hx Hr]. rewrite Hx. simpl. auto.
Qed.

Lemma has_char_app (c : ascii) (a b : string) :
  has_char c (a ++ b) = has_char c a || has_char c b.
Proof.
  induction a as [|x r IH]; simpl; [reflexivity|].
  rewrite IH. now rewrite orb_assoc.
Qed.

Lemma append_assoc (a b c : string) : ((a ++ b) ++ c = a ++ (b ++ c))%string.
Proof. induction a as [|x r IH]; simpl; [reflexivity|]. now rewrite IH. Qed.

Lemma append_nil_r (a : string) : (a ++ "" = a)%string.
Proof. induction a as [|x r IH]; simpl; [reflexivity|]. now rewrite IH. Qed.

Lemma length_app (a b : string) :
  String.length (a ++ b) = String.length a + String.length b.
Proof. induction a as [|x r IH]; simpl; [reflexivity|]. now rewrite IH. Qed.

Lemma prefix_before (c : ascii) (n : nat) :
  forall s, n <= String.length (before c s) ->
            substring 0 n (before c s) = substring 0 n s.
Proof.
  induction n as [|n IH]; intros s H.
  - destruct (before c s), s; reflexivity.
  - destruct s as [|x r]; [reflexivity|].
    simpl in *. destruct (x =? c)%char; simpl in *; [lia|].
    f_equal. apply IH. lia.
Qed.


End TitleFacts.

Module ConfigFacts.
Import Config.

(** X2.  Whatever the environment holds, no setting is left empty: every
    debug flag is on, every number is an integer other than zero and every
    text is not the empty string (a variable that is not set, is empty, has
    no leading digits or reads as zero gives the default). *)
Theorem config_never_empty (env : string -> option string) :
  let c := config env in
  (enabled (debug c) = true /\ logLLMPrompts (debug c) = true /\
   logLLMResponses (debug c) = true /\ logToolCalls (debug c) = true /\
   logCalendarAPI (debug c) = true /\ saveDebugToFile (debug c) = true) /\
  (defaultEventDuration (calendar c) <> 0 /\ timeout (llm c) <> 0 /\
   maxRetries (llm c) <> 0 /\ maxConcurrentCalendarOps (processing c) <> 0 /\
   duplicateEventWindowMinutes (processing c) <> 0 /\
   messageProcessingDelayMs (processing c) <> 0)%Z /\
  (targetGroupName (whatsapp c) <> "" /\ replyMessage (whatsapp c) <> "" /\
   credentialsPath (calendar c) <> "" /\ calendarId (calendar c) <> "" /\
   timezone (calendar c) <> "" /\ baseUrl (llm c) <> "" /\ model (llm c) <> "" /\
   level (logging c) <> "" /\ logFilePath (logging c) <> "").
Proof.
  assert (F : forall k, flag env k true = true).
  { intros k. unfold flag. apply orb_true_r. }
  assert (N : forall k d, d <> 0%Z -> number env k d <> 0%Z).
  { intros k d Hd. unfold number.
    destruct (JSText.parseInt_opt (env k)) as [n|]; [|exact Hd].
    destruct (n =? 0)%Z eqn:E; [exact Hd|]. now apply Z.eqb_neq. }
  assert (S : forall k d, d <> "" -> text env k d <> "").
  { intros k d Hd. unfold text.
    destruct (env k) as [v|]; [|exact Hd].
    destruct (v =? "") eqn:E; [exact Hd|]. now apply String.eqb_neq. }
  cbn -[flag number text].
  repeat split; try apply F; try (apply N; discriminate); apply S; discriminate.
Qed.

(** The default of a number: a variable that reads as zero does not switch
    the setting off. *)
Example maxRetries_of_zero :
  maxRetries (llm (config (fun k => if k =? "LLM_MAX_RETRIES" then Some " 0" else None)))
  = 3%Z.
Proof. reflexivity. Qed.

End ConfigFacts.

Module LogFacts.
Import JSText DebugLogger.
Local Open Scope Z_scope.

Lemma is_digit_char (c : ascii) (d : Z) :
  digit_val c = Some d ->
  is_space c = false /\
  (exists b0 b1 b2 b3, c = Ascii b0 b1 b2 b3 true true false false).
Proof.
  destruct c as [[] [] [] [] [] [] [] []]; vm_compute; intros H;
    try discriminate H; split; try reflexivity; eauto.
Qed.

Lemma read_digits_count (s : string) :
  forall a c v cnt rest, read_digits s a c = (v, cnt, rest) -> c <= cnt.
Proof.
  induction s as [|x r IH]; simpl; intros a c v cnt rest H.
  - inversion H. lia.
  - destruct (digit_val x).
    + apply IH in H. lia.
    + inversion H. lia.
Qed.

(** A text that [read_digits] reads to its end. *)
Lemma parseInt_digits (s : string) (v cnt : Z) :
  s <> ""%string -> read_digits s 0 0 = (v, cnt, ""%string) -> parseInt s = Some v.
Proof.
  destruct s as [|c r]; [congruence|]. intros _ H.
  assert (Hc : exists d, digit_val c = Some d).
  { simpl in H. destruct (digit_val c); [eauto|discriminate]. }
  destruct Hc as [d Hd].
  destruct (is_digit_char c d Hd) as [Hsp (b0 & b1 & b2 & b3 & ->)].
  assert (Hcnt : 1 <= cnt).
  { simpl in H. rewrite Hd in H. now apply read_digits_count in H. }
  unfold parseInt. cbn [trimStart]. rewrite Hsp.
  assert (Hx : forall x r', r = String x r' ->
               ((x =? "x") || (x =? "X"))%char = false).
  { intros x r' ->. simpl in H. rewrite Hd in H. simpl in H.
    destruct (digit_val x) as [e|] eqn:Ex; [|discriminate].
    destruct x as [[] [] [] [] [] [] [] []]; vm_compute in Ex; try discriminate Ex;
      reflexivity. }
  assert (Hz : (cnt =? 0) = false) by (apply Z.eqb_neq; lia).
  destruct b0, b1, b2, b3;
    try (rewrite H; cbn; rewrite Hz; reflexivity);
    try (destruct r as [|x r'];
         [rewrite H; cbn; rewrite Hz; reflexivity
         | rewrite (Hx x r' eq_refl); rewrite H; cbn; rewrite Hz; reflexivity]).
Qed.

Lemma read_digits_zeros (k : nat) (s : string) :
  forall a c, read_digits (zeros k ++ s) a c
              = read_digits s (a * 10 ^ Z.of_nat k) (c + Z.of_nat k).
Proof.
  induction k as [|k IH]; intros a c.
  - simpl. f_equal; lia.
  - change (zeros (S k) ++ s)%string with (String "0" (zeros k ++ s)).
    change (read_digits (String "0" (zeros k ++ s)) a c)
      with (read_digits (zeros k ++ s) (10 * a + 0) (c + 1)).
    rewrite IH. rewrite Nat2Z.inj_succ, Z.pow_succ_r by lia. f_equal; [ring|lia].
Qed.

Lemma read_digits_app (pre : string) :
  forall rest a c v cnt,
    read_digits pre a c = (v, cnt, ""%string) ->
    read_digits (pre ++ rest) a c = read_digits rest v cnt.
Proof.
  induction pre as [|x r IH]; simpl; intros rest a c v cnt H.
  - now inversion H.
  - destruct (digit_val x); [now apply IH|discriminate].
Qed.

Lemma digits_fuel_read (f : nat) :
  forall n acc, 0 <= n < 2 ^ Z.of_nat (S f) ->
    exists pre k, digits_fuel (S f) n acc = (pre ++ acc)%string /\ 0 < k /\
      forall a c, read_digits pre a c = (a * 10 ^ k + n, c + k, ""%string).
Proof.
  assert (One : forall n acc, 0 <= n < 10 ->
            exists pre k,
              String (ascii_of_nat (Z.to_nat (48 + n mod 10))) acc = (pre ++ acc)%string /\
              0 < k /\
              forall a c, read_digits pre a c = (a * 10 ^ k + n, c + k, ""%string)).
  { intros n acc Hn.
    exists (String (JSDate.digit (n mod 10)) ""), 1. split; [reflexivity|].
    split; [lia|]. intros a c. cbn [read_digits].
    rewrite DateFacts.digit_val_digit by (rewrite Z.mod_small; lia).
    rewrite Z.mod_small by lia. f_equal. f_equal. lia. }
  induction f as [|f IH]; intros n acc Hn; cbn [digits_fuel].
  - destruct (n <? 10) eqn:E; [apply One; lia|].
    apply Z.ltb_ge in E. change (2 ^ Z.of_nat 1) with 2 in Hn. lia.
  - destruct (n <? 10) eqn:E; [apply Z.ltb_lt in E; apply One; lia|].
    apply Z.ltb_ge in E.
    assert (Hq : 0 <= n / 10 < 2 ^ Z.of_nat (S f)).
    { rewrite (Nat2Z.inj_succ (S f)), Z.pow_succ_r in Hn by lia.
      split; [apply Z.div_pos; lia|].
      apply Z.div_lt_upper_bound; lia. }
    destruct (IH (n / 10) (String (ascii_of_nat (Z.to_nat (48 + n mod 10))) acc) Hq)
      as (pre & k & Hpre & Hk & Hread).
    exists (pre ++ String (JSDate.digit (n mod 10)) "")%string, (k + 1).
    split; [|split; [lia|]].
    + cbn [digits_fuel] in Hpre. rewrite Hpre.
      rewrite TitleFacts.append_assoc. reflexivity.
    + intros a c. rewrite (read_digits_app pre _ a c _ _ (Hread a c)).
      cbn [read_digits].
      rewrite DateFacts.digit_val_digit by (apply DateFacts.mod10_digit).
      rewrite Z.pow_add_r, Z.pow_1_r by lia.
      pose proof (Z.div_mod n 10 ltac:(lia)) as Hdm.
      replace (10 * (a * 10 ^ k + n / 10) + n mod 10) with (a * (10 ^ k * 10) + n)
        by (rewrite Hdm at 1; ring).
      replace (c + k + 1) with (c + (k + 1)) by ring. reflexivity.
Qed.

Lemma decimal_read (n : Z) :
  0 <= n ->
  exists k, 0 < k /\
    forall a c, read_digits (decimal n) a c = (a * 10 ^ k + n, c + k, ""%string).
Proof.
  intros Hn. unfold decimal.
  replace (n <? 0) with false by (symmetry; apply Z.ltb_ge; lia).
  rewrite Z.abs_eq by lia.
  assert (Hb : 0 <= n < 2 ^ Z.of_nat (S (Z.to_nat (Z.log2 n)))).
  { split; [lia|]. rewrite Nat2Z.inj_succ, Z2Nat.id by apply Z.log2_nonneg.
    destruct (Z.eq_dec n 0) as [->|Hz]; [reflexivity|].
    apply Z.log2_spec. lia. }
  destruct (digits_fuel_read _ n ""%string Hb) as (pre & k & Hpre & Hk & Hread).
  exists k. split; [exact Hk|]. intros a c. rewrite Hpre.
  rewrite TitleFacts.append_nil_r. apply Hread.
Qed.

(** The label of a step reads back as the counter. *)
Lemma step_label_parses (n : Z) :
  0 <= n -> parseInt (step_label n) = Some n.
Proof.
  intros Hn. destruct (decimal_read n Hn) as (k & Hk & Hread).
  unfold step_label, padStart0.
  set (j := (3 - String.length (decimal n))%nat).
  assert (R : read_digits (zeros j ++ decimal n) 0 0 = (n, Z.of_nat j + k, ""%string)).
  { rewrite read_digits_zeros, Hread.
    replace (0 * 10 ^ Z.of_nat j * 10 ^ k + n) with n by ring.
    replace (0 + Z.of_nat j + k) with (Z.of_nat j + k) by ring. reflexivity. }
  apply (parseInt_digits _ _ _) with (2 := R).
  intros E. destruct (decimal n) eqn:D.
  - specialize (Hread 0 0). simpl in Hread. inversion Hread. lia.
  - destruct j; discriminate E.
Qed.

Lemma flags_on (env : string -> option string) :
  Config.enabled (Config.debug (Config.config env)) = true /\
  Config.saveDebugToFile (Config.debug (Config.config env)) = true.
Proof. split; cbn -[Config.flag]; unfold Config.flag; apply orb_true_r. Qed.

Lemma log_steps (env : string -> option string)
    (calls : list (string * string * option json * string)) :
  forall l, 0 <= stepCounter l ->
    let l' := fold_left
                (fun l '(category, title, data, timestamp) =>
                   log (Config.config env) category title data timestamp l)
                calls l in
    stepCounter l' = stepCounter l + Z.of_nat (List.length calls) /\
    map step (file l')
    = (map step (file l)
       ++ map (fun i => Some (stepCounter l + Z.of_nat i)) (seq 1 (List.length calls)))%list.
Proof.
  destruct (flags_on env) as [En Sv].
  induction calls as [|[[[category title] data] timestamp] calls IH]; intros l Hl.
  - cbn. split; [lia|]. now rewrite app_nil_r.
  - cbn [fold_left List.length].
    set (l1 := log (Config.config env) category title data timestamp l).
    assert (H1 : stepCounter l1 = stepCounter l + 1 /\
                 map step (file l1)
                 = (map step (file l) ++ [Some (stepCounter l + 1)])%list).
    { unfold l1, log. rewrite En, Sv. cbn [negb]. unfold saveToFile.
      cbn [stepCounter file]. split; [reflexivity|].
      rewrite map_app. cbn [map step]. rewrite step_label_parses by lia. reflexivity. }
    destruct H1 as [C1 F1].
    destruct (IH l1 ltac:(lia)) as [C2 F2]. cbv zeta. split.
    + rewrite C2, C1. lia.
    + rewrite F2, F1, <- app_assoc. f_equal. cbn [seq map app].
      replace (stepCounter l + Z.of_nat 1) with (stepCounter l + 1) by lia.
      f_equal.
      rewrite <- (seq_shift (List.length calls) 1), map_map. apply map_ext. intros i.
      rewrite C1. f_equal. lia.
Qed.

(** X3.  The lines of the log file are numbered 1, 2, 3, ... without a gap,
    whatever the environment: each call of [log] appends one line whose
    [step], read back by [parseInt] from the zero-padded label, is the
    counter. *)
Theorem log_numbers_its_lines (env : string -> option string)
    (calls : list (string * string * option json * string)) :
  let l := fold_left
             (fun l '(category, title, data, timestamp) =>
                log (Config.config env) category title data timestamp l)
             calls fresh in
  stepCounter l = Z.of_nat (List.length calls) /\
  map step (file l) = map (fun i => Some (Z.of_nat i)) (seq 1 (List.length calls)).
Proof.
  destruct (log_steps env calls fresh ltac:(simpl; lia)) as [C F].
  cbv zeta. split; [exact C|]. rewrite F. reflexivity.
Qed.

(** The text of a model answer that [logJSONParsing] keeps is at most 503
    characters long, and is the answer itself when that has at most 500. *)
Lemma preview_bounded (input : string) :
  (String.length (preview input) <= 503)%nat /\
  ((String.length input <= 500)%nat -> preview input = input).
Proof.
  unfold preview. split.
  - rewrite TitleFacts.length_app.
    pose proof (TitleFacts.length_prefix 500 input).
    destruct (Nat.ltb 500 (String.length input)); simpl; lia.
  - intros H. replace (Nat.ltb 500 (String.length input)) with false
      by (symmetry; apply Nat.ltb_ge; lia).
    assert (P : forall n s, (String.length s <= n)%nat -> substring 0 n s = s).
    { induction n as [|n IH]; intros [|x r] Hs; simpl in *; try reflexivity; try lia.
      f_equal. apply IH. lia. }
    rewrite P by exact H. apply TitleFacts.append_nil_r.
Qed.

End LogFacts.

Module RetryFacts.
Import MCPLLMPipeline.
Local Open Scope Z_scope.

Section Any.

Variable JSON_parse : string -> option json.
Variable object_walk : list (string * json) -> option exn.
Variable maxRetries : Z.
Variable post : nat -> outcome (option json).

Local Notation "'once'" := (request_once JSON_parse object_walk post).
Local Notation "'run'" := (attempts_loop JSON_parse object_walk maxRetries post).

Lemma request_once_returns (k : nat) : exists o, once k = Some o.
Proof.
  unfold request_once. destruct (post k) as [text|e]; [|eauto].
  unfold parseToolResponse_value.
  destruct text as [[| | |s| |]|]; eauto.
  destruct (ParseFacts.parseToolResponse_returns JSON_parse object_walk s) as [r ->].
  simpl. eauto.
Qed.

Lemma attempts_loop_spec (fuel : nat) :
  forall attempt done,
    Z.of_nat (requests done) = attempt - 1 ->
    (Z.to_nat (maxRetries - attempt + 1) < fuel)%nat ->
    exists r a,
      run fuel attempt done = Some (r, a) /\
      (requests done <= requests a)%nat /\
      Z.of_nat (requests a) <= Z.max (attempt - 1) maxRetries /\
      slept a = (slept done ++ pauses (S (requests done)) (requests a))%list /\
      (forall k, (requests done <= k)%nat -> (S k < requests a)%nat ->
                 exists e, once k = Some (Throw e)) /\
      match r with
      | Ok None => maxRetries < attempt /\ a = done
      | Ok (Some response) =>
          (requests done < requests a)%nat /\
          once (requests a - 1) = Some (Ok response)
      | Throw e =>
          Z.of_nat (requests a) = maxRetries /\
          exists e', once (requests a - 1) = Some (Throw e') /\
                     e = Error ("All LLM attempts failed: " ++ JS.message e')
      end.
Proof.
  assert (Empty : forall first n, (n <= first)%nat -> pauses first n = []).
  { intros first n H. unfold pauses. replace (n - first)%nat with 0%nat by lia.
    reflexivity. }
  induction fuel as [|f IH]; intros attempt done Hdone Hfuel; [lia|].
  cbn [attempts_loop].
  destruct (attempt <=? maxRetries) eqn:Le.
  2:{ apply Z.leb_gt in Le. exists (Ok None), done.
      rewrite Empty, app_nil_r by lia.
      repeat split; lia. }
  apply Z.leb_le in Le.
  destruct (request_once_returns (requests done)) as [o Ho]. rewrite Ho.
  destruct o as [response|error].
  - exists (Ok (Some response)), {| requests := S (requests done); slept := slept done |}.
    cbn [requests slept]. rewrite Empty, app_nil_r by lia.
    replace (S (requests done) - 1)%nat with (requests done) by lia.
    repeat split; try lia; exact Ho.
  - destruct (attempt =? maxRetries) eqn:Eq.
    + apply Z.eqb_eq in Eq.
      exists (Throw (Error ("All LLM attempts failed: " ++ JS.message error))),
             {| requests := S (requests done); slept := slept done |}.
      cbn [requests slept]. rewrite Empty, app_nil_r by lia.
      replace (S (requests done) - 1)%nat with (requests done) by lia.
      split; [reflexivity|]. split; [lia|]. split; [lia|]. split; [reflexivity|].
      split; [intros k H1 H2; lia|]. split; [lia|].
      exists error. split; [exact Ho|reflexivity].
    + apply Z.eqb_neq in Eq.
      set (next := {| requests := S (requests done);
                      slept := (slept done ++ [1000 * attempt])%list |}).
      destruct (IH (attempt + 1) next) as (r & a & Hrun & Hge & Hle & Hsl & Hfail & Hres).
      { cbn [next requests]. lia. }
      { lia. }
      cbn [next requests slept] in *.
      assert (Hgt : (S (S (requests done)) <= requests a)%nat).
      { destruct r as [[response|]|e].
        - destruct Hres as [H1 _]. lia.
        - destruct Hres as [H1 _]. lia.
        - destruct Hres as [H1 _]. lia. }
      exists r, a. split; [exact Hrun|].
      split; [lia|]. split; [lia|]. split; [|split].
      * rewrite Hsl, <- app_assoc. f_equal. unfold pauses.
        replace (requests a - S (requests done))%nat
          with (S (requests a - S (S (requests done))))%nat by lia.
        cbn [seq map app]. f_equal. f_equal. lia.
      * intros k H1 H2. destruct (Nat.eq_dec k (requests done)) as [->|Hk].
        -- eauto.
        -- apply Hfail; lia.
      * destruct r as [[response|]|e].
        -- destruct Hres as [H1 H2]. split; [lia|exact H2].
        -- destruct Hres as [H1 H2]. lia.
        -- exact Hres.
Qed.

Lemma sum_pauses (n : nat) :
  2 * fold_right Z.add 0 (pauses 1 n) = 1000 * Z.of_nat n * (Z.of_nat n - 1).
Proof.
  unfold pauses.
  assert (G : forall len first,
            2 * fold_right Z.add 0 (map (fun i => 1000 * Z.of_nat i) (seq first len))
            = 1000 * Z.of_nat len * (2 * Z.of_nat first + Z.of_nat len - 1)).
  { induction len as [|len IH]; intros first; [reflexivity|].
    cbn [seq map fold_right]. rewrite Z.mul_add_distr_l, IH. lia. }
  rewrite G. destruct n as [|n]; [reflexivity|].
  replace (S n - 1)%nat with n by lia. lia.
Qed.

(** X4.  [generateResponseWithTools] always returns: it sends at most
    [maxRetries] requests, every request before the last one has failed, and
    after the failed attempt number [i] it pauses for [1000 * i] ms, so a run
    of [n] requests has paused for [500 * n * (n - 1)] ms.  It returns the
    first answer that parses; when all [maxRetries] attempts fail it throws
    ["All LLM attempts failed: "] followed by the last error; when
    [maxRetries] is below one it sends nothing and returns [undefined]. *)
Theorem generateResponseWithTools_bounded :
  exists r a,
    generateResponseWithTools JSON_parse object_walk maxRetries post = Some (r, a) /\
    Z.of_nat (requests a) <= Z.max 0 maxRetries /\
    slept a = map (fun i => 1000 * Z.of_nat i) (seq 1 (requests a - 1)) /\
    2 * fold_right Z.add 0 (slept a)
    = 1000 * Z.of_nat (requests a) * (Z.of_nat (requests a) - 1) /\
    (forall k, (S k < requests a)%nat -> exists e, once k = Some (Throw e)) /\
    match r with
    | Ok None => maxRetries < 1 /\ requests a = 0%nat
    | Ok (Some response) =>
        (0 < requests a)%nat /\ once (requests a - 1) = Some (Ok response)
    | Throw e =>
        Z.of_nat (requests a) = maxRetries /\
        exists e', once (requests a - 1) = Some (Throw e') /\
                   e = Error ("All LLM attempts failed: " ++ JS.message e')
    end.
Proof.
  unfold generateResponseWithTools.
  destruct (attempts_loop_spec (S (Z.to_nat maxRetries)) 1 {| requests := 0; slept := [] |})
    as (r & a & Hrun & Hge & Hle & Hsl & Hfail & Hres).
  { reflexivity. }
  { lia. }
  cbn [requests slept] in *. exists r, a. split; [exact Hrun|].
  assert (Hs : slept a = pauses 1 (requests a)) by exact Hsl.
  repeat split.
  - lia.
  - exact Hs.
  - rewrite Hs. apply sum_pauses.
  - intros k Hk. apply Hfail; lia.
  - destruct r as [[response|]|e].
    + exact Hres.
    + destruct Hres as [H1 ->]. split; [exact H1|reflexivity].
    + exact Hres.
Qed.

End Any.

End RetryFacts.

Module WindowFacts.
Import JSDate.
Local Open Scope Z_scope.

Ltac zdiv := Z.to_euclidean_division_equations; lia.

Lemma replace_same (c : ascii) (s : string) : replace c (String c "") s = s.
Proof.
  induction s as [|x r IH]; simpl; [reflexivity|].
  destruct (x =? c)%char eqn:E.
  - apply Ascii.eqb_eq in E. now subst.
  - now rewrite IH.
Qed.

(** [new Date(d.toISOString())] is [d]. *)
Lemma Date_parse_toISOString (t : Z) :
  in_range t = true -> Date_parse (toISOString t) = Some t.
Proof.
  intros H.
  pose proof (DateFacts.Date_parse_relabelled t 0 "Z" H eq_refl) as R.
  rewrite replace_same, Z.sub_0_r, H in R. exact R.
Qed.

Lemma in_range_iff (t : Z) : in_range t = true <-> - maxTime <= t <= maxTime.
Proof.
  unfold in_range. rewrite andb_true_iff, !Z.leb_le. reflexivity.
Qed.

Section Zone.

Variable utcOffset : Z.

Lemma startOfDay_bounds (t : Z) :
  Moment.startOfDay utcOffset t <= t < Moment.startOfDay utcOffset t + msPerDay.
Proof. unfold Moment.startOfDay, msPerDay. zdiv. Qed.

Lemma weekday_bounds (t : Z) : 0 <= Moment.weekday utcOffset t < 7.
Proof. unfold Moment.weekday. zdiv. Qed.

Lemma month_bounds (t : Z) :
  Moment.startOfMonth utcOffset t <= t <= Moment.endOfMonth utcOffset t /\
  28 * msPerDay <= Moment.endOfMonth utcOffset t + 1 - Moment.startOfMonth utcOffset t
  <= 31 * msPerDay /\
  t - 31 * msPerDay < Moment.startOfMonth utcOffset t.
Proof.
  unfold Moment.endOfMonth, Moment.startOfMonth.
  pose proof (DateFacts.civil_from_days_valid ((t + Moment.offset utcOffset) / msPerDay)) as V.
  destruct (civil_from_days ((t + Moment.offset utcOffset) / msPerDay)) as [[y m] d].
  destruct V as [Hm Hd].
  pose proof (startOfDay_bounds t) as B.
  assert (D : 28 <= days_in_month y m <= 31).
  { unfold days_in_month.
    destruct (m =? 2); [destruct (is_leap y); lia|].
    destruct ((m =? 4) || (m =? 6) || (m =? 9) || (m =? 11))%bool; lia. }
  unfold msPerDay in *. lia.
Qed.


End Zone.


End WindowFacts.

Module HourFacts.
Import JSDate GPT4MCPBridge.
Local Open Scope Z_scope.

Lemma time_match_skips (pre s : string) :
  JSText.no_digit pre = true -> time_match (pre ++ s) = time_match s.
Proof.
  induction pre as [|c r IH]; simpl; [reflexivity|].
  destruct (digit_val c); [discriminate|]. exact IH.
Qed.

Lemma no_digit_app (a b : string) :
  JSText.no_digit (a ++ b) = (JSText.no_digit a && JSText.no_digit b)%bool.
Proof.
  induction a as [|c r IH]; simpl; [reflexivity|].
  destruct (digit_val c); [reflexivity|exact IH].
Qed.

(** The hour in figures, an optional space and the period, whatever
    follows. *)
Lemma time_match_hour (h : Z) (sp p post : string) :
  1 <= h <= 12 -> sp = ""%string \/ sp = " "%string ->
  p = "am"%string \/ p = "pm"%string ->
  time_match (decimal h ++ sp ++ p ++ post) = Some (h, p) /\
  JSText.no_digit (decimal h ++ sp ++ p ++ post) = false /\
  hour24 h p = h mod 12 + (if (p =? "pm")%string then 12 else 0).
Proof.
  intros Hh Hsp Hp.
  assert (C : h = 1 \/ h = 2 \/ h = 3 \/ h = 4 \/ h = 5 \/ h = 6 \/ h = 7 \/ h = 8
              \/ h = 9 \/ h = 10 \/ h = 11 \/ h = 12) by lia.
  destruct Hsp as [-> | ->], Hp as [-> | ->];
    repeat (destruct C as [C|C]; [subst h; repeat split; reflexivity|]);
    subst h; repeat split; reflexivity.
Qed.

Section Resolver.

Variable now : Z.
Variable utcOffset : Z.
Variable moment_tz : string -> option Z.

Lemma atHour_local (h t : Z) :
  0 <= h <= 23 ->
  (Moment.atHour utcOffset h t + Moment.offset utcOffset) / msPerDay
  = (t + Moment.offset utcOffset) / msPerDay /\
  (Moment.atHour utcOffset h t + Moment.offset utcOffset) mod msPerDay
  = h * msPerHour + t mod 1000.
Proof.
  intros Hh. unfold Moment.atHour, Moment.startOfDay, msPerDay, msPerHour.
  generalize (Moment.offset utcOffset). intros off.
  split; WindowFacts.zdiv.
Qed.


End Resolver.


End HourFacts.

Module CreateFacts.
Import JSDate CalendarService CalendarEvents.
Local Open Scope Z_scope.

Section Times.

Variable now : Z.
Variable utcOffset : Z.
Variable localOffset : Z.
Variable defaultDuration : Z.
Variable moment_tz_formats : string -> option Z.
Variable Date_other : json -> option Z.

Local Notation "'times'" :=
  (parseDateTime now utcOffset localOffset defaultDuration moment_tz_formats Date_other).
Local Notation "'off'" := (Moment.offset utcOffset).

(** [m.hour(h).minute(n).second(0)]: the local day stays, and so do the
    milliseconds. *)
Lemma set_time (h n t : Z) :
  set_second utcOffset 0 (set_minute utcOffset n (set_hour utcOffset h t))
  = Moment.startOfDay utcOffset t + h * msPerHour + n * 60000 + t mod 1000.
Proof.
  unfold set_second, set_minute, set_hour, offset, Moment.startOfDay, Moment.offset,
    msPerDay, msPerHour.
  WindowFacts.zdiv.
Qed.

Lemma local_time (h n t : Z) :
  0 <= h * msPerHour + n * 60000 < msPerDay - 1000 ->
  (Moment.startOfDay utcOffset t + h * msPerHour + n * 60000 + t mod 1000 + off)
    / msPerDay = (t + off) / msPerDay /\
  (Moment.startOfDay utcOffset t + h * msPerHour + n * 60000 + t mod 1000 + off)
    mod msPerDay = h * msPerHour + n * 60000 + t mod 1000.
Proof.
  unfold Moment.startOfDay, msPerDay, msPerHour. generalize off. intros o H.
  split; WindowFacts.zdiv.
Qed.


End Times.


End CreateFacts.

Module BridgeToolFacts.
Import CalendarService EventList BridgeTools.
Local Open Scope list_scope.

Section AnyService.

Variable Store : Type.
Variable getEvents : string -> string -> M Store (list json).
Variable createEvent : json -> M Store json.
Variable deleteEvent : option json -> M Store json.
Variable updateEvent : option json -> json -> M Store json.
Variable timezone : string.
Variable now : Z.
Variable jerusalemOffset : Z.
Variable serviceOffset : Z.
Variable moment_tz : string -> option Z.
Variable localOffset : Z.
Variable Date_other : json -> option Z.
Variable Number_toString : Z -> Z -> string.
Variable ToIntegerOrInfinity : json -> integer_or_infinity.
Variable JSON_parse : string -> option json.
Variable syntax_error_message : string -> string.

Local Notation "'list_events'" := (handleListEvents Store getEvents Number_toString).
Local Notation "'create_event'" :=
  (handleCreateEvent Store createEvent localOffset Date_other Number_toString).
Local Notation "'delete_event'" := (handleDeleteEvent Store deleteEvent Number_toString).
Local Notation "'update_event'" :=
  (handleUpdateEvent Store updateEvent timezone now jerusalemOffset moment_tz
     Number_toString).
Local Notation "'search_events'" :=
  (handleSearchEvents Store getEvents now serviceOffset ToIntegerOrInfinity).
Local Notation "'execute'" :=
  (GPT4MCPBridge.executeToolCall (World Store) JSON_parse syntax_error_message
     list_events create_event delete_event update_event search_events).

Lemma caught_returns (m : M Store json) (w : World Store) :
  exists r w', try_catch m (caught Store) w = (Ok r, w').
Proof.
  unfold try_catch, caught, ret. destruct (m w) as [[a|e] w']; eauto.
Qed.

Lemma destructure_null (k : unit -> M Store json) (w : World Store) :
  bind (destructure Store JNull) k w
  = (Throw (TypeError "Cannot destructure 'args' as it is null."), w).
Proof. reflexivity. Qed.

Lemma destructure_value (args : json) (k : unit -> M Store json) (w : World Store) :
  args <> JNull -> bind (destructure Store args) k w = k tt w.
Proof. intros H. destruct args; try reflexivity. congruence. Qed.

Lemma list_events_returns (args : json) (w : World Store) :
  args <> JNull -> exists r w', list_events args w = (Ok r, w').
Proof.
  intros H. unfold handleListEvents.
  rewrite destructure_value by exact H. apply caught_returns.
Qed.

Lemma create_event_returns (args : json) (w : World Store) :
  args <> JNull -> exists r w', create_event args w = (Ok r, w').
Proof.
  intros H. unfold handleCreateEvent.
  rewrite destructure_value by exact H. apply caught_returns.
Qed.

Lemma delete_event_returns (args : json) (w : World Store) :
  args <> JNull -> exists r w', delete_event args w = (Ok r, w').
Proof.
  intros H. unfold handleDeleteEvent.
  rewrite destructure_value by exact H. apply caught_returns.
Qed.

Lemma update_event_returns (args : json) (w : World Store) :
  args <> JNull -> exists r w', update_event args w = (Ok r, w').
Proof.
  intros H. unfold handleUpdateEvent.
  rewrite destructure_value by exact H. apply caught_returns.
Qed.

Lemma search_events_returns (args : json) (w : World Store) :
  args <> JNull -> exists r w', search_events args w = (Ok r, w').
Proof.
  intros H. unfold handleSearchEvents.
  rewrite destructure_value by exact H. apply caught_returns.
Qed.

(** X8.  [executeToolCall] throws in three cases only: the arguments are not
    JSON, they are [null], or the tool is not one of the five.  In every
    other case the handler returns a result object, whatever the calendar
    service does or throws. *)
Theorem executeToolCall_throws_iff (toolCall : GPT4MCPBridge.tool_call)
    (w : World Store) :
  (exists e, fst (execute toolCall w) = Throw e) <->
  (JSON_parse (GPT4MCPBridge.function_arguments toolCall) = None \/
   JSON_parse (GPT4MCPBridge.function_arguments toolCall) = Some JNull \/
   ~ In (GPT4MCPBridge.function_name toolCall) MCPLLMService.validToolNames).
Proof.
  unfold GPT4MCPBridge.executeToolCall, GPT4MCPBridge.parse.
  destruct (JSON_parse (GPT4MCPBridge.function_arguments toolCall)) as [args|].
  2:{ split; [auto|]. intros _. cbn. eauto. }
  set (name := GPT4MCPBridge.function_name toolCall).
  assert (Known : forall (h : json -> M Store json),
            (forall a w0, a <> JNull -> exists r w', h a w0 = (Ok r, w')) ->
            (exists e, fst (h JNull w) = Throw e) ->
            In name MCPLLMService.validToolNames ->
            ((exists e, fst (h args w) = Throw e) <->
             (Some args = None \/ Some args = Some JNull \/
              ~ In name MCPLLMService.validToolNames))).
  { intros h Hok Hnull Hin. split.
    - intros [e He]. right. left. f_equal.
      destruct args; try reflexivity;
        match goal with
        | He : fst (h ?a w) = Throw _ |- _ =>
            destruct (Hok a w ltac:(discriminate)) as (r & w' & Hr);
            rewrite Hr in He; discriminate He
        end.
    - intros [H|[H|H]]; [discriminate H| |contradiction].
      inversion H. exact Hnull. }
  destruct (name =? "list_calendar_events")%string eqn:E1.
  { apply String.eqb_eq in E1. apply Known.
    - apply list_events_returns.
    - cbn. eauto.
    - rewrite E1. simpl. auto. }
  destruct (name =? "create_calendar_event")%string eqn:E2.
  { apply String.eqb_eq in E2. apply Known.
    - apply create_event_returns.
    - cbn. eauto.
    - rewrite E2. simpl. auto. }
  destruct (name =? "delete_calendar_event")%string eqn:E3.
  { apply String.eqb_eq in E3. apply Known.
    - apply delete_event_returns.
    - cbn. eauto.
    - rewrite E3. simpl. auto 6. }
  destruct (name =? "update_calendar_event")%string eqn:E4.
  { apply String.eqb_eq in E4. apply Known.
    - apply update_event_returns.
    - cbn. eauto.
    - rewrite E4. simpl. auto 6. }
  destruct (name =? "search_calendar_events")%string eqn:E5.
  { apply String.eqb_eq in E5. apply Known.
    - apply search_events_returns.
    - cbn. eauto.
    - rewrite E5. simpl. auto 7. }
  apply String.eqb_neq in E1, E2, E3, E4, E5.
  split; [|intros _; cbn; eauto].
  intros _. right. right. simpl. intros [H|[H|[H|[H|[H|[]]]]]]; congruence.
Qed.



(** X9.  A call to create an event that gives neither [start_time] nor a
    truthy [end_time] fails with "Invalid time value" before the calendar
    service is called: the world is as it was. *)
Theorem create_without_times_fails (kvs : list (string * json)) (w : World Store) :
  assoc_last "start_time" kvs = None ->
  truthy_opt (assoc_last "end_time" kvs) = false ->
  create_event (JObj kvs) w
  = (Ok (JObj [("success", JBool false); ("error", JStr "Invalid time value")]), w).
Proof.
  intros Hs He. unfold handleCreateEvent.
  rewrite destructure_value by discriminate.
  cbn [field]. rewrite Hs, He. reflexivity.
Qed.

(** X10.  A call to update an event whose arguments have no [updates], or
    have [updates: null], fails inside the handler: the result says
    [success: false] and the calendar service is not called. *)
Theorem update_without_updates_fails (kvs : list (string * json)) (w : World Store) :
  assoc_last "updates" kvs = None \/ assoc_last "updates" kvs = Some JNull ->
  exists m,
    update_event (JObj kvs) w
    = (Ok (JObj [("success", JBool false); ("error", JStr m)]), w).
Proof.
  intros H. unfold handleUpdateEvent.
  rewrite destructure_value by discriminate.
  cbn [field]. destruct H as [-> | ->]; eexists; reflexivity.
Qed.

Lemma map_events_length (f : json -> outcome json) (l : list json) :
  forall l', map_events f l = Ok l' -> List.length l' = List.length l.
Proof.
  induction l as [|x r IH]; simpl; intros l' H.
  - now inversion H.
  - destruct (f x); [|discriminate]. simpl in H.
    destruct (map_events f r) as [xs|]; [|discriminate]. simpl in H.
    inversion H. simpl. f_equal. now apply IH.
Qed.

Lemma filter_events_length (keep : json -> outcome bool) (l : list json) :
  forall l', filter_events keep l = Ok l' -> (List.length l' <= List.length l)%nat.
Proof.
  induction l as [|x r IH]; simpl; intros l' H.
  - inversion H. simpl. lia.
  - destruct (keep x) as [b|]; [|discriminate]. simpl in H.
    destruct (filter_events keep r) as [xs|]; [|discriminate]. simpl in H.
    specialize (IH xs eq_refl). inversion H. destruct b; simpl; lia.
Qed.

(** X11.  A search that gives no [max_results] and succeeds returns at most
    ten events, and [count] is the number of events returned. *)
Theorem search_returns_at_most_ten (kvs : list (string * json)) (w w' : World Store)
    (r : json) :
  assoc_last "max_results" kvs = None ->
  search_events (JObj kvs) w = (Ok r, w') ->
  field r "success" = Some (JBool true) ->
  exists results,
    field r "events" = Some (JArr results) /\
    field r "count" = Some (JNum (Z.of_nat (List.length results)) 0) /\
    (List.length results <= 10)%nat.
Proof.
  intros Hmax. unfold handleSearchEvents.
  rewrite destructure_value by discriminate.
  cbn [field]. rewrite Hmax. cbn [default].
  unfold try_catch, bind, lift, caught, ret.
  destruct (parseDateRange_value now serviceOffset _) as [[startTime endTime]|e].
  2:{ intros H S. inversion H; subst. discriminate S. }
  destruct (getEvents startTime endTime w) as [[events|e] w1].
  2:{ intros H S. inversion H; subst. discriminate S. }
  destruct (filter_events _ events) as [matching|e].
  2:{ intros H S. inversion H; subst. discriminate S. }
  destruct (map_events listed _) as [results|e] eqn:Em.
  2:{ intros H S. inversion H; subst. discriminate S. }
  intros H _. inversion H; subst. exists results.
  apply map_events_length in Em.
  split; [|split].
  - destruct (assoc_last "query" kvs); reflexivity.
  - destruct (assoc_last "query" kvs); reflexivity.
  - rewrite Em. unfold slice0. cbn [to_integer Z.leb Z.compare].
    rewrite length_firstn.
    change (10 * 10 ^ 0)%Z with 10%Z. cbn [Z.ltb Z.compare]. lia.
Qed.

End AnyService.

Lemma search_returns_at_most_ten_witness :
  let w := {| store := repeat (JObj [("summary", JStr "Team sync")]) 12; calls := [] |} in
  let r := match fst (handleSearchEvents (list json)
                        (CalendarService.getEvents (list json) Samples.store_list)
                        1755604800000 180 (fun _ => PlusInfinity)
                        (JObj [("query", JStr "team")]) w) with
           | Ok r => r
           | Throw _ => JNull
           end in
  exists results,
    field r "events" = Some (JArr results) /\
    field r "count" = Some (JNum (Z.of_nat (List.length results)) 0) /\
    (List.length results <= 10)%nat.
Proof.
  intros w r.
  apply (search_returns_at_most_ten (list json)
           (CalendarService.getEvents (list json) Samples.store_list)
           1755604800000 180 (fun _ => PlusInfinity)
           [("query", JStr "team")] w
           (snd (handleSearchEvents (list json)
                   (CalendarService.getEvents (list json) Samples.store_list)
                   1755604800000 180 (fun _ => PlusInfinity)
                   (JObj [("query", JStr "team")]) w)) r);
    vm_compute; reflexivity.
Defined.

Lemma create_without_times_fails_witness :
  handleCreateEvent unit (fun _ => ret JNull) 0 (fun _ => None) decimal_number
    (JObj [("title", JStr "Lunch")]) {| store := tt; calls := [] |}
  = (Ok (JObj [("success", JBool false); ("error", JStr "Invalid time value")]),
     {| store := tt; calls := [] |}).
Proof.
  apply (create_without_times_fails unit (fun _ => ret JNull) 0 (fun _ => None)
           decimal_number [("title", JStr "Lunch")]); reflexivity.
Defined.

Lemma update_without_updates_fails_witness :
  exists m,
    handleUpdateEvent unit (fun _ _ => ret JNull) "Asia/Jerusalem" 1755604800000 180
      JSDate.Date_parse decimal_number
      (JObj [("event_id", JStr "evt1")]) {| store := tt; calls := [] |}
    = (Ok (JObj [("success", JBool false); ("error", JStr m)]),
       {| store := tt; calls := [] |}).
Proof.
  apply (update_without_updates_fails unit (fun _ _ => ret JNull) "Asia/Jerusalem"
           1755604800000 180 JSDate.Date_parse decimal_number
           [("event_id", JStr "evt1")]).
  left. reflexivity.
Defined.

Section RealService.

Variable Store : Type.
Variable events_delete : Store -> option json -> outcome unit * Store.
Variable events_insert : Store -> json -> outcome json * Store.
Variable now : Z.
Variable utcOffset : Z.
Variable localOffset : Z.
Variable timezone : string.
Variable defaultDuration : Z.
Variable moment_tz_formats : string -> option Z.
Variable Date_other : json -> option Z.
Variable Number_toString : Z -> Z -> string.
Variable percent : json -> string.
Variable same_value : json -> json -> bool.

Local Notation "'delete_event'" :=
  (handleDeleteEvent Store (CalendarService.deleteEvent Store events_delete)
     Number_toString).
Local Notation "'create_event'" :=
  (handleCreateEvent Store
     (CalendarEvents.createEvent Store events_insert now utcOffset localOffset
        timezone defaultDuration moment_tz_formats Date_other Number_toString
        percent same_value)
     localOffset Date_other Number_toString).

(** X12.  The delete handler of the bridge sends exactly one request,
    [events.delete] for [args.event_id], whatever else the arguments hold: it
    looks nothing up and asks for no confirmation, and its [success] is the
    outcome of that request. *)
Theorem bridge_delete_sends_one_request (kvs : list (string * json))
    (w : World Store) :
  exists r,
    delete_event (JObj kvs) w
    = (Ok r,
       {| store := snd (events_delete (store w) (assoc_last "event_id" kvs));
          calls := calls w ++ [EventsDelete (assoc_last "event_id" kvs)] |}) /\
    field r "success"
    = Some (JBool (match fst (events_delete (store w) (assoc_last "event_id" kvs)) with
                   | Ok _ => true
                   | Throw _ => false
                   end)).
Proof.
  unfold handleDeleteEvent. rewrite destructure_value by discriminate.
  cbn [field]. unfold try_catch, bind, lift, ret, CalendarService.deleteEvent, logged.
  destruct (events_delete (store w) (assoc_last "event_id" kvs)) as [[u|e] st];
    cbn; eexists; (split; [reflexivity|]);
    destruct (assoc_last "event_id" kvs); reflexivity.
Qed.

Lemma includes_here (p s : string) : includes (p ++ s) p = true.
Proof.
  assert (S : starts_with p (p ++ s) = true).
  { induction p as [|c r IH]; simpl; [reflexivity|].
    now rewrite Ascii.eqb_refl, IH. }
  destruct p; simpl in *; [destruct s; reflexivity|]. now rewrite S.
Qed.

Lemma includes_after (a s p : string) :
  includes s p = true -> includes (a ++ s) p = true.
Proof.
  intros H. induction a as [|c r IH]; simpl; [exact H|].
  rewrite IH. apply orb_true_r.
Qed.

(** The description of an event whose [eventInfo] has no [confidence]. *)
Lemma description_without_confidence (eventInfo : json) :
  field eventInfo "confidence" = None ->
  includes (CalendarEvents.buildEventDescription Number_toString percent same_value
              eventInfo) "Confidence: NaN%" = true.
Proof.
  intros H. unfold CalendarEvents.buildEventDescription. rewrite H.
  cbn [CalendarEvents.confidence_text].
  do 11 (apply includes_after).
  change ("Confidence: " ++ "NaN" ++ "%" ++ ?x)%string with ("Confidence: NaN%" ++ x)%string.
  apply includes_here.
Qed.

Local Notation "'build'" :=
  (CalendarEvents.buildEventData now utcOffset localOffset timezone defaultDuration
     moment_tz_formats Date_other Number_toString percent same_value).
Local Notation "'create'" :=
  (CalendarEvents.createEvent Store events_insert now utcOffset localOffset
     timezone defaultDuration moment_tz_formats Date_other Number_toString
     percent same_value).

Lemma createEvent_world (eventInfo resource : json) (w : World Store) :
  build eventInfo = Ok resource ->
  exists r,
    create eventInfo w
    = (Ok r, {| store := snd (events_insert (store w) resource); calls := calls w |}).
Proof.
  intros H. unfold CalendarEvents.createEvent. rewrite H.
  destruct (events_insert (store w) resource) as [[event|e] st]; cbn [snd]; eauto.
  destruct (get event "htmlLink"); eauto.
Qed.

(** The event data of an [eventInfo] that gives both times as texts. *)
Lemma buildEventData_times (ikvs : list (string * json)) (s e : string) :
  assoc_last "startDateTime" ikvs = Some (JStr s) -> s <> ""%string ->
  assoc_last "endDateTime" ikvs = Some (JStr e) -> e <> ""%string ->
  exists resource,
    build (JObj ikvs) = Ok resource /\
    field resource "start"
    = Some (JObj [("dateTime", JStr s); ("timeZone", JStr timezone)]) /\
    field resource "end"
    = Some (JObj [("dateTime", JStr e); ("timeZone", JStr timezone)]) /\
    field resource "description"
    = Some (JStr (CalendarEvents.buildEventDescription Number_toString percent
                    same_value (JObj ikvs))).
Proof.
  intros Hs Hsn He Hen.
  apply String.eqb_neq in Hsn, Hen.
  unfold CalendarEvents.buildEventData, CalendarEvents.parseDateTime.
  cbn [get field obind]. rewrite Hs, He. cbn [truthy_opt truthy or_else].
  rewrite Hsn, Hen. cbn [negb obind].
  eexists. split; [reflexivity|].
  generalize (CalendarEvents.buildEventDescription Number_toString percent same_value
                (JObj ikvs)). intros description.
  destruct (assoc_last "title" ikvs) as [title|],
           (CalendarMCPServer.when_truthy (assoc_last "location" ikvs)) as [location|];
    repeat split; reflexivity.
Qed.

(** The create handler once the end time is settled. *)
Lemma bridge_create_with (kvs : list (string * json)) (s e : string)
    (w : World Store) :
  assoc_last "start_time" kvs = Some (JStr s) -> s <> ""%string -> e <> ""%string ->
  (if truthy_opt (assoc_last "end_time" kvs) then Ok (assoc_last "end_time" kvs)
   else obind (addOneHour_value localOffset Date_other (Some (JStr s)))
          (fun r => Ok (Some (JStr r))))
  = Ok (Some (JStr e)) ->
  exists r resource description,
    create_event (JObj kvs) w
    = (Ok r, {| store := snd (events_insert (store w) resource); calls := calls w |}) /\
    field resource "start"
    = Some (JObj [("dateTime", JStr s); ("timeZone", JStr timezone)]) /\
    field resource "end"
    = Some (JObj [("dateTime", JStr e); ("timeZone", JStr timezone)]) /\
    field resource "description" = Some (JStr description) /\
    includes description "Confidence: NaN%" = true.
Proof.
  intros Hs Hsn Hen Hend.
  unfold handleCreateEvent. rewrite destructure_value by discriminate.
  cbn [field]. rewrite Hs. rewrite Hend.
  unfold try_catch, bind, lift. cbv beta iota zeta.
  set (eventInfo := CalendarMCPServer.object _).
  assert (Hinfo : exists ikvs, eventInfo = JObj ikvs /\
            assoc_last "startDateTime" ikvs = Some (JStr s) /\
            assoc_last "endDateTime" ikvs = Some (JStr e) /\
            assoc_last "confidence" ikvs = None).
  { unfold eventInfo, CalendarMCPServer.object. eexists. split; [reflexivity|].
    generalize (or_else (assoc_last "description" kvs)
                  (JStr ("Created from WhatsApp: "
                         ++ BridgeTools.str Number_toString (assoc_last "title" kvs)))).
    intros description.
    generalize (BridgeTools.str Number_toString (assoc_last "title" kvs)).
    generalize (BridgeTools.str Number_toString (Some (JStr s))).
    intros x y.
    destruct (assoc_last "title" kvs), (assoc_last "location" kvs);
      repeat split; reflexivity. }
  destruct Hinfo as (ikvs & Hi & Hst & Hen' & Hconf).
  destruct (buildEventData_times ikvs s e Hst Hsn Hen' Hen)
    as (resource & Hb & Hstart & Hend' & Hdesc).
  rewrite <- Hi in Hb.
  destruct (createEvent_world eventInfo resource w Hb) as (res & Hc).
  rewrite Hc.
  assert (Hnan : includes (CalendarEvents.buildEventDescription Number_toString percent
                             same_value (JObj ikvs)) "Confidence: NaN%" = true)
    by (apply description_without_confidence; exact Hconf).
  destruct (get res "success"); eexists; exists resource; eexists;
    (split; [reflexivity|]);
    (split; [exact Hstart|]); (split; [exact Hend'|]); (split; [exact Hdesc|]);
    exact Hnan.
Qed.

(** X13.  When a call to create an event gives both times as texts, the
    event sent to the calendar carries them as they are, unread, and its
    description always holds the line "Confidence: NaN%". *)
Theorem bridge_create_passes_times (kvs : list (string * json)) (s e : string)
    (w : World Store) :
  assoc_last "start_time" kvs = Some (JStr s) -> s <> ""%string ->
  assoc_last "end_time" kvs = Some (JStr e) -> e <> ""%string ->
  exists r resource description,
    create_event (JObj kvs) w
    = (Ok r, {| store := snd (events_insert (store w) resource); calls := calls w |}) /\
    field resource "start"
    = Some (JObj [("dateTime", JStr s); ("timeZone", JStr timezone)]) /\
    field resource "end"
    = Some (JObj [("dateTime", JStr e); ("timeZone", JStr timezone)]) /\
    field resource "description" = Some (JStr description) /\
    includes description "Confidence: NaN%" = true.
Proof.
  intros Hs Hsn He Hen. apply bridge_create_with; try assumption.
  rewrite He. cbn [truthy_opt truthy].
  replace (negb (e =? "")%string) with true
    by (symmetry; apply negb_true_iff, String.eqb_neq, Hen).
  reflexivity.
Qed.


End RealService.

Lemma bridge_create_passes_times_witness :
  exists r resource description,
    handleCreateEvent (list json)
      (CalendarEvents.createEvent (list json) (fun st r => (Ok r, st ++ [r]))
         1755604800000 180 0 "Asia/Jerusalem" 60 (fun _ => None) (fun _ => None)
         decimal_number (fun _ => "80.0") (fun _ _ => false))
      0 (fun _ => None) decimal_number
      (JObj [("title", JStr "Lunch"); ("start_time", JStr "tomorrow");
             ("end_time", JStr "whenever")])
      {| store := []; calls := [] |}
    = (Ok r, {| store := snd ((fun st r => (Ok r, st ++ [r])) (@nil json) resource);
                calls := [] |}) /\
    field resource "start"
    = Some (JObj [("dateTime", JStr "tomorrow"); ("timeZone", JStr "Asia/Jerusalem")]) /\
    field resource "end"
    = Some (JObj [("dateTime", JStr "whenever"); ("timeZone", JStr "Asia/Jerusalem")]) /\
    field resource "description" = Some (JStr description) /\
    includes description "Confidence: NaN%" = true.
Proof.
  apply (bridge_create_passes_times (list json) (fun st r => (Ok r, st ++ [r]))
           1755604800000 180 0 "Asia/Jerusalem" 60 (fun _ => None) (fun _ => None)
           decimal_number (fun _ => "80.0") (fun _ _ => false)
           [("title", JStr "Lunch"); ("start_time", JStr "tomorrow");
            ("end_time", JStr "whenever")] "tomorrow" "whenever"
           {| store := []; calls := [] |});
    first [reflexivity | discriminate].
Defined.


End BridgeToolFacts.

Module ServerToolFacts.
Import JSDate CalendarService EventList ServerTools.
Local Open Scope list_scope.

Lemma assoc_last_other (k k' : string) (v : json) (kvs : list (string * json)) :
  k <> k' -> assoc_last k (kvs ++ [(k', v)]) = assoc_last k kvs.
Proof.
  intros H. induction kvs as [|[a b] r IH]; simpl.
  - apply String.eqb_neq in H. now rewrite H.
  - now rewrite IH.
Qed.

Section AnyService.

Variable Store : Type.
Variable createEvent : json -> M Store json.
Variable now : Z.
Variable utcOffset : Z.
Variable moment_tz : string -> option Z.
Variable localOffset : Z.
Variable moment_of : json -> option Z.
Variable Number_toString : Z -> Z -> string.
Variable JSON_stringify2 : json -> string.


(** X16.  The create handler of the server never reads [end_time]: whatever
    value the arguments give it, the handler does the same. *)
Theorem server_create_ignores_end_time (kvs : list (string * json)) (v : json)
    (w : World Store) :
  handleCreateEvent Store createEvent now localOffset moment_of Number_toString
    JSON_stringify2 (Some (JObj (kvs ++ [("end_time", v)]))) w
  = handleCreateEvent Store createEvent now localOffset moment_of Number_toString
      JSON_stringify2 (Some (JObj kvs)) w.
Proof.
  unfold handleCreateEvent, bind, lift. cbn [get_opt get].
  rewrite !assoc_last_other by discriminate.
  reflexivity.
Qed.

End AnyService.

(** The label that [extractTime] prints reads back as its hour, its minute
    and its period. *)
Lemma time_label_checked :
  forallb (fun H =>
    forallb (fun M =>
      match CalendarEvents.time_regex
              (JSText.strip_spaces
                 (toLowerCase (pad 2 H ++ ":" ++ pad 2 M ++ " "
                               ++ (if (H <? 12)%Z then "AM" else "PM"))%string)) with
      | Some (h, Some m, Some p) =>
          ((h =? H)%Z && (m =? M)%Z
           && (p =? (if (H <? 12)%Z then "am" else "pm"))%string)%bool
      | _ => false
      end) (map Z.of_nat (seq 0 60))) (map Z.of_nat (seq 0 24)) = true.
Proof. vm_compute. reflexivity. Qed.

Lemma time_label (H M : Z) :
  (0 <= H <= 23)%Z -> (0 <= M <= 59)%Z ->
  CalendarEvents.time_regex
    (JSText.strip_spaces
       (toLowerCase (pad 2 H ++ ":" ++ pad 2 M ++ " "
                     ++ (if (H <? 12)%Z then "AM" else "PM"))%string))
  = Some (H, Some M, Some (if (H <? 12)%Z then "am" else "pm")%string).
Proof.
  intros HH HM.
  assert (In_range : forall n x, (0 <= x < Z.of_nat n)%Z ->
                                 In x (map Z.of_nat (seq 0 n))).
  { intros n x Hx. apply in_map_iff. exists (Z.to_nat x). split; [lia|].
    apply in_seq. lia. }
  pose proof time_label_checked as C.
  rewrite forallb_forall in C. specialize (C H (In_range 24%nat H ltac:(lia))).
  rewrite forallb_forall in C. specialize (C M (In_range 60%nat M ltac:(lia))).
  destruct (CalendarEvents.time_regex _) as [[[h [m|]] [p|]]|]; try discriminate C.
  apply andb_prop in C as [C Cp]. apply andb_prop in C as [Ch Cm].
  apply Z.eqb_eq in Ch, Cm. apply String.eqb_eq in Cp. now subst.
Qed.

Section RealService.

Variable Store : Type.
Variable events_insert : Store -> json -> outcome json * Store.
Variable now : Z.
Variable utcOffset : Z.
Variable localOffset : Z.
Variable timezone : string.
Variable defaultDuration : Z.
Variable moment_tz_formats : string -> option Z.
Variable Date_other : json -> option Z.
Variable Number_toString : Z -> Z -> string.
Variable percent : json -> string.
Variable same_value : json -> json -> bool.
Variable moment_of : json -> option Z.
Variable JSON_stringify2 : json -> string.

Local Notation "'build'" :=
  (CalendarEvents.buildEventData now utcOffset localOffset timezone defaultDuration
     moment_tz_formats Date_other Number_toString percent same_value).
Local Notation "'create'" :=
  (CalendarEvents.createEvent Store events_insert now utcOffset localOffset
     timezone defaultDuration moment_tz_formats Date_other Number_toString
     percent same_value).
Local Notation "'create_event'" :=
  (handleCreateEvent Store create now localOffset moment_of Number_toString
     JSON_stringify2).
Local Notation "'off'" := (Moment.offset utcOffset).

Lemma createEvent_object (eventInfo resource : json) (w : World Store) :
  build eventInfo = Ok resource ->
  exists rkvs,
    create eventInfo w
    = (Ok (JObj rkvs),
       {| store := snd (events_insert (store w) resource); calls := calls w |}).
Proof.
  intros H. unfold CalendarEvents.createEvent. rewrite H.
  destruct (events_insert (store w) resource) as [[event|e] st]; cbn [snd];
    [|unfold failure; eauto].
  destruct (get event "htmlLink");
    [unfold CalendarMCPServer.object|unfold failure]; eauto.
Qed.

(** The event data of an [eventInfo] that gives a date and a time as
    texts and no [startDateTime]. *)
Lemma buildEventData_legacy (ikvs : list (string * json)) (ds ts : string) (D t : Z) :
  assoc_last "startDateTime" ikvs = None ->
  CalendarEvents.date_moment now utcOffset moment_tz_formats (assoc_last "date" ikvs)
  = Ok D ->
  CalendarEvents.with_time utcOffset (assoc_last "time" ikvs) D = Ok t ->
  exists resource,
    build (JObj ikvs) = Ok resource /\
    field resource "start"
    = Some (JObj [("dateTime", JStr (toISOString t)); ("timeZone", JStr timezone)]) /\
    field resource "end"
    = Some (JObj [("dateTime", JStr (toISOString (t + defaultDuration * 60000)));
                  ("timeZone", JStr timezone)]).
Proof.
  intros Hs Hd Ht.
  unfold CalendarEvents.buildEventData, CalendarEvents.parseDateTime.
  cbn [get field obind]. rewrite Hs. cbn [truthy_opt]. rewrite Hd. cbn [obind].
  rewrite Ht. cbn [obind].
  eexists. split; [reflexivity|].
  generalize (CalendarEvents.buildEventDescription Number_toString percent same_value
                (JObj ikvs)). intros description.
  destruct (assoc_last "title" ikvs) as [title|],
           (CalendarMCPServer.when_truthy (assoc_last "location" ikvs)) as [location|];
    split; reflexivity.
Qed.


End RealService.



End ServerToolFacts.
Module PipelineFacts.
Import CalendarService MCPLLMService.
Local Open Scope list_scope.

Lemma join_starts (sep x : string) (l : list string) :
  x <> ""%string -> join sep (x :: l) <> ""%string.
Proof.
  intros H. destruct l as [|y r]; [exact H|].
  destruct x; [congruence|]. cbn -[join]. discriminate.
Qed.

Lemma survivors_not_null (calls kept_calls : list json) :
  survivors calls = Ok kept_calls -> Forall (fun c => c <> JNull) kept_calls.
Proof.
  revert kept_calls. induction calls as [|c r IH]; cbn [survivors]; intros k H.
  - inversion H. constructor.
  - destruct (get c "name") eqn:Hc; [|discriminate].
    destruct (survivors r) as [r'|]; [|discriminate].
    inversion H; subst. destruct (kept c); [|now apply IH].
    constructor; [|now apply IH]. intros ->. discriminate Hc.
Qed.

(** The tool calls [parseToolResponse] returns in an array are not [null]. *)
Lemma parsed_calls_not_null (JSON_parse : string -> option json)
    (object_walk : list (string * json) -> option exn)
    (s : string) (r : response) (l : list json) :
  parseToolResponse JSON_parse object_walk s = Some r ->
  toolCalls r = JArr l -> Forall (fun c => c <> JNull) l.
Proof.
  assert (Fallback : toolCalls (fallback s) = JArr l -> Forall (fun c => c <> JNull) l).
  { intros H. inversion H. constructor. }
  unfold parseToolResponse, try_block.
  destruct (regex_match s) as [jsonString|]; [|intros H; inversion H; subst; exact Fallback].
  destruct (JSON_parse jsonString) as [parsed|];
    [|intros H; inversion H; subst; exact Fallback].
  destruct (get parsed "intent"); [|intros H; inversion H; subst; exact Fallback].
  destruct (get parsed "reasoning"); [|intros H; inversion H; subst; exact Fallback].
  destruct (get parsed "tool_calls") as [tc|];
    [|intros H; inversion H; subst; exact Fallback].
  unfold validate.
  destruct (or_else tc (JArr [])) as [| | | |arr|kvs];
    try (intros H; inversion H; subst; cbn [toolCalls]; discriminate).
  - rewrite ParseFacts.validate_loop_budget.
    destruct (survivors arr) as [arr'|] eqn:Hs;
      [|intros H; inversion H; subst; exact Fallback].
    intros H; inversion H; subst. cbn [toolCalls]. intros E. inversion E; subst.
    now apply survivors_not_null with (calls := arr).
  - destruct (assoc_last "length" kvs);
      [destruct (object_walk kvs)|];
      intros H; inversion H; subst; first [exact Fallback | cbn [toolCalls]; discriminate].
Qed.

Section Server.

Variable Store : Type.
Variable events_get : Store -> option json -> outcome json.
Variable events_list : Store -> string -> string -> outcome (list json).
Variable events_delete : Store -> option json -> outcome unit * Store.
Variable events_update : Store -> option json -> json -> outcome json * Store.
Variable getEvents : option string -> option string -> M Store (list json).
Variable createEvent : json -> M Store json.
Variable now : Z.
Variable utcOffset : Z.
Variable moment_tz : string -> option Z.
Variable timezone : string.
Variable localOffset : Z.
Variable moment_of : json -> option Z.
Variable Number_toString : Z -> Z -> string.
Variable JSON_stringify2 : json -> string.
Variable ToIntegerOrInfinity : json -> EventList.integer_or_infinity.
Variable JSON_parse : string -> option json.
Variable Date_toLocaleString : option json -> string.
Variable string_gt0 : string -> bool.

(** The server with its five handlers, over any calendar service. *)
Local Notation "'server' tools" :=
  (CalendarMCPServer.handleRequest Store events_get events_list events_delete
     events_update now utcOffset moment_tz timezone Number_toString JSON_stringify2
     (ServerTools.handleListEvents Store getEvents now utcOffset moment_tz
        JSON_stringify2)
     (ServerTools.handleCreateEvent Store createEvent now localOffset moment_of
        Number_toString JSON_stringify2)
     (ServerTools.handleSearchEvents Store getEvents now utcOffset JSON_stringify2
        ToIntegerOrInfinity)
     tools)
  (at level 10, tools at level 9).

Local Notation "'returns_text' m" :=
  (forall (w : World Store) (r : json) (w' : World Store),
      m w = (Ok r, w') -> exists s, r = CalendarMCPServer.text_content s)
  (at level 10, m at level 9).

Lemma text_bind {A : Type} (m : M Store A) (k : A -> M Store json) :
  (forall a, returns_text (k a)) -> returns_text (bind m k).
Proof.
  intros H w r w'. unfold bind. destruct (m w) as [[a|e] w1]; [apply H|discriminate].
Qed.

Lemma text_throw (e : exn) : returns_text (@throw Store json e).
Proof. discriminate. Qed.

Lemma text_ret (s : string) :
  returns_text (@ret Store json (CalendarMCPServer.text_content s)).
Proof. intros w r w' H. inversion H. eauto. Qed.

Ltac text_steps :=
  repeat first
    [ apply text_ret
    | apply text_throw
    | apply text_bind; intro
    | match goal with
      | |- context [if ?b then _ else _] => destruct b
      | |- context [let '(_, _) := ?p in _] => destruct p
      end ].

Lemma list_returns_text (args : option json) :
  returns_text (ServerTools.handleListEvents Store getEvents now utcOffset moment_tz
                  JSON_stringify2 args).
Proof. unfold ServerTools.handleListEvents. text_steps. Qed.

Lemma create_returns_text (args : option json) :
  returns_text (ServerTools.handleCreateEvent Store createEvent now localOffset
                  moment_of Number_toString JSON_stringify2 args).
Proof. unfold ServerTools.handleCreateEvent. text_steps. Qed.

Lemma search_returns_text (args : option json) :
  returns_text (ServerTools.handleSearchEvents Store getEvents now utcOffset
                  JSON_stringify2 ToIntegerOrInfinity args).
Proof. unfold ServerTools.handleSearchEvents. text_steps. Qed.

Lemma update_returns_text (args : option json) :
  returns_text (CalendarMCPServer.handleUpdateEvent Store events_get events_list
                  events_update now utcOffset moment_tz timezone Number_toString
                  JSON_stringify2 args).
Proof. unfold CalendarMCPServer.handleUpdateEvent. text_steps. Qed.

Lemma delete_returns_text (args : option json) :
  returns_text (CalendarMCPServer.handleDeleteEvent Store events_get events_list
                  events_delete now utcOffset Number_toString JSON_stringify2 args).
Proof. unfold CalendarMCPServer.handleDeleteEvent. text_steps. Qed.

(** What a [tools/call] request answers: a text, with [isError] or not. *)
Lemma call_answers (tools : json) (p : CalendarMCPServer.call_params)
    (w : World Store) :
  exists (s : string) (rest : list (string * json)) (w' : World Store),
    server tools {| CalendarMCPServer.method := "tools/call";
                    CalendarMCPServer.params := Some p |} w
    = (Ok (JObj (("content",
                  JArr [JObj [("type", JStr "text"); ("text", JStr s)]]) :: rest)), w')
    /\ assoc_last "error" rest = None /\ assoc_last "content" rest = None.
Proof.
  unfold CalendarMCPServer.handleRequest.
  cbn [CalendarMCPServer.method CalendarMCPServer.params String.eqb Ascii.eqb Bool.eqb].
  unfold try_catch.
  match goal with |- context [match ?m w with _ => _ end] =>
    assert (Hm : returns_text (fun w => m w)); [|destruct (m w) as [[r|e] w1] eqn:E]
  end.
  - repeat match goal with
           | |- context [if ?b then _ else _] => destruct b
           end;
      intros w0 r w' H;
      first [ eapply list_returns_text; exact H
            | eapply create_returns_text; exact H
            | eapply search_returns_text; exact H
            | eapply update_returns_text; exact H
            | eapply delete_returns_text; exact H
            | discriminate H ].
  - destruct (Hm _ _ _ E) as [s ->]. exists s, [], w1. repeat split.
  - eexists _, [("isError", JBool true)], w1. repeat split.
Qed.

(** The line of a result of the server. *)
Lemma result_line_answers (intent : json) (s : string) (rest : list (string * json)) :
  assoc_last "error" rest = None -> assoc_last "content" rest = None ->
  exists line,
    result_line JSON_parse Number_toString Date_toLocaleString string_gt0 intent
      (JObj (("content", JArr [JObj [("type", JStr "text"); ("text", JStr s)]]) :: rest))
    = Ok (Some line) /\ line <> ""%string.
Proof.
  intros He Hc. unfold result_line. cbn [get field assoc_last]. rewrite He, Hc.
  cbn [String.eqb Ascii.eqb Bool.eqb truthy_opt truthy index0 nth_error].
  destruct (content_line _ _ _ _ _ _) as [line|e] eqn:E;
    [|eexists; split; [reflexivity|discriminate]].
  exists line. split; [reflexivity|].
  unfold content_line in E.
  destruct (JSON_parse _) as [data|]; [|discriminate].
  destruct (get data "success") as [ok|]; [|discriminate].
  destruct (truthy_opt ok); [|inversion E; discriminate].
  unfold success_line in E.
  repeat match type of E with
         | (if ?b then _ else _) = _ => destruct b
         | match ?x with _ => _ end = _ => destruct x
         end;
    inversion E; discriminate.
Qed.

(** The loop over the tool calls and the reply built from its results. *)
Lemma tool_calls_run (tools intent : json) (toolCalls : list json) :
  Forall (fun c => c <> JNull) toolCalls ->
  forall w : World Store,
  exists (results : list json) (w' : World Store) (lines : list string),
    executeTools Store (server tools) toolCalls w = (Ok results, w') /\
    Forall (fun result => field result "error" = None) results /\
    collect JSON_parse Number_toString Date_toLocaleString string_gt0 intent results
    = Ok lines /\
    List.length results = List.length toolCalls /\
    List.length lines = List.length toolCalls /\
    Forall (fun line => line <> ""%string) lines.
Proof.
  induction 1 as [|call rest Hcall Hrest IH]; intros w.
  - exists [], w, []. repeat split; constructor.
  - cbn [executeTools]. unfold bind at 1, lift.
    rewrite (ParseFacts.get_field call "name" Hcall).
    unfold bind at 1, try_catch, executeTool.
    destruct (call_answers tools
                {| CalendarMCPServer.name := field call "name";
                   CalendarMCPServer.arguments := field call "arguments" |} w)
      as (s & more & w1 & -> & He & Hc).
    destruct (IH w1) as (results & w' & lines & Hrun & Herr & Hcol & Hlr & Hll & Hne).
    unfold bind, ret. rewrite Hrun.
    destruct (result_line_answers intent s more He Hc) as (line & Hline & Hl).
    eexists _, w', (line :: lines). split; [reflexivity|].
    split; [constructor; [cbn [field assoc_last]; rewrite He; reflexivity|exact Herr]|].
    split; [cbn [collect]; rewrite Hline, Hcol; reflexivity|].
    cbn [List.length]. repeat split; try congruence.
    constructor; assumption.
Qed.

Lemma reply_of_lines (intent : json) (results : list json) (lines : list string) :
  collect JSON_parse Number_toString Date_toLocaleString string_gt0 intent results
  = Ok lines ->
  results <> [] -> lines <> [] -> Forall (fun line => line <> ""%string) lines ->
  formatResponse JSON_parse Number_toString Date_toLocaleString string_gt0 intent
    results = Ok (join newline lines)
  /\ join newline lines <> ""%string.
Proof.
  intros Hcol Hr Hl Hne. destruct lines as [|l ls]; [congruence|].
  inversion Hne; subst.
  assert (J : join newline (l :: ls) <> ""%string) by now apply join_starts.
  split; [|exact J].
  unfold formatResponse. destruct results as [|r rs]; [congruence|].
  rewrite Hcol. cbv zeta.
  destruct (join newline (l :: ls) =? "")%string eqn:E; [|reflexivity].
  apply String.eqb_eq in E. congruence.
Qed.

(** X18.  Over the tool server every tool call that is not [null] gives one
    result and one line of the reply: executing the calls does not throw, no
    result is the [{ error }] of the loop's [catch], and the reply is the
    lines joined, never empty, so the default "Operation completed." is not
    used. *)
Theorem every_tool_call_gives_a_line (tools intent : json) (toolCalls : list json)
    (w : World Store) :
  Forall (fun c => c <> JNull) toolCalls ->
  exists (results : list json) (w' : World Store) (lines : list string),
    executeTools Store (server tools) toolCalls w = (Ok results, w') /\
    Forall (fun result => field result "error" = None) results /\
    collect JSON_parse Number_toString Date_toLocaleString string_gt0 intent results
    = Ok lines /\
    List.length results = List.length toolCalls /\
    List.length lines = List.length toolCalls /\
    Forall (fun line => line <> ""%string) lines /\
    (toolCalls <> [] ->
     formatResponse JSON_parse Number_toString Date_toLocaleString string_gt0 intent
       results = Ok (join newline lines)
     /\ join newline lines <> ""%string).
Proof.
  intros Hcalls.
  destruct (tool_calls_run tools intent toolCalls Hcalls w)
    as (results & w' & lines & Hrun & Herr & Hcol & Hlr & Hll & Hne).
  exists results, w', lines.
  split; [exact Hrun|]. split; [exact Herr|]. split; [exact Hcol|].
  split; [exact Hlr|]. split; [exact Hll|]. split; [exact Hne|].
  intros Hn. apply reply_of_lines; try assumption.
  - intros ->. destruct toolCalls; [congruence|discriminate].
  - intros ->. destruct toolCalls; [congruence|discriminate].
Qed.

Section Message.

Variable object_walk : list (string * json) -> option exn.
Variable maxRetries : Z.
Variable post : nat -> outcome (option json).

Lemma tools_logged_objects (ts : list (list (string * json))) :
  MCPLLMPipeline.tools_logged (Some (JArr (map JObj ts))) = Ok tt.
Proof.
  unfold MCPLLMPipeline.tools_logged.
  assert (H : EventList.map_events
                (fun t => EventList.obind (get t "name") (fun _ => Ok t)) (map JObj ts)
              = Ok (map JObj ts)).
  { induction ts as [|t r IH]; [reflexivity|].
    cbn [map EventList.map_events]. cbn [get EventList.obind]. rewrite IH. reflexivity. }
  rewrite H. reflexivity.
Qed.

(** X19.  A message handled over the tool server, whose catalog is an array
    of objects: [processEventMessage] always returns or throws, after at
    most [maxRetries] requests to the model.  When the result says
    [processed], the model gave at least one tool call, there is one result
    for each call, none of them an [{ error }], and the message is not
    empty.  In every other case, an error thrown included, the calendar is
    as it was and no request was sent to it. *)
Theorem processEventMessage_over_server (ts : list (list (string * json)))
    (w : World Store) :
  exists out w' a,
    MCPLLMPipeline.processEventMessage Store JSON_parse object_walk maxRetries post
      Number_toString Date_toLocaleString string_gt0
      (Some (server (JArr (map JObj ts)))) w
    = Some (out, w', a) /\
    (Z.of_nat (MCPLLMPipeline.requests a) <= Z.max 0 maxRetries)%Z /\
    match out with
    | Ok p =>
        if MCPLLMPipeline.processed p
        then exists calls results,
               MCPLLMPipeline.toolCalls p = Some (JArr calls) /\ calls <> [] /\
               MCPLLMPipeline.toolResults p = Some results /\
               List.length results = List.length calls /\
               Forall (fun result => field result "error" = None) results /\
               MCPLLMPipeline.message p <> ""%string
        else w' = w /\ MCPLLMPipeline.toolCalls p = None /\
             MCPLLMPipeline.toolResults p = None
    | Throw e => w' = w
    end.
Proof.
  unfold MCPLLMPipeline.processEventMessage.
  assert (Htools :
    bind (server (JArr (map JObj ts)) MCPLLMPipeline.tools_list)
      (fun toolsResponse =>
         lift (EventList.obind (get toolsResponse "tools") MCPLLMPipeline.tools_logged)) w
    = (Ok tt, w)).
  { unfold bind, lift, CalendarMCPServer.handleRequest, MCPLLMPipeline.tools_list, ret.
    cbn [CalendarMCPServer.method String.eqb Ascii.eqb Bool.eqb get assoc_last
         EventList.obind].
    now rewrite tools_logged_objects. }
  rewrite Htools. unfold MCPLLMPipeline.generateResponseWithTools.
  destruct (RetryFacts.attempts_loop_spec JSON_parse object_walk maxRetries post
              (S (Z.to_nat maxRetries)) 1
              {| MCPLLMPipeline.requests := 0; MCPLLMPipeline.slept := [] |})
    as (r & a & Hrun & _ & Hle & _ & _ & Hres).
  { reflexivity. }
  { lia. }
  rewrite Hrun. cbn [MCPLLMPipeline.requests] in Hle.
  destruct r as [[response|]|e].
  2:{ eexists _, _, _. split; [reflexivity|]. split; [lia|reflexivity]. }
  2:{ eexists _, _, _. split; [reflexivity|]. split; [lia|reflexivity]. }
  destruct Hres as [_ Hres]. unfold MCPLLMPipeline.request_once in Hres.
  destruct (post (MCPLLMPipeline.requests a - 1)) as [text|]; [|discriminate].
  unfold MCPLLMPipeline.parseToolResponse_value in Hres.
  destruct text as [[| | |s| |]|]; try discriminate.
  destruct (parseToolResponse JSON_parse object_walk s) as [r'|] eqn:Hp;
    [|discriminate].
  cbn [option_map] in Hres. assert (r' = response) by congruence. subst r'.
  destruct (toolCalls response) as [| | | |calls|] eqn:Hcalls;
    try (eexists _, _, _; split; [reflexivity|]; split; [lia|reflexivity]).
  destruct calls as [|c cs].
  { eexists _, _, _. split; [reflexivity|]. split; [lia|].
    cbn [MCPLLMPipeline.processed MCPLLMPipeline.toolCalls MCPLLMPipeline.toolResults].
    auto. }
  pose proof (parsed_calls_not_null JSON_parse object_walk s response (c :: cs) Hp Hcalls)
    as Hnn.
  destruct (tool_calls_run (JArr (map JObj ts)) (intent response) (c :: cs) Hnn w)
    as (results & w' & lines & Hexec & Herr & Hcol & Hlr & Hll & Hne).
  rewrite Hexec.
  destruct (reply_of_lines (intent response) results lines Hcol) as [Hfmt Hjoin];
    try assumption.
  { intros ->. discriminate. }
  { intros ->. discriminate. }
  rewrite Hfmt.
  eexists _, _, _. split; [reflexivity|]. split; [lia|].
  cbn [MCPLLMPipeline.processed MCPLLMPipeline.toolCalls MCPLLMPipeline.toolResults
       MCPLLMPipeline.message].
  exists (c :: cs), results. repeat split; try assumption. discriminate.
Qed.

End Message.

End Server.

Lemma every_tool_call_gives_a_line_witness :
  exists (results : list json) (w' : World (list json)) (lines : list string),
    executeTools (list json)
      (CalendarMCPServer.handleRequest (list json) Samples.store_get Samples.store_list
         Samples.store_delete Samples.store_update 1755604800000 180 JSDate.Date_parse
         "Asia/Jerusalem" decimal_number JSON_stringify
         (ServerTools.handleListEvents (list json) (fun _ _ => ret [])
            1755604800000 180 JSDate.Date_parse JSON_stringify)
         (ServerTools.handleCreateEvent (list json) (fun _ => ret JNull)
            1755604800000 0 (fun _ => None) decimal_number JSON_stringify)
         (ServerTools.handleSearchEvents (list json) (fun _ _ => ret [])
            1755604800000 180 JSON_stringify (fun _ => EventList.PlusInfinity))
         (JArr []))
      [JObj [("name", JStr "send_email")]; JNum 5 0;
       JObj [("name", JStr "delete_calendar_event");
             ("arguments", JObj [("event_identifier", JStr "evt1")])]]
      {| store := [Samples.dinner]; calls := [] |}
    = (Ok results, w') /\
    Forall (fun result => field result "error" = None) results /\
    collect JSON_parse decimal_number (fun _ => ""%string) (fun _ => false)
      (JStr "delete_event") results = Ok lines /\
    List.length results = 3%nat /\
    List.length lines = 3%nat /\
    Forall (fun line => line <> ""%string) lines /\
    ([JObj [("name", JStr "send_email")]; JNum 5 0;
      JObj [("name", JStr "delete_calendar_event");
            ("arguments", JObj [("event_identifier", JStr "evt1")])]] <> [] ->
     formatResponse JSON_parse decimal_number (fun _ => ""%string) (fun _ => false)
       (JStr "delete_event") results = Ok (join newline lines)
     /\ join newline lines <> ""%string).
Proof.
  apply (every_tool_call_gives_a_line (list json) Samples.store_get Samples.store_list
           Samples.store_delete Samples.store_update (fun _ _ => ret [])
           (fun _ => ret JNull) 1755604800000 180 JSDate.Date_parse "Asia/Jerusalem" 0
           (fun _ => None) decimal_number JSON_stringify
           (fun _ => EventList.PlusInfinity) JSON_parse (fun _ => ""%string)
           (fun _ => false) (JArr []) (JStr "delete_event")
           [JObj [("name", JStr "send_email")]; JNum 5 0;
            JObj [("name", JStr "delete_calendar_event");
                  ("arguments", JObj [("event_identifier", JStr "evt1")])]]
           {| store := [Samples.dinner]; calls := [] |}).
  repeat constructor; discriminate.
Defined.

End PipelineFacts.
